(** * snapd [dirs] package: root directory, mount-directory probe, path table,
      home-directory set and root-change callbacks.

    The development embeds [dirs/dirs.go] shallowly.  Go strings are byte
    sequences and are modelled as [list ascii]; the package-level variables
    become one record that is threaded through the operations; the file
    system and the [release] package are read-only oracles gathered in an
    environment record; a Go [panic] is an explicit result constructor. *)

From Stdlib Require Import Ascii String Bool Arith ZArith Lia List.
Import ListNotations.

Set Implicit Arguments.

(** ** Go strings *)

Module GoString.

(** A Go string is a sequence of bytes. *)
Definition gostring : Type := list ascii.

(** A Go string literal. *)
Definition str (s : string) : gostring := list_ascii_of_string s.

(** [a == b] *)
Fixpoint streq (a b : gostring) : bool :=
  match a, b with
  | [], [] => true
  | x :: a', y :: b' => Ascii.eqb x y && streq a' b'
  | _, _ => false
  end.

(** [s == ""] *)
Definition is_empty (s : gostring) : bool :=
  match s with [] => true | _ :: _ => false end.

(** [strings.HasPrefix]: [len(s) >= len(prefix) && s[:len(prefix)] == prefix]. *)
Definition HasPrefix (s prefix : gostring) : bool :=
  (length prefix <=? length s) && streq (firstn (length prefix) s) prefix.

(** [strings.HasSuffix]: [len(s) >= len(suffix) && s[len(s)-len(suffix):] == suffix]. *)
Definition HasSuffix (s suffix : gostring) : bool :=
  (length suffix <=? length s)
  && streq (skipn (length s - length suffix) s) suffix.

(** [strings.Split(s, sep)] for a one-byte separator: every substring between
    two occurrences of [sep], the empty ones included; [Split("", sep)] is the
    one-element slice holding the empty string. *)
Fixpoint Split (s : gostring) (sep : ascii) : list gostring :=
  match s with
  | [] => [[]]
  | c :: s' =>
      if Ascii.eqb c sep then [] :: Split s' sep
      else match Split s' sep with
           | [] => [[c]]
           | e :: es => (c :: e) :: es
           end
  end.

(** [strings.Join(elems, sep)]. *)
Fixpoint strings_Join (elems : list gostring) (sep : gostring) : gostring :=
  match elems with
  | [] => []
  | [e] => e
  | e :: es => e ++ sep ++ strings_Join es sep
  end.

(** [strings.Count(s, sep)] for a one-byte [sep]. *)
Fixpoint Count (s : gostring) (sep : ascii) : nat :=
  match s with
  | [] => 0
  | c :: s' => (if Ascii.eqb c sep then 1 else 0) + Count s' sep
  end.

End GoString.
Export GoString.

(** ** [path/filepath] on Unix *)

Module Filepath.

(** [filepath.Separator] *)
Definition Separator : ascii := "/"%char.

(** [os.IsPathSeparator] *)
Definition IsPathSeparator (c : ascii) : bool := Ascii.eqb c Separator.

(** [c == '.'] *)
Definition is_dot (c : ascii) : bool := Ascii.eqb c "."%char.

(** [filepath.IsAbs] on Unix: [strings.HasPrefix(path, "/")]. *)
Definition IsAbs (path : gostring) : bool := HasPrefix path [Separator].

(** [r == n || os.IsPathSeparator(path[r])] for the unread input [rest]. *)
Definition at_end_or_sep (rest : gostring) : bool :=
  match rest with
  | [] => true
  | c :: _ => IsPathSeparator c
  end.

(** The output buffer of [Clean] is kept last byte first, so that
    [out.append] is a cons and [out.w--] drops the head; [out.w] is the
    length of the list and [out.string()] its reversal. *)

(** [for out.w > dotdot && !os.IsPathSeparator(out.index(out.w)) { out.w-- }]
    where [last] is [out.index(out.w)], the byte dropped last. *)
Fixpoint backtrack_loop (dotdot : nat) (last : ascii) (buf : list ascii)
  : list ascii :=
  match buf with
  | [] => []
  | c :: buf' =>
      if (dotdot <? length buf) && negb (IsPathSeparator last)
      then backtrack_loop dotdot c buf'
      else buf
  end.

(** [out.w--] followed by the loop above. *)
Definition backtrack (dotdot : nat) (buf : list ascii) : list ascii :=
  match buf with
  | [] => []
  | c :: buf' => backtrack_loop dotdot c buf'
  end.

(** The [.. element] case of [Clean]. *)
Definition dotdot_elem (rooted : bool) (buf : list ascii) (dotdot : nat)
  : list ascii * nat :=
  if dotdot <? length buf then (backtrack dotdot buf, dotdot)
  else if negb rooted then
    let buf1 := if 0 <? length buf then Separator :: buf else buf in
    let buf2 := "."%char :: "."%char :: buf1 in
    (buf2, length buf2)
  else (buf, dotdot).

(** [if rooted && out.w != 1 || !rooted && out.w != 0 { out.append(Separator) }] *)
Definition add_slash (rooted : bool) (buf : list ascii) : list ascii :=
  if (rooted && negb (length buf =? 1)) || (negb rooted && negb (length buf =? 0))
  then Separator :: buf else buf.

(** The main loop of [Clean], by recursion on the unread input [path[r:]].
    [copying] is true inside the inner loop that copies a real path element;
    when that loop stops at a separator, the separator is consumed at once
    (the outer loop would skip it in its next round). *)
Fixpoint clean_loop (rooted copying : bool) (path : gostring)
         (buf : list ascii) (dotdot : nat) : list ascii * nat :=
  match path with
  | [] => (buf, dotdot)
  | c :: rest =>
      if copying then
        if IsPathSeparator c then clean_loop rooted false rest buf dotdot
        else clean_loop rooted true rest (c :: buf) dotdot
      else if IsPathSeparator c then
        (* empty path element *)
        clean_loop rooted false rest buf dotdot
      else if is_dot c && at_end_or_sep rest then
        (* . element *)
        clean_loop rooted false rest buf dotdot
      else
        match rest with
        | c2 :: rest2 =>
            if is_dot c && is_dot c2 && at_end_or_sep rest2 then
              (* .. element *)
              let '(buf', dotdot') := dotdot_elem rooted buf dotdot in
              clean_loop rooted false rest2 buf' dotdot'
            else
              (* real path element *)
              clean_loop rooted true rest (c :: add_slash rooted buf) dotdot
        | [] =>
            clean_loop rooted true rest (c :: add_slash rooted buf) dotdot
        end
  end.

(** [filepath.Clean] (no volume names on Unix). *)
Definition Clean (path : gostring) : gostring :=
  match path with
  | [] => str "."
  | c0 :: rest =>
      let '(buf, _) :=
        if IsPathSeparator c0
        then clean_loop true false rest [Separator] 1
        else clean_loop false false path [] 0 in
      match buf with
      | [] => str "."
      | _ :: _ => rev buf
      end
  end.

(** [filepath.Join]: the elements from the first non-empty one on are joined
    with the separator and cleaned; all empty gives the empty string. *)
Fixpoint Join (elem : list gostring) : gostring :=
  match elem with
  | [] => []
  | e :: rest =>
      if is_empty e then Join rest
      else Clean (strings_Join elem [Separator])
  end.

(** The element that starts [s] (up to the next separator) and the rest of
    [s] from that separator on: the two inner loops of [Rel]. *)
Fixpoint span_elem (s : gostring) : gostring * gostring :=
  match s with
  | [] => ([], [])
  | c :: s' =>
      if IsPathSeparator c then ([], s)
      else let '(e, r) := span_elem s' in (c :: e, r)
  end.

(** [if bi < bl { bi++ }] *)
Definition skip_one (s : gostring) : gostring :=
  match s with [] => [] | _ :: s' => s' end.

(** The loop of [Rel] that positions both paths at their first differing
    elements.  It returns [base[b0:]], [base[b0:bi]] and [targ[t0:]]. *)
Fixpoint rel_loop (fuel : nat) (base targ : gostring)
  : gostring * gostring * gostring :=
  match fuel with
  | 0 => (base, [], targ)
  | S fuel' =>
      if is_empty base || is_empty targ then (base, [], targ)
      else
        let '(be, br) := span_elem base in
        let '(te, tr) := span_elem targ in
        if negb (streq te be) then (base, be, targ)
        else rel_loop fuel' (skip_one br) (skip_one tr)
  end.

(** [seps] times [/..]: the way up from what is left of the base. *)
Fixpoint updirs (seps : nat) : gostring :=
  match seps with
  | 0 => []
  | S n => Separator :: "."%char :: "."%char :: updirs n
  end.

(** [filepath.Rel]; [None] is the error "Rel: can't make targpath relative to
    basepath". *)
Definition Rel (basepath targpath : gostring) : option gostring :=
  let base := Clean basepath in
  let targ := Clean targpath in
  if streq targ base then Some (str ".")
  else
    let base := if streq base (str ".") then [] else base in
    let baseSlashed :=
      match base with c :: _ => Ascii.eqb c Separator | [] => false end in
    let targSlashed :=
      match targ with c :: _ => Ascii.eqb c Separator | [] => false end in
    if negb (Bool.eqb baseSlashed targSlashed) then None
    else
      let '(brest, belem, trest) := rel_loop (S (length base)) base targ in
      if streq belem (str "..") then None
      else if negb (is_empty brest) then
        let seps := Count brest Separator in
        Some (str ".." ++ updirs seps
                ++ (if is_empty trest then [] else Separator :: trest))
      else Some trest.

End Filepath.
Export Filepath.


(** ** Errors, file modes and the outside world *)

Module Os.

(** Go [error] values as this package meets and builds them. *)
Inductive error : Type :=
| PathError (op : string) (path : gostring) (errno : Z)
    (* [&fs.PathError{Op, Path, Err: syscall.Errno}] of os.Stat/Lstat/Readlink *)
| Errorf_w (msg : gostring) (wrapped : error)
    (* [fmt.Errorf("msg: %w", err)] *)
| ErrorString (msg : gostring).
    (* [errors.New(msg)], [fmt.Errorf] without [%w] *)

(** A Go result [(value, error)] of which one side is set. *)
Inductive result (A : Type) : Type :=
| Ok (a : A)
| Err (e : error).
Arguments Ok {A} a.
Arguments Err {A} e.

(** [syscall.ENOENT] *)
Definition ENOENT : Z := 2.

(** [errors.Is(err, fs.ErrNotExist)]: the chain of wrapped errors is walked
    down to the errno, which matches [ErrNotExist] exactly when it is
    [ENOENT]. *)
Fixpoint errors_Is_ErrNotExist (e : error) : bool :=
  match e with
  | PathError _ _ errno => Z.eqb errno ENOENT
  | Errorf_w _ e' => errors_Is_ErrNotExist e'
  | ErrorString _ => false
  end.

(** [os.IsNotExist(err)]: looks through a [PathError] only. *)
Definition IsNotExist (e : error) : bool :=
  match e with
  | PathError _ _ errno => Z.eqb errno ENOENT
  | _ => false
  end.

(** [fs.FileMode] is a [uint32]; the bits below are those of [io/fs]. *)
Definition FileMode : Type := Z.

Definition ModeDir : FileMode := Z.shiftl 1 31.
Definition ModeSymlink : FileMode := Z.shiftl 1 27.
Definition ModeDevice : FileMode := Z.shiftl 1 26.
Definition ModeNamedPipe : FileMode := Z.shiftl 1 25.
Definition ModeSocket : FileMode := Z.shiftl 1 24.
Definition ModeCharDevice : FileMode := Z.shiftl 1 21.
Definition ModeIrregular : FileMode := Z.shiftl 1 19.

Definition ModeType : FileMode :=
  Z.lor ModeDir
    (Z.lor ModeSymlink
       (Z.lor ModeNamedPipe
          (Z.lor ModeSocket
             (Z.lor ModeDevice (Z.lor ModeCharDevice ModeIrregular))))).

(** [m.Type()] *)
Definition FileMode_Type (m : FileMode) : FileMode := Z.land m ModeType.

(** [m.IsDir()] *)
Definition FileMode_IsDir (m : FileMode) : bool :=
  negb (Z.eqb (Z.land m ModeDir) 0).

(** [fs.FileInfo], of which the package reads the mode only. *)
Record FileInfo : Type := mkFileInfo { Mode : FileMode }.

(** What the package reads from outside itself: the [release] package and
    the file system.  One environment describes the outside world during one
    call. *)
Record Env : Type := mkEnv {
  OnClassic : bool;                         (* release.OnClassic *)
  DistroLike : list gostring -> bool;       (* release.DistroLike(distros...) *)
  Stat : gostring -> result FileInfo;       (* os.Stat *)
  Lstat : gostring -> result FileInfo;      (* os.Lstat *)
  Readlink : gostring -> result gostring    (* os.Readlink *)
}.

End Os.
Export Os.

(** ** The package [dirs] *)

Module Dirs.

(** The package-level variables, in the order of their declaration
    ([snapHomeDirs] and [snapMountDirDetectionError] are declared further
    down in the source). *)
Record Dirs : Type := mkDirs {
  GlobalRootDir : gostring;
  RunDir : gostring;
  SnapMountDir : gostring;
  DistroLibExecDir : gostring;
  hiddenSnapDataHomeGlob : list gostring;
  SnapBlobDir : gostring;
  SnapDataDir : gostring;
  snapDataHomeGlob : list gostring;
  SnapDownloadCacheDir : gostring;
  SnapAppArmorDir : gostring;
  SnapLdconfigDir : gostring;
  SnapSeccompBase : gostring;
  SnapSeccompDir : gostring;
  SnapMountPolicyDir : gostring;
  SnapCgroupPolicyDir : gostring;
  SnapUdevRulesDir : gostring;
  SnapKModModulesDir : gostring;
  SnapKModModprobeDir : gostring;
  LocaleDir : gostring;
  SnapdSocket : gostring;
  SnapSocket : gostring;
  SnapRunDir : gostring;
  SnapRunNsDir : gostring;
  SnapRunLockDir : gostring;
  SnapBootstrapRunDir : gostring;
  SnapVoidDir : gostring;
  SnapInterfacesRequestsRunDir : gostring;
  SnapInterfacesRequestsStateDir : gostring;
  SnapdMaintenanceFile : gostring;
  SnapdStoreSSLCertsDir : gostring;
  SnapSeedDir : gostring;
  SnapDeviceDir : gostring;
  SnapAssertsDBDir : gostring;
  SnapCookieDir : gostring;
  SnapTrustedAccountKey : gostring;
  SnapAssertsSpoolDir : gostring;
  SnapSeqDir : gostring;
  SnapStateFile : gostring;
  SnapStateLockFile : gostring;
  SnapSystemKeyFile : gostring;
  SnapRepairConfigFile : gostring;
  SnapRepairDir : gostring;
  SnapRepairStateFile : gostring;
  SnapRepairRunDir : gostring;
  SnapRepairAssertsDir : gostring;
  SnapRunRepairDir : gostring;
  SnapRollbackDir : gostring;
  SnapCacheDir : gostring;
  SnapNamesFile : gostring;
  SnapSectionsFile : gostring;
  SnapCommandsDB : gostring;
  SnapAuxStoreInfoDir : gostring;
  SnapIconsPoolDir : gostring;
  SnapIconsDir : gostring;
  SnapBinariesDir : gostring;
  SnapServicesDir : gostring;
  SnapRuntimeServicesDir : gostring;
  SnapUserServicesDir : gostring;
  SnapSystemdConfDir : gostring;
  SnapDesktopFilesDir : gostring;
  SnapDesktopIconsDir : gostring;
  SnapPolkitPolicyDir : gostring;
  SnapPolkitRuleDir : gostring;
  SnapSystemdDir : gostring;
  SnapSystemdRunDir : gostring;
  SnapDBusSessionPolicyDir : gostring;
  SnapDBusSystemPolicyDir : gostring;
  SnapDBusSessionServicesDir : gostring;
  SnapDBusSystemServicesDir : gostring;
  SnapModeenvFile : gostring;
  SnapBootAssetsDir : gostring;
  SnapFDEDir : gostring;
  SnapSaveDir : gostring;
  SnapDeviceSaveDir : gostring;
  SnapDataSaveDir : gostring;
  SnapGpioChardevDir : gostring;
  CloudMetaDataFile : gostring;
  CloudInstanceDataFile : gostring;
  ClassicDir : gostring;
  XdgRuntimeDirBase : gostring;
  XdgRuntimeDirGlob : gostring;
  CompletionHelperInCore : gostring;
  BashCompletionScript : gostring;
  LegacyCompletersDir : gostring;
  CompletersDir : gostring;
  SystemFontsDir : gostring;
  SystemLocalFontsDir : gostring;
  SystemFontconfigCacheDirs : list gostring;
  SnapshotsDir : gostring;
  SysfsDir : gostring;
  DevDir : gostring;
  FeaturesDir : gostring;
  WritableMountPath : gostring;
  WritableUbuntuCoreSystemDataDir : gostring;
  snapHomeDirs : list gostring;
  snapMountDirDetectionError : option error
}.

(** Assignment of the three home-directory variables. *)
Definition set_home (homes : list gostring) (globs : list gostring) (hglobs : list gostring) (d : Dirs) : Dirs :=
  {| GlobalRootDir := GlobalRootDir d;
     RunDir := RunDir d;
     SnapMountDir := SnapMountDir d;
     DistroLibExecDir := DistroLibExecDir d;
     hiddenSnapDataHomeGlob := hglobs;
     SnapBlobDir := SnapBlobDir d;
     SnapDataDir := SnapDataDir d;
     snapDataHomeGlob := globs;
     SnapDownloadCacheDir := SnapDownloadCacheDir d;
     SnapAppArmorDir := SnapAppArmorDir d;
     SnapLdconfigDir := SnapLdconfigDir d;
     SnapSeccompBase := SnapSeccompBase d;
     SnapSeccompDir := SnapSeccompDir d;
     SnapMountPolicyDir := SnapMountPolicyDir d;
     SnapCgroupPolicyDir := SnapCgroupPolicyDir d;
     SnapUdevRulesDir := SnapUdevRulesDir d;
     SnapKModModulesDir := SnapKModModulesDir d;
     SnapKModModprobeDir := SnapKModModprobeDir d;
     LocaleDir := LocaleDir d;
     SnapdSocket := SnapdSocket d;
     SnapSocket := SnapSocket d;
     SnapRunDir := SnapRunDir d;
     SnapRunNsDir := SnapRunNsDir d;
     SnapRunLockDir := SnapRunLockDir d;
     SnapBootstrapRunDir := SnapBootstrapRunDir d;
     SnapVoidDir := SnapVoidDir d;
     SnapInterfacesRequestsRunDir := SnapInterfacesRequestsRunDir d;
     SnapInterfacesRequestsStateDir := SnapInterfacesRequestsStateDir d;
     SnapdMaintenanceFile := SnapdMaintenanceFile d;
     SnapdStoreSSLCertsDir := SnapdStoreSSLCertsDir d;
     SnapSeedDir := SnapSeedDir d;
     SnapDeviceDir := SnapDeviceDir d;
     SnapAssertsDBDir := SnapAssertsDBDir d;
     SnapCookieDir := SnapCookieDir d;
     SnapTrustedAccountKey := SnapTrustedAccountKey d;
     SnapAssertsSpoolDir := SnapAssertsSpoolDir d;
     SnapSeqDir := SnapSeqDir d;
     SnapStateFile := SnapStateFile d;
     SnapStateLockFile := SnapStateLockFile d;
     SnapSystemKeyFile := SnapSystemKeyFile d;
     SnapRepairConfigFile := SnapRepairConfigFile d;
     SnapRepairDir := SnapRepairDir d;
     SnapRepairStateFile := SnapRepairStateFile d;
     SnapRepairRunDir := SnapRepairRunDir d;
     SnapRepairAssertsDir := SnapRepairAssertsDir d;
     SnapRunRepairDir := SnapRunRepairDir d;
     SnapRollbackDir := SnapRollbackDir d;
     SnapCacheDir := SnapCacheDir d;
     SnapNamesFile := SnapNamesFile d;
     SnapSectionsFile := SnapSectionsFile d;
     SnapCommandsDB := SnapCommandsDB d;
     SnapAuxStoreInfoDir := SnapAuxStoreInfoDir d;
     SnapIconsPoolDir := SnapIconsPoolDir d;
     SnapIconsDir := SnapIconsDir d;
     SnapBinariesDir := SnapBinariesDir d;
     SnapServicesDir := SnapServicesDir d;
     SnapRuntimeServicesDir := SnapRuntimeServicesDir d;
     SnapUserServicesDir := SnapUserServicesDir d;
     SnapSystemdConfDir := SnapSystemdConfDir d;
     SnapDesktopFilesDir := SnapDesktopFilesDir d;
     SnapDesktopIconsDir := SnapDesktopIconsDir d;
     SnapPolkitPolicyDir := SnapPolkitPolicyDir d;
     SnapPolkitRuleDir := SnapPolkitRuleDir d;
     SnapSystemdDir := SnapSystemdDir d;
     SnapSystemdRunDir := SnapSystemdRunDir d;
     SnapDBusSessionPolicyDir := SnapDBusSessionPolicyDir d;
     SnapDBusSystemPolicyDir := SnapDBusSystemPolicyDir d;
     SnapDBusSessionServicesDir := SnapDBusSessionServicesDir d;
     SnapDBusSystemServicesDir := SnapDBusSystemServicesDir d;
     SnapModeenvFile := SnapModeenvFile d;
     SnapBootAssetsDir := SnapBootAssetsDir d;
     SnapFDEDir := SnapFDEDir d;
     SnapSaveDir := SnapSaveDir d;
     SnapDeviceSaveDir := SnapDeviceSaveDir d;
     SnapDataSaveDir := SnapDataSaveDir d;
     SnapGpioChardevDir := SnapGpioChardevDir d;
     CloudMetaDataFile := CloudMetaDataFile d;
     CloudInstanceDataFile := CloudInstanceDataFile d;
     ClassicDir := ClassicDir d;
     XdgRuntimeDirBase := XdgRuntimeDirBase d;
     XdgRuntimeDirGlob := XdgRuntimeDirGlob d;
     CompletionHelperInCore := CompletionHelperInCore d;
     BashCompletionScript := BashCompletionScript d;
     LegacyCompletersDir := LegacyCompletersDir d;
     CompletersDir := CompletersDir d;
     SystemFontsDir := SystemFontsDir d;
     SystemLocalFontsDir := SystemLocalFontsDir d;
     SystemFontconfigCacheDirs := SystemFontconfigCacheDirs d;
     SnapshotsDir := SnapshotsDir d;
     SysfsDir := SysfsDir d;
     DevDir := DevDir d;
     FeaturesDir := FeaturesDir d;
     WritableMountPath := WritableMountPath d;
     WritableUbuntuCoreSystemDataDir := WritableUbuntuCoreSystemDataDir d;
     snapHomeDirs := homes;
     snapMountDirDetectionError := snapMountDirDetectionError d |}.

(** Assignment of the two writable-mount variables. *)
Definition set_writable (wmp : gostring) (wsd : gostring) (d : Dirs) : Dirs :=
  {| GlobalRootDir := GlobalRootDir d;
     RunDir := RunDir d;
     SnapMountDir := SnapMountDir d;
     DistroLibExecDir := DistroLibExecDir d;
     hiddenSnapDataHomeGlob := hiddenSnapDataHomeGlob d;
     SnapBlobDir := SnapBlobDir d;
     SnapDataDir := SnapDataDir d;
     snapDataHomeGlob := snapDataHomeGlob d;
     SnapDownloadCacheDir := SnapDownloadCacheDir d;
     SnapAppArmorDir := SnapAppArmorDir d;
     SnapLdconfigDir := SnapLdconfigDir d;
     SnapSeccompBase := SnapSeccompBase d;
     SnapSeccompDir := SnapSeccompDir d;
     SnapMountPolicyDir := SnapMountPolicyDir d;
     SnapCgroupPolicyDir := SnapCgroupPolicyDir d;
     SnapUdevRulesDir := SnapUdevRulesDir d;
     SnapKModModulesDir := SnapKModModulesDir d;
     SnapKModModprobeDir := SnapKModModprobeDir d;
     LocaleDir := LocaleDir d;
     SnapdSocket := SnapdSocket d;
     SnapSocket := SnapSocket d;
     SnapRunDir := SnapRunDir d;
     SnapRunNsDir := SnapRunNsDir d;
     SnapRunLockDir := SnapRunLockDir d;
     SnapBootstrapRunDir := SnapBootstrapRunDir d;
     SnapVoidDir := SnapVoidDir d;
     SnapInterfacesRequestsRunDir := SnapInterfacesRequestsRunDir d;
     SnapInterfacesRequestsStateDir := SnapInterfacesRequestsStateDir d;
     SnapdMaintenanceFile := SnapdMaintenanceFile d;
     SnapdStoreSSLCertsDir := SnapdStoreSSLCertsDir d;
     SnapSeedDir := SnapSeedDir d;
     SnapDeviceDir := SnapDeviceDir d;
     SnapAssertsDBDir := SnapAssertsDBDir d;
     SnapCookieDir := SnapCookieDir d;
     SnapTrustedAccountKey := SnapTrustedAccountKey d;
     SnapAssertsSpoolDir := SnapAssertsSpoolDir d;
     SnapSeqDir := SnapSeqDir d;
     SnapStateFile := SnapStateFile d;
     SnapStateLockFile := SnapStateLockFile d;
     SnapSystemKeyFile := SnapSystemKeyFile d;
     SnapRepairConfigFile := SnapRepairConfigFile d;
     SnapRepairDir := SnapRepairDir d;
     SnapRepairStateFile := SnapRepairStateFile d;
     SnapRepairRunDir := SnapRepairRunDir d;
     SnapRepairAssertsDir := SnapRepairAssertsDir d;
     SnapRunRepairDir := SnapRunRepairDir d;
     SnapRollbackDir := SnapRollbackDir d;
     SnapCacheDir := SnapCacheDir d;
     SnapNamesFile := SnapNamesFile d;
     SnapSectionsFile := SnapSectionsFile d;
     SnapCommandsDB := SnapCommandsDB d;
     SnapAuxStoreInfoDir := SnapAuxStoreInfoDir d;
     SnapIconsPoolDir := SnapIconsPoolDir d;
     SnapIconsDir := SnapIconsDir d;
     SnapBinariesDir := SnapBinariesDir d;
     SnapServicesDir := SnapServicesDir d;
     SnapRuntimeServicesDir := SnapRuntimeServicesDir d;
     SnapUserServicesDir := SnapUserServicesDir d;
     SnapSystemdConfDir := SnapSystemdConfDir d;
     SnapDesktopFilesDir := SnapDesktopFilesDir d;
     SnapDesktopIconsDir := SnapDesktopIconsDir d;
     SnapPolkitPolicyDir := SnapPolkitPolicyDir d;
     SnapPolkitRuleDir := SnapPolkitRuleDir d;
     SnapSystemdDir := SnapSystemdDir d;
     SnapSystemdRunDir := SnapSystemdRunDir d;
     SnapDBusSessionPolicyDir := SnapDBusSessionPolicyDir d;
     SnapDBusSystemPolicyDir := SnapDBusSystemPolicyDir d;
     SnapDBusSessionServicesDir := SnapDBusSessionServicesDir d;
     SnapDBusSystemServicesDir := SnapDBusSystemServicesDir d;
     SnapModeenvFile := SnapModeenvFile d;
     SnapBootAssetsDir := SnapBootAssetsDir d;
     SnapFDEDir := SnapFDEDir d;
     SnapSaveDir := SnapSaveDir d;
     SnapDeviceSaveDir := SnapDeviceSaveDir d;
     SnapDataSaveDir := SnapDataSaveDir d;
     SnapGpioChardevDir := SnapGpioChardevDir d;
     CloudMetaDataFile := CloudMetaDataFile d;
     CloudInstanceDataFile := CloudInstanceDataFile d;
     ClassicDir := ClassicDir d;
     XdgRuntimeDirBase := XdgRuntimeDirBase d;
     XdgRuntimeDirGlob := XdgRuntimeDirGlob d;
     CompletionHelperInCore := CompletionHelperInCore d;
     BashCompletionScript := BashCompletionScript d;
     LegacyCompletersDir := LegacyCompletersDir d;
     CompletersDir := CompletersDir d;
     SystemFontsDir := SystemFontsDir d;
     SystemLocalFontsDir := SystemLocalFontsDir d;
     SystemFontconfigCacheDirs := SystemFontconfigCacheDirs d;
     SnapshotsDir := SnapshotsDir d;
     SysfsDir := SysfsDir d;
     DevDir := DevDir d;
     FeaturesDir := FeaturesDir d;
     WritableMountPath := wmp;
     WritableUbuntuCoreSystemDataDir := wsd;
     snapHomeDirs := snapHomeDirs d;
     snapMountDirDetectionError := snapMountDirDetectionError d |}.

(** Assignment of the mount directory, of the entry derived from it and of the
    detection outcome. *)
Definition set_mount (mnt : gostring) (bin : gostring) (err : option error) (d : Dirs) : Dirs :=
  {| GlobalRootDir := GlobalRootDir d;
     RunDir := RunDir d;
     SnapMountDir := mnt;
     DistroLibExecDir := DistroLibExecDir d;
     hiddenSnapDataHomeGlob := hiddenSnapDataHomeGlob d;
     SnapBlobDir := SnapBlobDir d;
     SnapDataDir := SnapDataDir d;
     snapDataHomeGlob := snapDataHomeGlob d;
     SnapDownloadCacheDir := SnapDownloadCacheDir d;
     SnapAppArmorDir := SnapAppArmorDir d;
     SnapLdconfigDir := SnapLdconfigDir d;
     SnapSeccompBase := SnapSeccompBase d;
     SnapSeccompDir := SnapSeccompDir d;
     SnapMountPolicyDir := SnapMountPolicyDir d;
     SnapCgroupPolicyDir := SnapCgroupPolicyDir d;
     SnapUdevRulesDir := SnapUdevRulesDir d;
     SnapKModModulesDir := SnapKModModulesDir d;
     SnapKModModprobeDir := SnapKModModprobeDir d;
     LocaleDir := LocaleDir d;
     SnapdSocket := SnapdSocket d;
     SnapSocket := SnapSocket d;
     SnapRunDir := SnapRunDir d;
     SnapRunNsDir := SnapRunNsDir d;
     SnapRunLockDir := SnapRunLockDir d;
     SnapBootstrapRunDir := SnapBootstrapRunDir d;
     SnapVoidDir := SnapVoidDir d;
     SnapInterfacesRequestsRunDir := SnapInterfacesRequestsRunDir d;
     SnapInterfacesRequestsStateDir := SnapInterfacesRequestsStateDir d;
     SnapdMaintenanceFile := SnapdMaintenanceFile d;
     SnapdStoreSSLCertsDir := SnapdStoreSSLCertsDir d;
     SnapSeedDir := SnapSeedDir d;
     SnapDeviceDir := SnapDeviceDir d;
     SnapAssertsDBDir := SnapAssertsDBDir d;
     SnapCookieDir := SnapCookieDir d;
     SnapTrustedAccountKey := SnapTrustedAccountKey d;
     SnapAssertsSpoolDir := SnapAssertsSpoolDir d;
     SnapSeqDir := SnapSeqDir d;
     SnapStateFile := SnapStateFile d;
     SnapStateLockFile := SnapStateLockFile d;
     SnapSystemKeyFile := SnapSystemKeyFile d;
     SnapRepairConfigFile := SnapRepairConfigFile d;
     SnapRepairDir := SnapRepairDir d;
     SnapRepairStateFile := SnapRepairStateFile d;
     SnapRepairRunDir := SnapRepairRunDir d;
     SnapRepairAssertsDir := SnapRepairAssertsDir d;
     SnapRunRepairDir := SnapRunRepairDir d;
     SnapRollbackDir := SnapRollbackDir d;
     SnapCacheDir := SnapCacheDir d;
     SnapNamesFile := SnapNamesFile d;
     SnapSectionsFile := SnapSectionsFile d;
     SnapCommandsDB := SnapCommandsDB d;
     SnapAuxStoreInfoDir := SnapAuxStoreInfoDir d;
     SnapIconsPoolDir := SnapIconsPoolDir d;
     SnapIconsDir := SnapIconsDir d;
     SnapBinariesDir := bin;
     SnapServicesDir := SnapServicesDir d;
     SnapRuntimeServicesDir := SnapRuntimeServicesDir d;
     SnapUserServicesDir := SnapUserServicesDir d;
     SnapSystemdConfDir := SnapSystemdConfDir d;
     SnapDesktopFilesDir := SnapDesktopFilesDir d;
     SnapDesktopIconsDir := SnapDesktopIconsDir d;
     SnapPolkitPolicyDir := SnapPolkitPolicyDir d;
     SnapPolkitRuleDir := SnapPolkitRuleDir d;
     SnapSystemdDir := SnapSystemdDir d;
     SnapSystemdRunDir := SnapSystemdRunDir d;
     SnapDBusSessionPolicyDir := SnapDBusSessionPolicyDir d;
     SnapDBusSystemPolicyDir := SnapDBusSystemPolicyDir d;
     SnapDBusSessionServicesDir := SnapDBusSessionServicesDir d;
     SnapDBusSystemServicesDir := SnapDBusSystemServicesDir d;
     SnapModeenvFile := SnapModeenvFile d;
     SnapBootAssetsDir := SnapBootAssetsDir d;
     SnapFDEDir := SnapFDEDir d;
     SnapSaveDir := SnapSaveDir d;
     SnapDeviceSaveDir := SnapDeviceSaveDir d;
     SnapDataSaveDir := SnapDataSaveDir d;
     SnapGpioChardevDir := SnapGpioChardevDir d;
     CloudMetaDataFile := CloudMetaDataFile d;
     CloudInstanceDataFile := CloudInstanceDataFile d;
     ClassicDir := ClassicDir d;
     XdgRuntimeDirBase := XdgRuntimeDirBase d;
     XdgRuntimeDirGlob := XdgRuntimeDirGlob d;
     CompletionHelperInCore := CompletionHelperInCore d;
     BashCompletionScript := BashCompletionScript d;
     LegacyCompletersDir := LegacyCompletersDir d;
     CompletersDir := CompletersDir d;
     SystemFontsDir := SystemFontsDir d;
     SystemLocalFontsDir := SystemLocalFontsDir d;
     SystemFontconfigCacheDirs := SystemFontconfigCacheDirs d;
     SnapshotsDir := SnapshotsDir d;
     SysfsDir := SysfsDir d;
     DevDir := DevDir d;
     FeaturesDir := FeaturesDir d;
     WritableMountPath := WritableMountPath d;
     WritableUbuntuCoreSystemDataDir := WritableUbuntuCoreSystemDataDir d;
     snapHomeDirs := snapHomeDirs d;
     snapMountDirDetectionError := err |}.

(** The package variables before [init] runs: Go zero values, except
    [GlobalRootDir], which is declared with the initial value ["/"]. *)
Definition zero_dirs : Dirs :=
  {| GlobalRootDir := str "/";
     RunDir := [];
     SnapMountDir := [];
     DistroLibExecDir := [];
     hiddenSnapDataHomeGlob := [];
     SnapBlobDir := [];
     SnapDataDir := [];
     snapDataHomeGlob := [];
     SnapDownloadCacheDir := [];
     SnapAppArmorDir := [];
     SnapLdconfigDir := [];
     SnapSeccompBase := [];
     SnapSeccompDir := [];
     SnapMountPolicyDir := [];
     SnapCgroupPolicyDir := [];
     SnapUdevRulesDir := [];
     SnapKModModulesDir := [];
     SnapKModModprobeDir := [];
     LocaleDir := [];
     SnapdSocket := [];
     SnapSocket := [];
     SnapRunDir := [];
     SnapRunNsDir := [];
     SnapRunLockDir := [];
     SnapBootstrapRunDir := [];
     SnapVoidDir := [];
     SnapInterfacesRequestsRunDir := [];
     SnapInterfacesRequestsStateDir := [];
     SnapdMaintenanceFile := [];
     SnapdStoreSSLCertsDir := [];
     SnapSeedDir := [];
     SnapDeviceDir := [];
     SnapAssertsDBDir := [];
     SnapCookieDir := [];
     SnapTrustedAccountKey := [];
     SnapAssertsSpoolDir := [];
     SnapSeqDir := [];
     SnapStateFile := [];
     SnapStateLockFile := [];
     SnapSystemKeyFile := [];
     SnapRepairConfigFile := [];
     SnapRepairDir := [];
     SnapRepairStateFile := [];
     SnapRepairRunDir := [];
     SnapRepairAssertsDir := [];
     SnapRunRepairDir := [];
     SnapRollbackDir := [];
     SnapCacheDir := [];
     SnapNamesFile := [];
     SnapSectionsFile := [];
     SnapCommandsDB := [];
     SnapAuxStoreInfoDir := [];
     SnapIconsPoolDir := [];
     SnapIconsDir := [];
     SnapBinariesDir := [];
     SnapServicesDir := [];
     SnapRuntimeServicesDir := [];
     SnapUserServicesDir := [];
     SnapSystemdConfDir := [];
     SnapDesktopFilesDir := [];
     SnapDesktopIconsDir := [];
     SnapPolkitPolicyDir := [];
     SnapPolkitRuleDir := [];
     SnapSystemdDir := [];
     SnapSystemdRunDir := [];
     SnapDBusSessionPolicyDir := [];
     SnapDBusSystemPolicyDir := [];
     SnapDBusSessionServicesDir := [];
     SnapDBusSystemServicesDir := [];
     SnapModeenvFile := [];
     SnapBootAssetsDir := [];
     SnapFDEDir := [];
     SnapSaveDir := [];
     SnapDeviceSaveDir := [];
     SnapDataSaveDir := [];
     SnapGpioChardevDir := [];
     CloudMetaDataFile := [];
     CloudInstanceDataFile := [];
     ClassicDir := [];
     XdgRuntimeDirBase := [];
     XdgRuntimeDirGlob := [];
     CompletionHelperInCore := [];
     BashCompletionScript := [];
     LegacyCompletersDir := [];
     CompletersDir := [];
     SystemFontsDir := [];
     SystemLocalFontsDir := [];
     SystemFontconfigCacheDirs := [];
     SnapshotsDir := [];
     SysfsDir := [];
     DevDir := [];
     FeaturesDir := [];
     WritableMountPath := [];
     WritableUbuntuCoreSystemDataDir := [];
     snapHomeDirs := [];
     snapMountDirDetectionError := None |}.

(** *** Constants *)

Definition DefaultSnapMountDir : gostring := str "/snap".
Definition AltSnapMountDir : gostring := str "/var/lib/snapd/snap".
Definition DefaultDistroLibexecDir : gostring := str "/usr/lib/snapd".
Definition AltDistroLibexecDir : gostring := str "/usr/libexec/snapd".
Definition CoreLibExecDir : gostring := str "/usr/lib/snapd".
Definition CoreSnapMountDir : gostring := str "/snap".
Definition UserHomeSnapDir : gostring := str "snap".
Definition HiddenSnapDataHomeDir : gostring := str ".snap/data".
Definition ExposedSnapHomeDir : gostring := str "Snap".
Definition LocalInstallBlobTempPrefix : gostring := str ".local-install-".

Definition snappyDir : gostring := Join [str "var"; str "lib"; str "snapd"].

Definition metaSnapPath : gostring := str "/meta/snap.yaml".

Definition specialDefaultDirDistros : list gostring :=
  [str "ubuntucoreinitramfs"].

Definition snapMountDirUnresolvedPlaceholder : gostring :=
  str "mount-dir-is-unset".

Record SnapDirOptions : Type := mkSnapDirOptions {
  HiddenSnapDataDir : bool;
  MigratedToExposedHome : bool
}.

(** A Go call either returns or panics. *)
Inductive outcome (A : Type) : Type :=
| Returns (a : A)
| Panics (msg : gostring).
Arguments Returns {A} a.
Arguments Panics {A} msg.

(** *** Home directories *)

(** Modelled from the spec: [strutil.ListContains] lives in another package
    of the repository; the spec has the default home "deduplicated": it is
    appended "if not already present", which is a membership test on the
    slice. *)
Definition ListContains (l : list gostring) (s : gostring) : bool :=
  existsb (streq s) l.

(** [SnapHomeDirs] *)
Definition SnapHomeDirs (d : Dirs) : list gostring :=
  let dirs := snapHomeDirs d in
  if length dirs =? 0 then [Join [GlobalRootDir d; str "/home"]]
  else dirs.

(** One round of the loop of [SetSnapHomeDirs] on the entry [e]: the entry
    as it is stored back into the slice. *)
Definition home_entry (root e : gostring) : gostring :=
  let e := Clean e in
  let globalRootDir :=
    if negb (streq root (str "/")) && negb (HasSuffix root (str "/"))
    then root ++ str "/" else root in
  if negb (HasPrefix e globalRootDir) then Join [root; e] else e.

(** The loop of [SetSnapHomeDirs] over the split input; the two glob slices
    grow by one element per round. *)
Fixpoint home_loop (root : gostring) (entries globs hglobs : list gostring)
  : list gostring * list gostring * list gostring :=
  match entries with
  | [] => ([], globs, hglobs)
  | e :: rest =>
      let e' := home_entry root e in
      let '(es, g, h) :=
        home_loop root rest
          (globs ++ [Join [e'; str "*"; UserHomeSnapDir]])
          (hglobs ++ [Join [e'; str "*"; HiddenSnapDataHomeDir]]) in
      (e' :: es, g, h)
  end.

(** [SetSnapHomeDirs]: the returned slice and the package variables after
    the call. *)
Definition SetSnapHomeDirs (homedirs : gostring) (d : Dirs)
  : list gostring * Dirs :=
  let root := GlobalRootDir d in
  let '(homes, globs, hglobs) :=
    if negb (streq homedirs [])
    then home_loop root (Split homedirs ","%char) [] []
    else ([], [], []) in
  let hasHome := ListContains homes (Join [root; str "/home"]) in
  let '(homes, globs, hglobs) :=
    if negb hasHome then
      (homes ++ [Join [root; str "/home"]],
       globs ++ [Join [root; str "/home"; str "*"; UserHomeSnapDir]],
       hglobs ++ [Join [root; str "/home"; str "*"; HiddenSnapDataHomeDir]])
    else (homes, globs, hglobs) in
  (homes, set_home homes globs hglobs d).

(** [DataHomeGlobs]; [None] is the nil options pointer. *)
Definition DataHomeGlobs (opts : option SnapDirOptions) (d : Dirs)
  : list gostring :=
  match opts with
  | Some o => if HiddenSnapDataDir o then hiddenSnapDataHomeGlob d
              else snapDataHomeGlob d
  | None => snapDataHomeGlob d
  end.

(** *** Stripping the root *)

(** [StripRootDir] *)
Definition StripRootDir (d : Dirs) (dir : gostring) : outcome gostring :=
  if negb (IsAbs dir) then
    Panics (str "supplied path is not absolute " ++ dir)
  else if negb (HasPrefix dir (GlobalRootDir d)) then
    Panics (str "supplied path is not related to global root " ++ dir)
  else
    match Rel (GlobalRootDir d) dir with
    | None => Panics (str "Rel: can't make " ++ dir ++ str " relative to "
                        ++ GlobalRootDir d)
    | Some result => Returns (str "/" ++ result)
    end.

(** *** Paths under a root *)

Definition isInsideBaseSnap (env : Env) : bool * option error :=
  match Stat env metaSnapPath with
  | Err e => if IsNotExist e then (false, None) else (false, Some e)
  | Ok _ => (true, None)
  end.

Definition SnapdStateDir (rootdir : gostring) := Join [rootdir; snappyDir].
Definition SnapBlobDirUnder (rootdir : gostring) :=
  Join [rootdir; snappyDir; str "snaps"].
Definition SnapSeedDirUnder (rootdir : gostring) :=
  Join [rootdir; snappyDir; str "seed"].
Definition SnapStateFileUnder (rootdir : gostring) :=
  Join [rootdir; snappyDir; str "state.json"].
Definition SnapStateLockFileUnder (rootdir : gostring) :=
  Join [rootdir; snappyDir; str "state.lock"].
Definition SnapModeenvFileUnder (rootdir : gostring) :=
  Join [rootdir; snappyDir; str "modeenv"].
Definition FeaturesDirUnder (rootdir : gostring) :=
  Join [rootdir; snappyDir; str "features"].
Definition SnapSystemParamsUnder (rootdir : gostring) :=
  Join [rootdir; snappyDir; str "system-params"].
Definition SnapSystemdConfDirUnder (rootdir : gostring) :=
  Join [rootdir; str "/etc/systemd/system.conf.d"].
Definition SnapServicesDirUnder (rootdir : gostring) :=
  Join [rootdir; str "/etc/systemd/system"].
Definition SnapRuntimeServicesDirUnder (rootdir : gostring) :=
  Join [rootdir; str "/run/systemd/system"].
Definition SnapSystemdDirUnder (rootdir : gostring) :=
  Join [rootdir; str "/etc/systemd"].
Definition SnapBootAssetsDirUnder (rootdir : gostring) :=
  Join [rootdir; snappyDir; str "boot-assets"].
Definition SnapDeviceDirUnder (rootdir : gostring) :=
  Join [rootdir; snappyDir; str "device"].
Definition SnapFDEDirUnder (rootdir : gostring) :=
  Join [SnapDeviceDirUnder rootdir; str "fde"].
Definition SnapSaveDirUnder (rootdir : gostring) :=
  Join [rootdir; snappyDir; str "save"].
Definition SnapFDEDirUnderSave (savedir : gostring) :=
  Join [savedir; str "device/fde"].
Definition SnapRepairConfigFileUnder (rootdir : gostring) :=
  Join [rootdir; snappyDir; str "repair.json"].
Definition SnapKernelDriversTreesDirUnder (rootdir : gostring) :=
  Join [rootdir; snappyDir; str "kernel"].

(** *** The mount-directory probe *)

(** [SnapMountDirDetectionOutcome] *)
Definition SnapMountDirDetectionOutcome (d : Dirs) : option error :=
  snapMountDirDetectionError d.

(** [snapMountDirProbe] *)
Definition snapMountDirProbe (env : Env) (rootdir : gostring)
  : result gostring :=
  let defaultDir := Join [rootdir; DefaultSnapMountDir] in
  let altDir := Join [rootdir; AltSnapMountDir] in
  if DistroLike env specialDefaultDirDistros then Ok defaultDir
  else
    match Lstat env defaultDir with
    | Err err =>
        if errors_Is_ErrNotExist err then Ok altDir
        else Err (Errorf_w (str "cannot stat " ++ defaultDir) err)
    | Ok fi =>
        if negb (Z.eqb (Z.land (FileMode_Type (Mode fi)) ModeSymlink) 0) then
          match Readlink env defaultDir with
          | Err err => Err err
          | Ok p =>
              if negb (streq p AltSnapMountDir)
                 && negb (streq p (skipn 1 AltSnapMountDir))
                 && negb (streq p altDir)
              then Err (ErrorString
                          (defaultDir ++ str " must be a symbolic link to "
                             ++ AltSnapMountDir))
              else Ok altDir
          end
        else if FileMode_IsDir (FileMode_Type (Mode fi)) then Ok defaultDir
        else Err (ErrorString (str "internal error: unresolved snap mount dir"))
    end.

(** *** Changing the root *)

(** [SetRootDir], lines 541-704: the root is stored, the mount directory is
    found, every path is computed from the new root and the home directories
    are reset.  The two writable-mount variables are not assigned here. *)
Definition SetRootDir_paths (env : Env) (rootdir : gostring) (old : Dirs)
  : Dirs :=
  let rootdir := if streq rootdir [] then str "/" else rootdir in
  let GlobalRootDir' := rootdir in
  let '(isInsideBase, _) := isInsideBaseSnap env in
  let '(SnapMountDir', snapMountDirDetectionError') :=
    if isInsideBase then
      (Join [rootdir; DefaultSnapMountDir], snapMountDirDetectionError old)
    else
      match snapMountDirProbe env rootdir with
      | Ok dir => (dir, None)
      | Err err =>
          (snapMountDirUnresolvedPlaceholder,
           Some (Errorf_w (str "cannot resolve snap mount directory") err))
      end in
  let SnapDataDir' := Join [rootdir; str "/var/snap"] in
  let SnapAppArmorDir' := Join [rootdir; snappyDir; str "apparmor"; str "profiles"] in
  let SnapLdconfigDir' := Join [rootdir; str "/etc/ld.so.conf.d"] in
  let SnapDownloadCacheDir' := Join [rootdir; snappyDir; str "cache"] in
  let SnapSeccompBase' := Join [rootdir; snappyDir; str "seccomp"] in
  let SnapSeccompDir' := Join [SnapSeccompBase'; str "bpf"] in
  let SnapMountPolicyDir' := Join [rootdir; snappyDir; str "mount"] in
  let SnapCgroupPolicyDir' := Join [rootdir; snappyDir; str "cgroup"] in
  let SnapdMaintenanceFile' := Join [rootdir; snappyDir; str "maintenance.json"] in
  let SnapBlobDir' := SnapBlobDirUnder rootdir in
  let SnapVoidDir' := Join [rootdir; snappyDir; str "void"] in
  let SnapDesktopFilesDir' := Join [rootdir; snappyDir; str "desktop"; str "applications"] in
  let SnapDesktopIconsDir' := Join [rootdir; snappyDir; str "desktop"; str "icons"] in
  let RunDir' := Join [rootdir; str "/run"] in
  let SnapRunDir' := Join [rootdir; str "/run/snapd"] in
  let SnapRunNsDir' := Join [SnapRunDir'; str "/ns"] in
  let SnapRunLockDir' := Join [SnapRunDir'; str "/lock"] in
  let SnapBootstrapRunDir' := Join [SnapRunDir'; str "snap-bootstrap"] in
  let SnapInterfacesRequestsRunDir' := Join [SnapRunDir'; str "interfaces-requests"] in
  let SnapInterfacesRequestsStateDir' := Join [rootdir; snappyDir; str "interfaces-requests"] in
  let SnapdStoreSSLCertsDir' := Join [rootdir; snappyDir; str "ssl/store-certs"] in
  let SnapdSocket' := Join [rootdir; str "/run/snapd.socket"] in
  let SnapSocket' := Join [rootdir; str "/run/snapd-snap.socket"] in
  let SnapAssertsDBDir' := Join [rootdir; snappyDir; str "assertions"] in
  let SnapCookieDir' := Join [rootdir; snappyDir; str "cookie"] in
  let SnapAssertsSpoolDir' := Join [rootdir; str "run/snapd/auto-import"] in
  let SnapSeqDir' := Join [rootdir; snappyDir; str "sequence"] in
  let SnapStateFile' := SnapStateFileUnder rootdir in
  let SnapStateLockFile' := SnapStateLockFileUnder rootdir in
  let SnapSystemKeyFile' := Join [rootdir; snappyDir; str "system-key"] in
  let SnapCacheDir' := Join [rootdir; str "/var/cache/snapd"] in
  let SnapNamesFile' := Join [SnapCacheDir'; str "names"] in
  let SnapSectionsFile' := Join [SnapCacheDir'; str "sections"] in
  let SnapCommandsDB' := Join [SnapCacheDir'; str "commands.db"] in
  let SnapAuxStoreInfoDir' := Join [SnapCacheDir'; str "aux"] in
  let SnapIconsPoolDir' := Join [SnapCacheDir'; str "icons-pool"] in
  let SnapIconsDir' := Join [SnapCacheDir'; str "icons"] in
  let SnapSeedDir' := SnapSeedDirUnder rootdir in
  let SnapDeviceDir' := SnapDeviceDirUnder rootdir in
  let SnapModeenvFile' := SnapModeenvFileUnder rootdir in
  let SnapBootAssetsDir' := SnapBootAssetsDirUnder rootdir in
  let SnapFDEDir' := SnapFDEDirUnder rootdir in
  let SnapSaveDir' := SnapSaveDirUnder rootdir in
  let SnapDeviceSaveDir' := Join [SnapSaveDir'; str "device"] in
  let SnapDataSaveDir' := Join [SnapSaveDir'; str "snap"] in
  let SnapRepairConfigFile' := SnapRepairConfigFileUnder rootdir in
  let SnapRepairDir' := Join [rootdir; snappyDir; str "repair"] in
  let SnapRepairStateFile' := Join [SnapRepairDir'; str "repair.json"] in
  let SnapRepairRunDir' := Join [SnapRepairDir'; str "run"] in
  let SnapRepairAssertsDir' := Join [SnapRepairDir'; str "assertions"] in
  let SnapRunRepairDir' := Join [SnapRunDir'; str "repair"] in
  let SnapRollbackDir' := Join [rootdir; snappyDir; str "rollback"] in
  let SnapBinariesDir' := Join [SnapMountDir'; str "bin"] in
  let SnapServicesDir' := SnapServicesDirUnder rootdir in
  let SnapRuntimeServicesDir' := SnapRuntimeServicesDirUnder rootdir in
  let SnapUserServicesDir' := Join [rootdir; str "/etc/systemd/user"] in
  let SnapSystemdConfDir' := SnapSystemdConfDirUnder rootdir in
  let SnapSystemdDir' := Join [rootdir; str "/etc/systemd"] in
  let SnapSystemdRunDir' := Join [rootdir; str "/run/systemd"] in
  let SnapDBusSystemPolicyDir' := Join [rootdir; str "/etc/dbus-1/system.d"] in
  let SnapDBusSessionPolicyDir' := Join [rootdir; str "/etc/dbus-1/session.d"] in
  let SnapDBusSessionServicesDir' := Join [rootdir; snappyDir; str "dbus-1"; str "services"] in
  let SnapDBusSystemServicesDir' := Join [rootdir; snappyDir; str "dbus-1"; str "system-services"] in
  let SnapPolkitPolicyDir' := Join [rootdir; str "/usr/share/polkit-1/actions"] in
  let SnapPolkitRuleDir' := Join [rootdir; str "/etc/polkit-1/rules.d"] in
  let CloudInstanceDataFile' := Join [rootdir; str "/run/cloud-init/instance-data.json"] in
  let SnapUdevRulesDir' := Join [rootdir; str "/etc/udev/rules.d"] in
  let SnapKModModulesDir' := Join [rootdir; str "/etc/modules-load.d/"] in
  let SnapKModModprobeDir' := Join [rootdir; str "/etc/modprobe.d/"] in
  let DevDir' := Join [rootdir; str "/dev"] in
  let SnapGpioChardevDir' := Join [DevDir'; str "/snap/gpio-chardev"] in
  let LocaleDir' := Join [rootdir; str "/usr/share/locale"] in
  let ClassicDir' := Join [rootdir; str "/writable/classic"] in
  let DistroLibExecDir0 := Join [rootdir; DefaultDistroLibexecDir] in
  let DistroLibExecDir' :=
    match Stat env DistroLibExecDir0 with
    | Err err =>
        if errors_Is_ErrNotExist err then
          let alt := Join [rootdir; AltDistroLibexecDir] in
          match Stat env alt with
          | Ok _ => alt
          | Err _ => DistroLibExecDir0
          end
        else DistroLibExecDir0
    | Ok _ => DistroLibExecDir0
    end in
  let XdgRuntimeDirBase' := Join [rootdir; str "/run/user"] in
  let XdgRuntimeDirGlob' := Join [XdgRuntimeDirBase'; str "*/"] in
  let CompletionHelperInCore' := Join [CoreLibExecDir; str "etelpmoc.sh"] in
  let BashCompletionScript' := Join [rootdir; str "/usr/share/bash-completion/bash_completion"] in
  let LegacyCompletersDir' := Join [rootdir; str "/usr/share/bash-completion/completions/"] in
  let CompletersDir' := Join [rootdir; snappyDir; str "desktop/bash-completion/completions/"] in
  let SystemFontsDir' := Join [rootdir; str "/usr/share/fonts"] in
  let SystemLocalFontsDir' := Join [rootdir; str "/usr/local/share/fonts"] in
  let SystemFontconfigCacheDirs0 := [Join [rootdir; str "/var/cache/fontconfig"]] in
  let SystemFontconfigCacheDirs' :=
    if DistroLike env [str "fedora"] && negb (DistroLike env [str "amzn"])
    then SystemFontconfigCacheDirs0
           ++ [Join [rootdir; str "/usr/lib/fontconfig/cache"]]
    else SystemFontconfigCacheDirs0 in
  let SnapshotsDir' := Join [rootdir; snappyDir; str "snapshots"] in
  let SysfsDir' := Join [rootdir; str "/sys"] in
  let FeaturesDir' := FeaturesDirUnder rootdir in
  let d :=
    {| GlobalRootDir := GlobalRootDir';
       RunDir := RunDir';
       SnapMountDir := SnapMountDir';
       DistroLibExecDir := DistroLibExecDir';
       hiddenSnapDataHomeGlob := hiddenSnapDataHomeGlob old;
       SnapBlobDir := SnapBlobDir';
       SnapDataDir := SnapDataDir';
       snapDataHomeGlob := snapDataHomeGlob old;
       SnapDownloadCacheDir := SnapDownloadCacheDir';
       SnapAppArmorDir := SnapAppArmorDir';
       SnapLdconfigDir := SnapLdconfigDir';
       SnapSeccompBase := SnapSeccompBase';
       SnapSeccompDir := SnapSeccompDir';
       SnapMountPolicyDir := SnapMountPolicyDir';
       SnapCgroupPolicyDir := SnapCgroupPolicyDir';
       SnapUdevRulesDir := SnapUdevRulesDir';
       SnapKModModulesDir := SnapKModModulesDir';
       SnapKModModprobeDir := SnapKModModprobeDir';
       LocaleDir := LocaleDir';
       SnapdSocket := SnapdSocket';
       SnapSocket := SnapSocket';
       SnapRunDir := SnapRunDir';
       SnapRunNsDir := SnapRunNsDir';
       SnapRunLockDir := SnapRunLockDir';
       SnapBootstrapRunDir := SnapBootstrapRunDir';
       SnapVoidDir := SnapVoidDir';
       SnapInterfacesRequestsRunDir := SnapInterfacesRequestsRunDir';
       SnapInterfacesRequestsStateDir := SnapInterfacesRequestsStateDir';
       SnapdMaintenanceFile := SnapdMaintenanceFile';
       SnapdStoreSSLCertsDir := SnapdStoreSSLCertsDir';
       SnapSeedDir := SnapSeedDir';
       SnapDeviceDir := SnapDeviceDir';
       SnapAssertsDBDir := SnapAssertsDBDir';
       SnapCookieDir := SnapCookieDir';
       SnapTrustedAccountKey := SnapTrustedAccountKey old;
       SnapAssertsSpoolDir := SnapAssertsSpoolDir';
       SnapSeqDir := SnapSeqDir';
       SnapStateFile := SnapStateFile';
       SnapStateLockFile := SnapStateLockFile';
       SnapSystemKeyFile := SnapSystemKeyFile';
       SnapRepairConfigFile := SnapRepairConfigFile';
       SnapRepairDir := SnapRepairDir';
       SnapRepairStateFile := SnapRepairStateFile';
       SnapRepairRunDir := SnapRepairRunDir';
       SnapRepairAssertsDir := SnapRepairAssertsDir';
       SnapRunRepairDir := SnapRunRepairDir';
       SnapRollbackDir := SnapRollbackDir';
       SnapCacheDir := SnapCacheDir';
       SnapNamesFile := SnapNamesFile';
       SnapSectionsFile := SnapSectionsFile';
       SnapCommandsDB := SnapCommandsDB';
       SnapAuxStoreInfoDir := SnapAuxStoreInfoDir';
       SnapIconsPoolDir := SnapIconsPoolDir';
       SnapIconsDir := SnapIconsDir';
       SnapBinariesDir := SnapBinariesDir';
       SnapServicesDir := SnapServicesDir';
       SnapRuntimeServicesDir := SnapRuntimeServicesDir';
       SnapUserServicesDir := SnapUserServicesDir';
       SnapSystemdConfDir := SnapSystemdConfDir';
       SnapDesktopFilesDir := SnapDesktopFilesDir';
       SnapDesktopIconsDir := SnapDesktopIconsDir';
       SnapPolkitPolicyDir := SnapPolkitPolicyDir';
       SnapPolkitRuleDir := SnapPolkitRuleDir';
       SnapSystemdDir := SnapSystemdDir';
       SnapSystemdRunDir := SnapSystemdRunDir';
       SnapDBusSessionPolicyDir := SnapDBusSessionPolicyDir';
       SnapDBusSystemPolicyDir := SnapDBusSystemPolicyDir';
       SnapDBusSessionServicesDir := SnapDBusSessionServicesDir';
       SnapDBusSystemServicesDir := SnapDBusSystemServicesDir';
       SnapModeenvFile := SnapModeenvFile';
       SnapBootAssetsDir := SnapBootAssetsDir';
       SnapFDEDir := SnapFDEDir';
       SnapSaveDir := SnapSaveDir';
       SnapDeviceSaveDir := SnapDeviceSaveDir';
       SnapDataSaveDir := SnapDataSaveDir';
       SnapGpioChardevDir := SnapGpioChardevDir';
       CloudMetaDataFile := CloudMetaDataFile old;
       CloudInstanceDataFile := CloudInstanceDataFile';
       ClassicDir := ClassicDir';
       XdgRuntimeDirBase := XdgRuntimeDirBase';
       XdgRuntimeDirGlob := XdgRuntimeDirGlob';
       CompletionHelperInCore := CompletionHelperInCore';
       BashCompletionScript := BashCompletionScript';
       LegacyCompletersDir := LegacyCompletersDir';
       CompletersDir := CompletersDir';
       SystemFontsDir := SystemFontsDir';
       SystemLocalFontsDir := SystemLocalFontsDir';
       SystemFontconfigCacheDirs := SystemFontconfigCacheDirs';
       SnapshotsDir := SnapshotsDir';
       SysfsDir := SysfsDir';
       DevDir := DevDir';
       FeaturesDir := FeaturesDir';
       WritableMountPath := WritableMountPath old;
       WritableUbuntuCoreSystemDataDir := WritableUbuntuCoreSystemDataDir old;
       snapHomeDirs := snapHomeDirs old;
       snapMountDirDetectionError := snapMountDirDetectionError' |} in
  (* If the root directory changes we also need to reset snapHomeDirs. *)
  snd (SetSnapHomeDirs (str "/home") d).

(** [SetRootDir], lines 712-720: the writable mount path and the entry
    derived from it. *)
Definition SetRootDir_writable (env : Env) (rootdir : gostring) (d : Dirs)
  : Dirs :=
  let rootdir := if streq rootdir [] then str "/" else rootdir in
  let WritableMountPath' :=
    if OnClassic env then rootdir else Join [rootdir; str "writable"] in
  set_writable WritableMountPath'
    (Join [WritableMountPath'; str "system-data"]) d.

Section Subscribers.

(** Other packages subscribe to root changes to refresh their own variables.
    [World] is the state of those packages; a callback receives the new root,
    reads the variables of [dirs] and updates its own state.  (A callback that
    writes the variables of [dirs] or changes the root again is outside this
    model, as it is outside the package's contract.) *)
Variable World : Type.

Definition Callback : Type := gostring -> Dirs -> World -> World.

(** The package state: its variables, the registered callbacks and the state
    of the subscribers. *)
Record Pkg : Type := mkPkg {
  vars : Dirs;
  callbacks : list Callback;
  world : World
}.

(** [AddRootDirCallback] *)
Definition AddRootDirCallback (c : Callback) (p : Pkg) : Pkg :=
  {| vars := vars p; callbacks := callbacks p ++ [c]; world := world p |}.

(** [for _, c := range callbacks { c(rootdir) }], the variables being [d]. *)
Fixpoint run_callbacks (cs : list Callback) (rootdir : gostring) (d : Dirs)
         (w : World) : World :=
  match cs with
  | [] => w
  | c :: cs' => run_callbacks cs' rootdir d (c rootdir d w)
  end.

(** [SetRootDir] *)
Definition SetRootDir (env : Env) (rootdir : gostring) (p : Pkg) : Pkg :=
  let d := SetRootDir_paths env rootdir (vars p) in
  let rootdir' := if streq rootdir [] then str "/" else rootdir in
  let w := run_callbacks (callbacks p) rootdir' d (world p) in
  {| vars := SetRootDir_writable env rootdir d;
     callbacks := callbacks p;
     world := w |}.

(** The package before [init]: zero variables, no callback. *)
Definition zero_pkg (w : World) : Pkg :=
  {| vars := zero_dirs; callbacks := []; world := w |}.

(** [init]; [root] is the value of the environment variable
    [SNAPPY_GLOBAL_ROOT]. *)
Definition init (env : Env) (root : gostring) (w : World) : Pkg :=
  SetRootDir env root (zero_pkg w).

End Subscribers.

End Dirs.
Export Dirs.

(** * Path elements

    [Clean] reads a path element by element; the definitions below describe
    that reading and are related to the loop of [Clean] further down. *)

Module PathElements.

(** No separator occurs in [e]. *)
Definition no_sep (e : gostring) : bool :=
  forallb (fun c => negb (IsPathSeparator c)) e.

(** [e] is a real path element: not empty, not [.], not [..]. *)
Definition is_real (e : gostring) : bool :=
  no_sep e && negb (is_empty e) && negb (streq e (str "."))
  && negb (streq e (str "..")).

(** [string(Separator)] *)
Definition slash : gostring := [Separator].

(** The elements of a path: what lies between its separators. *)
Definition elems (path : gostring) : list gostring := Split path Separator.

(** Elements put back together. *)
Definition unsplit (es : list gostring) : gostring := strings_Join es slash.

(** The [..] element. *)
Definition dotdot_s : gostring := str "..".

(** The buffer of [Clean] for a stack of elements, topmost first: the
    elements in push order joined by separators, last byte first. *)
Fixpoint body (st : list gostring) : list ascii :=
  match st with
  | [] => []
  | [e] => rev e
  | e :: st' => rev e ++ Separator :: body st'
  end.

(** What [Clean] has seen so far, element-wise: [k] leading [..] elements
    that could not be resolved, then the real elements [st], topmost
    first. *)
Definition astate : Type := (nat * list gostring)%type.

(** Buffer and [dotdot] index of [Clean] in the state [s]. *)
Definition render (rooted : bool) (s : astate) : list ascii * nat :=
  let '(k, st) := s in
  if rooted then (body st ++ [Separator], 1)
  else (body (st ++ repeat dotdot_s k), length (body (repeat dotdot_s k))).

(** Only real elements are kept, and a rooted path never keeps a [..]. *)
Definition wf (rooted : bool) (s : astate) : Prop :=
  Forall (fun e => is_real e = true) (snd s) /\ (rooted = true -> fst s = 0).

(** One path element read by [Clean]. *)
Definition astep (rooted : bool) (s : astate) (e : gostring) : astate :=
  let '(k, st) := s in
  if is_empty e || streq e (str ".") then s
  else if streq e dotdot_s then
    match st with
    | _ :: st' => (k, st')
    | [] => if rooted then s else (S k, [])
    end
  else (k, e :: st).

(** All the elements [es] read from the state [s]. *)
Definition norm (rooted : bool) (es : list gostring) (s : astate) : astate :=
  fold_left (astep rooted) es s.

(** The string [Clean] returns in the final state [s]. *)
Definition finish (rooted : bool) (s : astate) : gostring :=
  let '(k, st) := s in
  if rooted then Separator :: unsplit (rev st)
  else match repeat dotdot_s k ++ rev st with
       | [] => str "."
       | es => unsplit es
       end.

(** The loop of [Clean] at an element boundary, on a buffer and its
    [dotdot] index. *)
Definition run (rooted : bool) (path : gostring) (bd : list ascii * nat)
  : list ascii * nat :=
  clean_loop rooted false path (fst bd) (snd bd).

(** [rooted := os.IsPathSeparator(path[0])] *)
Definition rooted (path : gostring) : bool :=
  match path with
  | c :: _ => IsPathSeparator c
  | [] => false
  end.

(** The state in which [Clean] ends on [path]. *)
Definition cstate (path : gostring) : astate :=
  norm (rooted path) (elems path) (0, []).

(** The elements of a path once cleaned, in order. *)
Definition path_elems (path : gostring) : list gostring :=
  rev (snd (cstate path)).

(** [l1] starts [l2]. *)
Fixpoint list_prefix (l1 l2 : list gostring) : bool :=
  match l1, l2 with
  | [], _ => true
  | _ :: _, [] => false
  | a :: l1', b :: l2' => streq a b && list_prefix l1' l2'
  end.

(** [path] lies under [root], as a statement about directories: both are
    absolute and, once cleaned, the elements of [root] are the leading
    elements of [path]. *)
Definition under_root (root path : gostring) : bool :=
  IsAbs root && IsAbs path && list_prefix (path_elems root) (path_elems path).

(** The relative path [p] starts with a [..] element. *)
Definition escapes (p : gostring) : bool :=
  streq p (str "..") || HasPrefix p (str "../").

End PathElements.
Export PathElements.

(** * Vocabulary of the properties *)

Module Scenarios.

(** The root that [SetRootDir(rootdir)] sets: [rootdir], or ["/"] for the
    empty string (lines 541-544). *)
Definition root_of (rootdir : gostring) : gostring :=
  if streq rootdir [] then str "/" else rootdir.

(** An errno other than [ENOENT]. *)
Definition EACCES : Z := 13.

(** Nothing exists on disk; a classic system of no special distribution. *)
Definition env_bare : Env :=
  {| OnClassic := true;
     DistroLike := fun _ => false;
     Stat := fun p => Err (PathError "stat" p ENOENT);
     Lstat := fun p => Err (PathError "lstat" p ENOENT);
     Readlink := fun p => Err (PathError "readlink" p ENOENT) |}.

(** As [env_bare], but [lstat] is denied. *)
Definition env_denied : Env :=
  {| OnClassic := true;
     DistroLike := fun _ => false;
     Stat := fun p => Err (PathError "stat" p ENOENT);
     Lstat := fun p => Err (PathError "lstat" p EACCES);
     Readlink := fun p => Err (PathError "readlink" p ENOENT) |}.

(** As [env_bare], but [path] exists with mode [m] and, should it be a
    symbolic link, points to [target]. *)
Definition env_with (path : gostring) (m : FileMode) (target : gostring)
  : Env :=
  {| OnClassic := true;
     DistroLike := fun _ => false;
     Stat := fun p => Err (PathError "stat" p ENOENT);
     Lstat := fun p => if streq p path then Ok {| Mode := m |}
                       else Err (PathError "lstat" p ENOENT);
     Readlink := fun p => if streq p path then Ok target
                          else Err (PathError "readlink" p ENOENT) |}.

(** [fi.Mode()&fs.ModeSymlink != 0] *)
Definition is_symlink (fi : FileInfo) : bool :=
  negb (Z.eqb (Z.land (Mode fi) ModeSymlink) 0).

(** [fi.IsDir()] *)
Definition is_dir (fi : FileInfo) : bool := FileMode_IsDir (Mode fi).

(** A subscriber that logs, at each notification, the root it is given and
    what it reads in [WritableMountPath] and
    [WritableUbuntuCoreSystemDataDir] at that moment. *)
Definition observe_writable
  : Callback (list (gostring * gostring * gostring)) :=
  fun rootdir d log =>
    log ++ [(rootdir, WritableMountPath d, WritableUbuntuCoreSystemDataDir d)].

(** [stat] says that [path] does not exist. *)
Definition absent (env : Env) (path : gostring) : bool :=
  match Stat env path with
  | Err err => errors_Is_ErrNotExist err
  | Ok _ => false
  end.

(** [stat] of [path] succeeds. *)
Definition present (env : Env) (path : gostring) : bool :=
  match Stat env path with
  | Ok _ => true
  | Err _ => false
  end.

(** The glob of one home directory in the standard naming scheme. *)
Definition std_glob (home : gostring) : gostring :=
  Join [home; str "*"; UserHomeSnapDir].

(** The same in the hidden naming scheme. *)
Definition hidden_glob (home : gostring) : gostring :=
  Join [home; str "*"; HiddenSnapDataHomeDir].

(** The entries a comma-separated input stands for, under [root]. *)
Definition user_homes (root csv : gostring) : list gostring :=
  map (home_entry root) (if streq csv [] then [] else Split csv ","%char).

(** The options that select the hidden-variant globs. *)
Definition hidden_opts : option SnapDirOptions :=
  Some {| HiddenSnapDataDir := true; MigratedToExposedHome := false |}.

(** The string variables that [SetRootDir] assigns: all of them but
    [CloudMetaDataFile] and [SnapTrustedAccountKey], which are declared and
    assigned nowhere in the package. *)
Definition path_entries (d : Dirs) : list gostring :=
  [GlobalRootDir d; RunDir d; SnapMountDir d; DistroLibExecDir d;
   SnapBlobDir d; SnapDataDir d; SnapDownloadCacheDir d;
   SnapAppArmorDir d; SnapLdconfigDir d; SnapSeccompBase d;
   SnapSeccompDir d; SnapMountPolicyDir d; SnapCgroupPolicyDir d;
   SnapUdevRulesDir d; SnapKModModulesDir d; SnapKModModprobeDir d;
   LocaleDir d; SnapdSocket d; SnapSocket d; SnapRunDir d; SnapRunNsDir d;
   SnapRunLockDir d; SnapBootstrapRunDir d; SnapVoidDir d;
   SnapInterfacesRequestsRunDir d; SnapInterfacesRequestsStateDir d;
   SnapdMaintenanceFile d; SnapdStoreSSLCertsDir d; SnapSeedDir d;
   SnapDeviceDir d; SnapAssertsDBDir d; SnapCookieDir d;
   SnapAssertsSpoolDir d; SnapSeqDir d; SnapStateFile d;
   SnapStateLockFile d; SnapSystemKeyFile d; SnapRepairConfigFile d;
   SnapRepairDir d; SnapRepairStateFile d; SnapRepairRunDir d;
   SnapRepairAssertsDir d; SnapRunRepairDir d; SnapRollbackDir d;
   SnapCacheDir d; SnapNamesFile d; SnapSectionsFile d; SnapCommandsDB d;
   SnapAuxStoreInfoDir d; SnapIconsPoolDir d; SnapIconsDir d;
   SnapBinariesDir d; SnapServicesDir d; SnapRuntimeServicesDir d;
   SnapUserServicesDir d; SnapSystemdConfDir d; SnapDesktopFilesDir d;
   SnapDesktopIconsDir d; SnapPolkitPolicyDir d; SnapPolkitRuleDir d;
   SnapSystemdDir d; SnapSystemdRunDir d; SnapDBusSessionPolicyDir d;
   SnapDBusSystemPolicyDir d; SnapDBusSessionServicesDir d;
   SnapDBusSystemServicesDir d; SnapModeenvFile d; SnapBootAssetsDir d;
   SnapFDEDir d; SnapSaveDir d; SnapDeviceSaveDir d; SnapDataSaveDir d;
   SnapGpioChardevDir d; CloudInstanceDataFile d; ClassicDir d;
   XdgRuntimeDirBase d; XdgRuntimeDirGlob d; CompletionHelperInCore d;
   BashCompletionScript d; LegacyCompletersDir d; CompletersDir d;
   SystemFontsDir d; SystemLocalFontsDir d; SnapshotsDir d; SysfsDir d;
   DevDir d; FeaturesDir d; WritableMountPath d;
   WritableUbuntuCoreSystemDataDir d].

(** A slice that is not nil. *)
Definition list_set (l : list gostring) : bool :=
  match l with [] => false | _ :: _ => true end.

(** No variable that [SetRootDir] assigns is left at its zero value. *)
Definition all_set (d : Dirs) : bool :=
  forallb (fun s => negb (is_empty s)) (path_entries d)
  && list_set (SystemFontconfigCacheDirs d)
  && list_set (snapHomeDirs d)
  && list_set (snapDataHomeGlob d)
  && list_set (hiddenSnapDataHomeGlob d).

(** The variables with the mount directory, the entry derived from it and
    the detection outcome blanked. *)
Definition forget_mount (d : Dirs) : Dirs := set_mount [] [] None d.

(** Two environments that differ at most in what [lstat] and [readlink]
    answer, the two calls only the probe makes. *)
Definition same_but_probe (env1 env2 : Env) : Prop :=
  OnClassic env1 = OnClassic env2
  /\ (forall l, DistroLike env1 l = DistroLike env2 l)
  /\ (forall path, Stat env1 path = Stat env2 path).

(** The probe fails for the root that [SetRootDir(rootdir)] sets. *)
Definition probe_failed (env : Env) (rootdir : gostring) : bool :=
  match snapMountDirProbe env (root_of rootdir) with
  | Ok _ => false
  | Err _ => true
  end.

(** [err != nil] *)
Definition is_set (o : option error) : bool :=
  match o with Some _ => true | None => false end.

(** Successive calls of [SetRootDir], each in its own environment. *)
Fixpoint SetRootDirs (World : Type) (calls : list (Env * gostring))
         (p : Pkg World) : Pkg World :=
  match calls with
  | [] => p
  | (env, rootdir) :: calls' => SetRootDirs calls' (SetRootDir env rootdir p)
  end.

(** Whether the last probe run by [calls] failed; [before] answers for the
    probes run earlier.  Inside a base snap a call runs no probe. *)
Fixpoint last_probe_failed (calls : list (Env * gostring)) (before : bool)
  : bool :=
  match calls with
  | [] => before
  | (env, rootdir) :: calls' =>
      last_probe_failed calls'
        (if fst (isInsideBaseSnap env) then before
         else probe_failed env rootdir)
  end.

End Scenarios.
Export Scenarios.


(** * The rest of the package *)

Module DirsMore.

(** [SupportsClassicConfinement]; [EvalSymlinks] is [filepath.EvalSymlinks],
    which walks the file system and is an oracle like [os.Lstat]. *)
Definition SupportsClassicConfinement (env : Env)
           (EvalSymlinks : gostring -> result gostring) (d : Dirs) : bool :=
  if negb (OnClassic env) then false
  else
    let smd := Join [GlobalRootDir d; DefaultSnapMountDir] in
    if streq (SnapMountDir d) smd then true
    else
      match Lstat env smd with
      | Ok fi =>
          if negb (Z.eqb (Z.land (Mode fi) ModeSymlink) 0) then
            match EvalSymlinks smd with
            | Ok target => streq target (SnapMountDir d)
            | Err _ => false
            end
          else false
      | Err _ => false
      end.

(** [filepath.Base] reads the path from its end; the scans below run on
    the reversed path. *)

(** [for len(path) > 0 && os.IsPathSeparator(path[len(path)-1])] *)
Fixpoint strip_trailing (rpath : list ascii) : list ascii :=
  match rpath with
  | c :: rest => if IsPathSeparator c then strip_trailing rest else rpath
  | [] => []
  end.

(** [for i >= 0 && !os.IsPathSeparator(path[i]) { i-- }]: the bytes passed
    over, which are [path[i+1:]] reversed. *)
Fixpoint last_element (rpath : list ascii) : list ascii :=
  match rpath with
  | c :: rest => if IsPathSeparator c then [] else c :: last_element rest
  | [] => []
  end.

(** The same scan: the bytes left, which are [path[:i+1]] reversed. *)
Fixpoint before_last_element (rpath : list ascii) : list ascii :=
  match rpath with
  | c :: rest => if IsPathSeparator c then rpath else before_last_element rest
  | [] => []
  end.

(** [filepath.Base]; there is no volume name on Unix. *)
Definition Base (path : gostring) : gostring :=
  if streq path [] then str "."
  else
    let path := rev (last_element (strip_trailing (rev path))) in
    if streq path [] then [Separator] else path.

(** [filepath.Dir] *)
Definition Dir (path : gostring) : gostring :=
  Clean (rev (before_last_element (rev path))).

(** [libExecOutside] *)
Definition libExecOutside (env : Env) (base : gostring) (d : Dirs) : gostring :=
  if streq base [] then
    Join [SnapMountDir d; str "core/current/usr/lib/snapd"]
  else
    let p := Join [SnapMountDir d; str "snapd/current/usr/lib/snapd"] in
    match Stat env p with
    | Ok st => if FileMode_IsDir (Mode st) then p else DistroLibExecDir d
    | Err _ => DistroLibExecDir d
    end.

(** [CompleteShPath] *)
Definition CompleteShPath (env : Env) (base : gostring) (d : Dirs) : gostring :=
  Join [libExecOutside env base d; str "complete.sh"].

(** [IsCompleteShSymlink] *)
Definition IsCompleteShSymlink (env : Env) (compPath : gostring) : bool :=
  match Readlink env compPath with
  | Ok target =>
      streq (Base (Dir target)) (str "snapd")
      && streq (Base target) (str "complete.sh")
  | Err _ => false
  end.

End DirsMore.
Export DirsMore.

(** * Vocabulary of further properties *)

Module MoreScenarios.

(** The helpers that name a child of the state directory, each with the name
    of the child. *)
Definition state_helpers : list ((gostring -> gostring) * gostring) :=
  [(SnapBlobDirUnder, str "snaps"); (SnapSeedDirUnder, str "seed");
   (SnapStateFileUnder, str "state.json");
   (SnapStateLockFileUnder, str "state.lock");
   (SnapModeenvFileUnder, str "modeenv"); (FeaturesDirUnder, str "features");
   (SnapSystemParamsUnder, str "system-params");
   (SnapBootAssetsDirUnder, str "boot-assets");
   (SnapDeviceDirUnder, str "device"); (SnapFDEDirUnder, str "device/fde");
   (SnapSaveDirUnder, str "save");
   (SnapRepairConfigFileUnder, str "repair.json");
   (SnapKernelDriversTreesDirUnder, str "kernel")].

(** The helpers whose fixed part starts with a separator. *)
Definition systemd_helpers : list (gostring -> gostring) :=
  [SnapSystemdConfDirUnder; SnapServicesDirUnder; SnapRuntimeServicesDirUnder;
   SnapSystemdDirUnder].

(** Every helper that takes a root directory. *)
Definition under_helpers : list (gostring -> gostring) :=
  SnapdStateDir :: map fst state_helpers ++ systemd_helpers.

(** No element of [p] is [..]. *)
Definition no_dotdot (p : gostring) : bool :=
  forallb (fun e => negb (streq e dotdot_s)) (elems p).

(** Some element of [p] is a real one. *)
Definition has_real (p : gostring) : bool := existsb is_real (elems p).

(** Assignment of the two variables that hold the root as it was given. *)
Definition set_roots (root : gostring) (wmp : gostring) (d : Dirs) : Dirs :=
  {| GlobalRootDir := root;
     RunDir := RunDir d;
     SnapMountDir := SnapMountDir d;
     DistroLibExecDir := DistroLibExecDir d;
     hiddenSnapDataHomeGlob := hiddenSnapDataHomeGlob d;
     SnapBlobDir := SnapBlobDir d;
     SnapDataDir := SnapDataDir d;
     snapDataHomeGlob := snapDataHomeGlob d;
     SnapDownloadCacheDir := SnapDownloadCacheDir d;
     SnapAppArmorDir := SnapAppArmorDir d;
     SnapLdconfigDir := SnapLdconfigDir d;
     SnapSeccompBase := SnapSeccompBase d;
     SnapSeccompDir := SnapSeccompDir d;
     SnapMountPolicyDir := SnapMountPolicyDir d;
     SnapCgroupPolicyDir := SnapCgroupPolicyDir d;
     SnapUdevRulesDir := SnapUdevRulesDir d;
     SnapKModModulesDir := SnapKModModulesDir d;
     SnapKModModprobeDir := SnapKModModprobeDir d;
     LocaleDir := LocaleDir d;
     SnapdSocket := SnapdSocket d;
     SnapSocket := SnapSocket d;
     SnapRunDir := SnapRunDir d;
     SnapRunNsDir := SnapRunNsDir d;
     SnapRunLockDir := SnapRunLockDir d;
     SnapBootstrapRunDir := SnapBootstrapRunDir d;
     SnapVoidDir := SnapVoidDir d;
     SnapInterfacesRequestsRunDir := SnapInterfacesRequestsRunDir d;
     SnapInterfacesRequestsStateDir := SnapInterfacesRequestsStateDir d;
     SnapdMaintenanceFile := SnapdMaintenanceFile d;
     SnapdStoreSSLCertsDir := SnapdStoreSSLCertsDir d;
     SnapSeedDir := SnapSeedDir d;
     SnapDeviceDir := SnapDeviceDir d;
     SnapAssertsDBDir := SnapAssertsDBDir d;
     SnapCookieDir := SnapCookieDir d;
     SnapTrustedAccountKey := SnapTrustedAccountKey d;
     SnapAssertsSpoolDir := SnapAssertsSpoolDir d;
     SnapSeqDir := SnapSeqDir d;
     SnapStateFile := SnapStateFile d;
     SnapStateLockFile := SnapStateLockFile d;
     SnapSystemKeyFile := SnapSystemKeyFile d;
     SnapRepairConfigFile := SnapRepairConfigFile d;
     SnapRepairDir := SnapRepairDir d;
     SnapRepairStateFile := SnapRepairStateFile d;
     SnapRepairRunDir := SnapRepairRunDir d;
     SnapRepairAssertsDir := SnapRepairAssertsDir d;
     SnapRunRepairDir := SnapRunRepairDir d;
     SnapRollbackDir := SnapRollbackDir d;
     SnapCacheDir := SnapCacheDir d;
     SnapNamesFile := SnapNamesFile d;
     SnapSectionsFile := SnapSectionsFile d;
     SnapCommandsDB := SnapCommandsDB d;
     SnapAuxStoreInfoDir := SnapAuxStoreInfoDir d;
     SnapIconsPoolDir := SnapIconsPoolDir d;
     SnapIconsDir := SnapIconsDir d;
     SnapBinariesDir := SnapBinariesDir d;
     SnapServicesDir := SnapServicesDir d;
     SnapRuntimeServicesDir := SnapRuntimeServicesDir d;
     SnapUserServicesDir := SnapUserServicesDir d;
     SnapSystemdConfDir := SnapSystemdConfDir d;
     SnapDesktopFilesDir := SnapDesktopFilesDir d;
     SnapDesktopIconsDir := SnapDesktopIconsDir d;
     SnapPolkitPolicyDir := SnapPolkitPolicyDir d;
     SnapPolkitRuleDir := SnapPolkitRuleDir d;
     SnapSystemdDir := SnapSystemdDir d;
     SnapSystemdRunDir := SnapSystemdRunDir d;
     SnapDBusSessionPolicyDir := SnapDBusSessionPolicyDir d;
     SnapDBusSystemPolicyDir := SnapDBusSystemPolicyDir d;
     SnapDBusSessionServicesDir := SnapDBusSessionServicesDir d;
     SnapDBusSystemServicesDir := SnapDBusSystemServicesDir d;
     SnapModeenvFile := SnapModeenvFile d;
     SnapBootAssetsDir := SnapBootAssetsDir d;
     SnapFDEDir := SnapFDEDir d;
     SnapSaveDir := SnapSaveDir d;
     SnapDeviceSaveDir := SnapDeviceSaveDir d;
     SnapDataSaveDir := SnapDataSaveDir d;
     SnapGpioChardevDir := SnapGpioChardevDir d;
     CloudMetaDataFile := CloudMetaDataFile d;
     CloudInstanceDataFile := CloudInstanceDataFile d;
     ClassicDir := ClassicDir d;
     XdgRuntimeDirBase := XdgRuntimeDirBase d;
     XdgRuntimeDirGlob := XdgRuntimeDirGlob d;
     CompletionHelperInCore := CompletionHelperInCore d;
     BashCompletionScript := BashCompletionScript d;
     LegacyCompletersDir := LegacyCompletersDir d;
     CompletersDir := CompletersDir d;
     SystemFontsDir := SystemFontsDir d;
     SystemLocalFontsDir := SystemLocalFontsDir d;
     SystemFontconfigCacheDirs := SystemFontconfigCacheDirs d;
     SnapshotsDir := SnapshotsDir d;
     SysfsDir := SysfsDir d;
     DevDir := DevDir d;
     FeaturesDir := FeaturesDir d;
     WritableMountPath := wmp;
     WritableUbuntuCoreSystemDataDir := WritableUbuntuCoreSystemDataDir d;
     snapHomeDirs := snapHomeDirs d;
     snapMountDirDetectionError := snapMountDirDetectionError d |}.

(** The variables with the two that hold the root as given blanked. *)
Definition forget_roots (d : Dirs) : Dirs := set_roots [] [] d.

(** Every path of the package is absolute. *)
Definition all_abs (d : Dirs) : bool :=
  forallb IsAbs (path_entries d)
  && forallb IsAbs (SystemFontconfigCacheDirs d)
  && forallb IsAbs (snapHomeDirs d)
  && forallb IsAbs (snapDataHomeGlob d)
  && forallb IsAbs (hiddenSnapDataHomeGlob d).

(** The mount directory is found: the call is made inside a base snap or its
    probe succeeds. *)
Definition mount_resolved (env : Env) (rootdir : gostring) : bool :=
  fst (isInsideBaseSnap env) || negb (probe_failed env rootdir).

(** The entries that [SetRootDir] computes from the root and from nothing
    else: not the mount directory and what hangs on it, not the library
    directory, which hangs on [stat], not [CompletionHelperInCore], a path
    inside the core snap, and not the root itself. *)
Definition root_entries (d : Dirs) : list gostring :=
  [RunDir d; SnapBlobDir d; SnapDataDir d; SnapDownloadCacheDir d;
   SnapAppArmorDir d; SnapLdconfigDir d; SnapSeccompBase d;
   SnapSeccompDir d; SnapMountPolicyDir d; SnapCgroupPolicyDir d;
   SnapUdevRulesDir d; SnapKModModulesDir d; SnapKModModprobeDir d;
   LocaleDir d; SnapdSocket d; SnapSocket d; SnapRunDir d; SnapRunNsDir d;
   SnapRunLockDir d; SnapBootstrapRunDir d; SnapVoidDir d;
   SnapInterfacesRequestsRunDir d; SnapInterfacesRequestsStateDir d;
   SnapdMaintenanceFile d; SnapdStoreSSLCertsDir d; SnapSeedDir d;
   SnapDeviceDir d; SnapAssertsDBDir d; SnapCookieDir d;
   SnapAssertsSpoolDir d; SnapSeqDir d; SnapStateFile d;
   SnapStateLockFile d; SnapSystemKeyFile d; SnapRepairConfigFile d;
   SnapRepairDir d; SnapRepairStateFile d; SnapRepairRunDir d;
   SnapRepairAssertsDir d; SnapRunRepairDir d; SnapRollbackDir d;
   SnapCacheDir d; SnapNamesFile d; SnapSectionsFile d; SnapCommandsDB d;
   SnapAuxStoreInfoDir d; SnapIconsPoolDir d; SnapIconsDir d;
   SnapServicesDir d; SnapRuntimeServicesDir d; SnapUserServicesDir d;
   SnapSystemdConfDir d; SnapDesktopFilesDir d; SnapDesktopIconsDir d;
   SnapPolkitPolicyDir d; SnapPolkitRuleDir d; SnapSystemdDir d;
   SnapSystemdRunDir d; SnapDBusSessionPolicyDir d;
   SnapDBusSystemPolicyDir d; SnapDBusSessionServicesDir d;
   SnapDBusSystemServicesDir d; SnapModeenvFile d; SnapBootAssetsDir d;
   SnapFDEDir d; SnapSaveDir d; SnapDeviceSaveDir d; SnapDataSaveDir d;
   SnapGpioChardevDir d; CloudInstanceDataFile d; ClassicDir d;
   XdgRuntimeDirBase d; XdgRuntimeDirGlob d; BashCompletionScript d;
   LegacyCompletersDir d; CompletersDir d; SystemFontsDir d;
   SystemLocalFontsDir d; SnapshotsDir d; SysfsDir d; DevDir d;
   FeaturesDir d; WritableUbuntuCoreSystemDataDir d].

(** An environment inside a base snap: [/meta/snap.yaml] exists and
    [lstat] is denied. *)
Definition env_in_base : Env :=
  {| OnClassic := false;
     DistroLike := fun _ => false;
     Stat := fun p => if streq p metaSnapPath then Ok {| Mode := 420%Z |}
                      else Err (PathError "stat" p ENOENT);
     Lstat := fun p => Err (PathError "lstat" p EACCES);
     Readlink := fun p => Err (PathError "readlink" p ENOENT) |}.

(** A subscriber that logs its number and the root it is given. *)
Definition tag (i : nat) : Callback (list (nat * gostring)) :=
  fun rootdir _ log => log ++ [(i, rootdir)].

(** [AddRootDirCallback] for each callback of [cs] in turn. *)
Definition register_all (World : Type) (cs : list (Callback World))
           (p : Pkg World) : Pkg World :=
  fold_left (fun p c => AddRootDirCallback c p) cs p.

End MoreScenarios.
Export MoreScenarios.
(** * Properties *)

(** ** Strings *)

Module GoStringFacts.

Lemma streq_refl (a : gostring) : streq a a = true.
Proof.
  induction a as [|c a IH]; simpl; [reflexivity|].
  now rewrite Ascii.eqb_refl, IH.
Qed.

Lemma streq_eq (a b : gostring) : streq a b = true <-> a = b.
Proof.
  split.
  - revert b; induction a as [|x a IH]; intros [|y b]; simpl; try discriminate.
    + reflexivity.
    + intros H. apply andb_true_iff in H as [Hc Hs].
      apply Ascii.eqb_eq in Hc. apply IH in Hs. now subst.
  - intros ->. apply streq_refl.
Qed.

Lemma streq_neq (a b : gostring) : streq a b = false <-> a <> b.
Proof.
  split.
  - intros H E. apply streq_eq in E. congruence.
  - intros H. destruct (streq a b) eqn:E; [|reflexivity].
    apply streq_eq in E. contradiction.
Qed.

Lemma is_empty_true (s : gostring) : is_empty s = true <-> s = [].
Proof. destruct s; simpl; split; congruence. Qed.

Lemma HasPrefix_app (p t : gostring) : HasPrefix (p ++ t) p = true.
Proof.
  unfold HasPrefix. apply andb_true_iff; split.
  - apply Nat.leb_le. rewrite length_app. lia.
  - rewrite firstn_app, Nat.sub_diag, firstn_all. simpl.
    rewrite app_nil_r. apply streq_refl.
Qed.

Lemma HasPrefix_inv (s p : gostring) :
  HasPrefix s p = true -> exists t, s = p ++ t.
Proof.
  unfold HasPrefix. intros H. apply andb_true_iff in H as [_ H].
  apply streq_eq in H. exists (skipn (length p) s).
  rewrite <- H at 1. apply eq_sym, firstn_skipn.
Qed.

Lemma HasPrefix_iff (s p : gostring) :
  HasPrefix s p = true <-> exists t, s = p ++ t.
Proof.
  split; [apply HasPrefix_inv|]. intros [t ->]. apply HasPrefix_app.
Qed.

Lemma HasPrefix_cons (c : ascii) (s : gostring) p :
  HasPrefix (c :: s) (c :: p) = HasPrefix s p.
Proof.
  unfold HasPrefix. simpl. now rewrite Ascii.eqb_refl.
Qed.

End GoStringFacts.
Import GoStringFacts.

(** ** Path elements: what [Split] on the separator and [strings.Join] do *)

Module ElementFacts.

Lemma unsplit_cons (e : gostring) (es : list gostring) :
  es <> [] -> unsplit (e :: es) = e ++ Separator :: unsplit es.
Proof. destruct es; [congruence|reflexivity]. Qed.

Lemma unsplit_push (c : ascii) (e : gostring) (es : list gostring) :
  unsplit ((c :: e) :: es) = c :: unsplit (e :: es).
Proof. destruct es; reflexivity. Qed.

Lemma elems_not_nil (s : gostring) : elems s <> [].
Proof.
  unfold elems. destruct s as [|c s]; simpl; [discriminate|].
  destruct (Ascii.eqb c Separator); [discriminate|].
  destruct (Split s Separator); discriminate.
Qed.

Lemma elems_no_sep (s : gostring) : Forall (fun e => no_sep e = true) (elems s).
Proof.
  unfold elems. induction s as [|c s IH]; simpl.
  - repeat constructor.
  - destruct (Ascii.eqb c Separator) eqn:E.
    + constructor; [reflexivity|assumption].
    + destruct (Split s Separator) as [|e es]; inversion IH; subst;
        constructor; simpl; unfold IsPathSeparator; rewrite ?E; auto.
Qed.

Lemma unsplit_elems (s : gostring) : unsplit (elems s) = s.
Proof.
  unfold elems. induction s as [|c s IH]; simpl; [reflexivity|].
  destruct (Ascii.eqb c Separator) eqn:E.
  - apply Ascii.eqb_eq in E. subst c.
    rewrite unsplit_cons by apply elems_not_nil. simpl. now rewrite IH.
  - pose proof (elems_not_nil s) as Hne. unfold elems in Hne.
    destruct (Split s Separator) as [|e es]; [congruence|].
    rewrite unsplit_push, IH. reflexivity.
Qed.

Lemma elems_app_sep (x y : gostring) :
  elems (x ++ Separator :: y) = elems x ++ elems y.
Proof.
  unfold elems. induction x as [|c x IH]; simpl.
  - reflexivity.
  - destruct (Ascii.eqb c Separator); rewrite IH; [reflexivity|].
    pose proof (elems_not_nil x) as Hne. unfold elems in Hne.
    destruct (Split x Separator); [congruence|reflexivity].
Qed.

Lemma elems_single (e : gostring) : no_sep e = true -> elems e = [e].
Proof.
  unfold elems. induction e as [|c e IH]; simpl; [reflexivity|].
  intros H. apply andb_true_iff in H as [Hc He].
  unfold IsPathSeparator in Hc. apply negb_true_iff in Hc.
  rewrite Hc, (IH He). reflexivity.
Qed.

Lemma elems_unsplit (es : list gostring) :
  es <> [] -> Forall (fun e => no_sep e = true) es -> elems (unsplit es) = es.
Proof.
  induction es as [|e es IH]; [congruence|]. intros _ H.
  inversion H as [|? ? He Hes]; subst.
  destruct es as [|e2 es].
  - simpl. now apply elems_single.
  - rewrite unsplit_cons by discriminate.
    rewrite elems_app_sep, elems_single by assumption.
    rewrite IH; [reflexivity|discriminate|assumption].
Qed.

Lemma is_real_no_sep (e : gostring) : is_real e = true -> no_sep e = true.
Proof.
  unfold is_real. intros H.
  repeat (apply andb_true_iff in H as [H ?]). assumption.
Qed.

Lemma is_real_not_nil (e : gostring) : is_real e = true -> e <> [].
Proof.
  unfold is_real. intros H.
  repeat (apply andb_true_iff in H as [H ?]).
  destruct e; [discriminate|discriminate].
Qed.

End ElementFacts.
Import ElementFacts.

(** ** [Clean] on path elements *)

Module CleanFacts.

Lemma body_cons (e : gostring) (st : list gostring) :
  st <> [] -> body (e :: st) = rev e ++ Separator :: body st.
Proof. destruct st; [congruence|reflexivity]. Qed.

Lemma unsplit_snoc (es : list gostring) (e : gostring) :
  es <> [] -> unsplit (es ++ [e]) = unsplit es ++ Separator :: e.
Proof.
  induction es as [|a es IH]; [congruence|]. intros _.
  destruct es as [|b es].
  - reflexivity.
  - change ((a :: b :: es) ++ [e]) with (a :: ((b :: es) ++ [e])).
    rewrite unsplit_cons by (simpl; discriminate).
    rewrite IH by discriminate.
    rewrite (@unsplit_cons a (b :: es)) by discriminate.
    now rewrite <- app_assoc.
Qed.

Lemma rev_body (st : list gostring) : rev (body st) = unsplit (rev st).
Proof.
  induction st as [|e st IH]; [reflexivity|].
  destruct st as [|e2 st].
  - simpl. apply rev_involutive.
  - rewrite body_cons by discriminate.
    rewrite rev_app_distr, rev_involutive.
    cbn [rev] in *. rewrite IH.
    rewrite (@unsplit_snoc (rev st ++ [e2]) e).
    + now rewrite <- app_assoc.
    + destruct (rev st); discriminate.
Qed.

Lemma body_nil_iff (st : list gostring) :
  Forall (fun e => e <> []) st -> body st = [] -> st = [].
Proof.
  destruct st as [|e st]; [reflexivity|]. intros H Hb.
  inversion H as [|? ? He _]; subst. exfalso.
  destruct st.
  - simpl in Hb. apply He. now rewrite <- (rev_involutive e), Hb.
  - rewrite body_cons in Hb by discriminate.
    destruct (rev e); discriminate.
Qed.

Lemma body_app_length (st l : list gostring) :
  length (body l) <= length (body (st ++ l)).
Proof.
  induction st as [|e st IH]; [simpl; lia|].
  change ((e :: st) ++ l) with (e :: (st ++ l)).
  destruct (st ++ l) as [|x xs] eqn:E.
  - apply app_eq_nil in E as [_ ->]. simpl. lia.
  - rewrite body_cons by discriminate. rewrite length_app. cbn [length]. lia.
Qed.

Lemma body_push_length (e : gostring) (l : list gostring) :
  e <> [] -> length (body l) < length (body (e :: l)).
Proof.
  intros He. destruct l as [|x xs].
  - simpl. rewrite length_rev. destruct e; [congruence|simpl; lia].
  - rewrite (@body_cons e (x :: xs)) by discriminate.
    rewrite length_app. cbn [length]. lia.
Qed.

Lemma real_not_nil_all (st : list gostring) :
  Forall (fun e => is_real e = true) st -> Forall (fun e => e <> []) st.
Proof.
  intros H. eapply Forall_impl; [|exact H]. intros e. apply is_real_not_nil.
Qed.

(** *** The inner copy loop *)

Lemma copy_elem (r : bool) (e tail : gostring) (buf : list ascii) (d : nat) :
  no_sep e = true -> at_end_or_sep tail = true ->
  clean_loop r true (e ++ tail) buf d = clean_loop r false tail (rev e ++ buf) d.
Proof.
  revert buf. induction e as [|c e IH]; intros buf He Ht.
  - simpl. destruct tail as [|c t]; [reflexivity|].
    simpl in Ht. simpl. now rewrite Ht.
  - simpl in He. apply andb_true_iff in He as [Hc He].
    apply negb_true_iff in Hc. simpl. rewrite Hc.
    rewrite IH by assumption. now rewrite <- app_assoc.
Qed.

Lemma at_end_or_sep_app (e tail : gostring) :
  no_sep e = true -> e <> [] -> at_end_or_sep (e ++ tail) = false.
Proof.
  destruct e as [|c e]; [congruence|]. simpl. intros H _.
  apply andb_true_iff in H as [Hc _]. now apply negb_true_iff in Hc.
Qed.

Lemma real_elem_start (r : bool) (c : ascii) (e tail : gostring)
      (buf : list ascii) (d : nat) :
  is_real (c :: e) = true -> at_end_or_sep tail = true ->
  clean_loop r false (c :: e ++ tail) buf d
  = clean_loop r true (e ++ tail) (c :: add_slash r buf) d.
Proof.
  unfold is_real. intros H Ht.
  apply andb_true_iff in H as [H Hdd]. apply andb_true_iff in H as [H Hd].
  apply andb_true_iff in H as [H _].
  simpl in H. apply andb_true_iff in H as [Hc He].
  apply negb_true_iff in Hc.
  cbn [clean_loop]. rewrite Hc.
  destruct (is_dot c) eqn:Hd1.
  - unfold is_dot in Hd1. apply Ascii.eqb_eq in Hd1. subst c.
    destruct e as [|c2 e].
    + vm_compute in Hd. discriminate.
    + simpl in He. apply andb_true_iff in He as [Hc2 He].
      apply negb_true_iff in Hc2.
      cbn [app at_end_or_sep andb]. rewrite Hc2.
      destruct (is_dot c2) eqn:Hd2; [|reflexivity].
      unfold is_dot in Hd2. apply Ascii.eqb_eq in Hd2. subst c2.
      destruct e as [|c3 e]; [vm_compute in Hdd; discriminate|].
      rewrite (@at_end_or_sep_app (c3 :: e) tail);
        [reflexivity|assumption|discriminate].
  - cbn [andb]. destruct (e ++ tail); reflexivity.
Qed.

(** *** Backtracking over one element *)

Lemma no_sep_rev (e : gostring) : no_sep (rev e) = no_sep e.
Proof.
  unfold no_sep. induction e as [|c e IH]; [reflexivity|].
  simpl. rewrite forallb_app, IH. simpl. rewrite andb_true_r. apply andb_comm.
Qed.

Lemma backtrack_loop_len (d : nat) (l Z : list ascii) (last : ascii) :
  no_sep l = true -> IsPathSeparator last = false -> length Z = d ->
  backtrack_loop d last (l ++ Z) = Z.
Proof.
  revert last. induction l as [|c l IH]; intros last Hl Hlast HZ.
  - simpl. destruct Z as [|z Z]; [reflexivity|].
    cbn [backtrack_loop].
    replace (d <? length (z :: Z)) with false; [reflexivity|].
    symmetry. apply Nat.ltb_ge. lia.
  - simpl in Hl. apply andb_true_iff in Hl as [Hc Hl].
    apply negb_true_iff in Hc.
    cbn [app backtrack_loop]. rewrite Hlast.
    replace (d <? length (c :: l ++ Z)) with true.
    + simpl. now apply IH.
    + symmetry. apply Nat.ltb_lt. simpl. rewrite length_app. lia.
Qed.

Lemma backtrack_loop_sep (d : nat) (l Y : list ascii) (last : ascii) :
  no_sep l = true -> IsPathSeparator last = false -> d <= length Y ->
  backtrack_loop d last (l ++ Separator :: Y) = Y.
Proof.
  revert last. induction l as [|c l IH]; intros last Hl Hlast HY.
  - cbn [app backtrack_loop]. rewrite Hlast.
    replace (d <? length (Separator :: Y)) with true
      by (symmetry; apply Nat.ltb_lt; simpl; lia).
    simpl. destruct Y as [|y Y]; [reflexivity|].
    cbn [backtrack_loop]. replace (IsPathSeparator Separator) with true by reflexivity.
    now rewrite andb_false_r.
  - simpl in Hl. apply andb_true_iff in Hl as [Hc Hl].
    apply negb_true_iff in Hc.
    cbn [app backtrack_loop]. rewrite Hlast.
    replace (d <? length (c :: l ++ Separator :: Y)) with true.
    + simpl. now apply IH.
    + symmetry. apply Nat.ltb_lt. simpl. rewrite length_app. simpl. lia.
Qed.

Lemma backtrack_len (d : nat) (e : gostring) (Z : list ascii) :
  no_sep e = true -> e <> [] -> length Z = d ->
  backtrack d (rev e ++ Z) = Z.
Proof.
  intros He Hne HZ. rewrite <- no_sep_rev in He.
  destruct (rev e) as [|c l] eqn:E.
  - exfalso. apply Hne. now rewrite <- (rev_involutive e), E.
  - simpl in He. apply andb_true_iff in He as [Hc Hl].
    apply negb_true_iff in Hc. simpl. now apply backtrack_loop_len.
Qed.

Lemma backtrack_sep (d : nat) (e : gostring) (Y : list ascii) :
  no_sep e = true -> e <> [] -> d <= length Y ->
  backtrack d (rev e ++ Separator :: Y) = Y.
Proof.
  intros He Hne HY. rewrite <- no_sep_rev in He.
  destruct (rev e) as [|c l] eqn:E.
  - exfalso. apply Hne. now rewrite <- (rev_involutive e), E.
  - simpl in He. apply andb_true_iff in He as [Hc Hl].
    apply negb_true_iff in Hc. simpl. now apply backtrack_loop_sep.
Qed.

(** *** One element, read by the loop and read by [astep] *)

Lemma body_length_pos (e : gostring) (l : list gostring) :
  e <> [] -> 0 < length (body (e :: l)).
Proof.
  intros He. pose proof (@body_push_length e l He). lia.
Qed.

Lemma dotdot_elem_render (r : bool) (s : astate) :
  wf r s ->
  dotdot_elem r (fst (render r s)) (snd (render r s))
  = render r (astep r s dotdot_s).
Proof.
  destruct s as [k st]. intros [Hst Hk]. simpl in Hst, Hk.
  unfold astep.
  replace (is_empty dotdot_s || streq dotdot_s (str ".")) with false by reflexivity.
  replace (streq dotdot_s dotdot_s) with true by reflexivity.
  destruct r.
  - (* rooted *)
    rewrite (Hk eq_refl). cbn [render fst snd].
    destruct st as [|e st].
    + reflexivity.
    + inversion Hst as [|? ? He Hst']; subst.
      pose proof (@is_real_no_sep _ He) as Hns.
      pose proof (@is_real_not_nil _ He) as Hne.
      unfold dotdot_elem.
      replace (1 <? length (body (e :: st) ++ [Separator])) with true.
      2:{ symmetry. apply Nat.ltb_lt. rewrite length_app. simpl length at 2.
          pose proof (@body_length_pos e st Hne). lia. }
      cbn [render]. f_equal. destruct st as [|e2 st].
      * simpl body. now apply backtrack_len.
      * rewrite (@body_cons e (e2 :: st)) by discriminate.
        rewrite <- app_assoc. cbn [app].
        apply backtrack_sep; try assumption.
        rewrite length_app. simpl. lia.
  - (* not rooted *)
    cbn [render fst snd].
    destruct st as [|e st].
    + cbn [app]. unfold dotdot_elem.
      rewrite Nat.ltb_irrefl. cbn [negb].
      destruct k as [|k].
      * reflexivity.
      * replace (0 <? length (body (repeat dotdot_s (S k)))) with true.
        2:{ symmetry. apply Nat.ltb_lt. apply body_length_pos. discriminate. }
        cbn [render app].
        change (repeat dotdot_s (S (S k)))
          with (dotdot_s :: repeat dotdot_s (S k)).
        rewrite (@body_cons dotdot_s (repeat dotdot_s (S k)))
          by (simpl; discriminate).
        reflexivity.
    + inversion Hst as [|? ? He Hst']; subst.
      pose proof (@is_real_no_sep _ He) as Hns.
      pose proof (@is_real_not_nil _ He) as Hne.
      unfold dotdot_elem.
      change ((e :: st) ++ repeat dotdot_s k)
        with (e :: (st ++ repeat dotdot_s k)).
      replace (length (body (repeat dotdot_s k))
                 <? length (body (e :: st ++ repeat dotdot_s k))) with true.
      2:{ symmetry. apply Nat.ltb_lt.
          pose proof (@body_push_length e (st ++ repeat dotdot_s k) Hne).
          pose proof (body_app_length st (repeat dotdot_s k)). lia. }
      cbn [render]. f_equal.
      destruct (st ++ repeat dotdot_s k) as [|x xs] eqn:E.
      * apply app_eq_nil in E as [_ E]. rewrite E. simpl body.
        rewrite <- (app_nil_r (rev e)). now apply backtrack_len.
      * rewrite (@body_cons e (x :: xs)) by discriminate.
        apply backtrack_sep; try assumption.
        rewrite <- E. apply body_app_length.
Qed.

Lemma add_slash_render (r : bool) (k : nat) (st : list gostring) (e : gostring) :
  wf r (k, st) -> is_real e = true ->
  (rev e ++ add_slash r (fst (render r (k, st))), snd (render r (k, st)))
  = render r (k, e :: st).
Proof.
  intros [Hst Hk] He. simpl in Hst, Hk.
  pose proof (real_not_nil_all Hst) as Hnn.
  unfold add_slash. destruct r; cbn [render fst snd andb orb negb].
  - f_equal. rewrite orb_false_r. destruct st as [|e2 st].
    + reflexivity.
    + replace (length (body (e2 :: st) ++ [Separator]) =? 1) with false.
      2:{ symmetry. apply Nat.eqb_neq. rewrite length_app. simpl length at 2.
          inversion Hnn; subst.
          pose proof (@body_length_pos e2 st ltac:(assumption)). lia. }
      cbn [negb]. rewrite (@body_cons e (e2 :: st)) by discriminate.
      now rewrite <- app_assoc.
  - f_equal. change ((e :: st) ++ repeat dotdot_s k)
      with (e :: (st ++ repeat dotdot_s k)).
    destruct (st ++ repeat dotdot_s k) as [|x xs] eqn:E.
    + simpl. apply app_nil_r.
    + replace (length (body (x :: xs)) =? 0) with false.
      2:{ symmetry. apply Nat.eqb_neq.
          assert (x <> []) as Hx.
          { destruct st as [|y st]; simpl in E.
            - destruct k; simpl in E; [discriminate|].
              injection E as <- _. discriminate.
            - injection E as <- _. now inversion Hnn. }
          pose proof (@body_length_pos x xs Hx). lia. }
      cbn [negb]. now rewrite (@body_cons e (x :: xs)) by discriminate.
Qed.

Lemma is_real_intro (e : gostring) :
  no_sep e = true -> is_empty e = false -> streq e (str ".") = false ->
  streq e dotdot_s = false -> is_real e = true.
Proof.
  intros H1 H2 H3 H4. unfold is_real. fold dotdot_s.
  now rewrite H1, H2, H3, H4.
Qed.

Lemma elem_step (r : bool) (e tail : gostring) (s : astate) :
  no_sep e = true -> at_end_or_sep tail = true -> wf r s ->
  run r (e ++ tail) (render r s) = run r tail (render r (astep r s e)).
Proof.
  intros He Ht Hwf. destruct s as [k st]. unfold astep.
  destruct (is_empty e) eqn:E1.
  { apply is_empty_true in E1. subst e. reflexivity. }
  destruct (streq e (str ".")) eqn:E2.
  { apply streq_eq in E2. subst e. cbn [orb].
    unfold run. cbn [str list_ascii_of_string app clean_loop].
    replace (IsPathSeparator "."%char) with false by reflexivity.
    replace (is_dot "."%char) with true by reflexivity.
    now rewrite Ht. }
  cbn [orb].
  destruct (streq e dotdot_s) eqn:E3.
  { apply streq_eq in E3. subst e.
    pose proof (dotdot_elem_render Hwf) as Hdd.
    unfold astep in Hdd.
    replace (is_empty dotdot_s || streq dotdot_s (str ".")) with false in Hdd
      by reflexivity.
    replace (streq dotdot_s dotdot_s) with true in Hdd by reflexivity.
    rewrite <- Hdd.
    unfold run. cbn [dotdot_s str list_ascii_of_string app clean_loop].
    replace (IsPathSeparator "."%char) with false by reflexivity.
    replace (is_dot "."%char) with true by reflexivity.
    cbn [at_end_or_sep andb]. 
    replace (IsPathSeparator "."%char) with false by reflexivity.
    rewrite Ht.
    destruct (dotdot_elem r (fst (render r (k, st))) (snd (render r (k, st))));
      reflexivity. }
  pose proof (@is_real_intro e He E1 E2 E3) as Hreal.
  destruct e as [|c e]; [discriminate|].
  unfold run. cbn [app].
  rewrite real_elem_start by assumption.
  simpl in He. apply andb_true_iff in He as [_ He].
  rewrite copy_elem by assumption.
  pose proof (@add_slash_render r k st (c :: e) Hwf Hreal) as H.
  rewrite <- H. cbn [fst snd rev]. now rewrite <- app_assoc.
Qed.

Lemma astep_wf (r : bool) (s : astate) (e : gostring) :
  no_sep e = true -> wf r s -> wf r (astep r s e).
Proof.
  intros He [Hst Hk]. destruct s as [k st]. simpl in Hst, Hk. unfold astep.
  destruct (is_empty e) eqn:E1; [split; assumption|].
  destruct (streq e (str ".")) eqn:E2; [split; assumption|].
  cbn [orb].
  destruct (streq e dotdot_s) eqn:E3.
  - destruct st as [|x st].
    + destruct r; split; simpl; auto. intros; discriminate.
    + inversion Hst; subst. split; assumption.
  - split; [|assumption]. simpl. constructor; [|assumption].
    now apply is_real_intro.
Qed.

Lemma norm_wf (r : bool) (es : list gostring) (s : astate) :
  Forall (fun e => no_sep e = true) es -> wf r s -> wf r (norm r es s).
Proof.
  revert s. induction es as [|e es IH]; intros s Hes Hs; [assumption|].
  inversion Hes; subst. simpl. apply IH; [assumption|]. now apply astep_wf.
Qed.

(** The loop of [Clean] on a path read as its elements. *)
Lemma run_elems (r : bool) (es : list gostring) (s : astate) :
  Forall (fun e => no_sep e = true) es -> wf r s ->
  run r (unsplit es) (render r s) = render r (norm r es s).
Proof.
  revert s. induction es as [|e es IH]; intros s Hes Hs.
  - unfold run. simpl. now destruct (render r s).
  - inversion Hes as [|? ? He Hes']; subst.
    destruct es as [|e2 es].
    + change (unsplit [e]) with e. rewrite <- (app_nil_r e) at 1.
      rewrite elem_step by (assumption || reflexivity).
      unfold run. simpl. now destruct (render r (astep r s e)).
    + rewrite unsplit_cons by discriminate.
      rewrite elem_step by (assumption || reflexivity).
      assert (forall bd, run r (Separator :: unsplit (e2 :: es)) bd
                         = run r (unsplit (e2 :: es)) bd) as Hsep
          by reflexivity.
      rewrite Hsep. rewrite IH; [reflexivity|assumption|].
      now apply astep_wf.
Qed.

(** *** [Clean] as a fold over the elements of the path *)

Lemma wf_init (r : bool) : wf r (0, []).
Proof. split; simpl; auto. Qed.

Lemma cstate_wf (path : gostring) : wf (rooted path) (cstate path).
Proof. apply norm_wf; [apply elems_no_sep|apply wf_init]. Qed.

Lemma rev_repeat (A : Type) (x : A) (k : nat) : rev (repeat x k) = repeat x k.
Proof.
  induction k as [|k IH]; [reflexivity|].
  simpl. rewrite IH. clear IH. induction k as [|k IH]; [reflexivity|].
  simpl. now rewrite IH.
Qed.

Lemma finish_render (r : bool) (s : astate) :
  wf r s ->
  finish r s = match fst (render r s) with
               | [] => str "."
               | _ :: _ => rev (fst (render r s))
               end.
Proof.
  destruct s as [k st]. intros [Hst Hk]. simpl in Hst, Hk.
  pose proof (real_not_nil_all Hst) as Hnn.
  destruct r; cbn [finish render fst].
  - destruct (body st ++ [Separator]) eqn:E.
    + destruct (body st); discriminate.
    + rewrite <- E. rewrite rev_app_distr. simpl. now rewrite rev_body.
  - assert (Forall (fun e => e <> []) (st ++ repeat dotdot_s k)) as Hall.
    { apply Forall_app. split; [assumption|].
      apply Forall_forall. intros x Hx. apply repeat_spec in Hx. now subst. }
    destruct (body (st ++ repeat dotdot_s k)) eqn:E.
    + apply (body_nil_iff Hall) in E. apply app_eq_nil in E as [-> ->].
      reflexivity.
    + rewrite <- E. rewrite rev_body, rev_app_distr, rev_repeat.
      destruct (repeat dotdot_s k ++ rev st) eqn:E2; [|reflexivity].
      exfalso. apply app_eq_nil in E2 as [E2 E3].
      rewrite E2 in E. 
      assert (st = []) as -> by (now rewrite <- (rev_involutive st), E3).
      discriminate.
Qed.

(** [Clean] reads its argument element by element. *)
Lemma Clean_elems (path : gostring) :
  path <> [] -> Clean path = finish (rooted path) (cstate path).
Proof.
  destruct path as [|c0 rest]; [congruence|]. intros _.
  rewrite finish_render by apply cstate_wf.
  unfold Clean, cstate. cbn [rooted].
  destruct (IsPathSeparator c0) eqn:E0.
  - unfold IsPathSeparator in E0. apply Ascii.eqb_eq in E0. subst c0.
    assert (elems (Separator :: rest) = [] :: elems rest) as -> by reflexivity.
    change (norm true ([] :: elems rest) (0, []))
      with (norm true (elems rest) (0, [])).
    rewrite <- (@run_elems true (elems rest) (0, []))
      by (apply elems_no_sep || apply wf_init).
    rewrite unsplit_elems. unfold run. cbn [render fst snd body app].
    destruct (clean_loop true false rest [Separator] 1). reflexivity.
  - rewrite <- (@run_elems false (elems (c0 :: rest)) (0, []))
      by (apply elems_no_sep || apply wf_init).
    rewrite unsplit_elems. unfold run.
    cbn [render fst snd body app repeat length].
    destruct (clean_loop false false (c0 :: rest) [] 0). reflexivity.
Qed.

Lemma Clean_not_nil (path : gostring) : Clean path <> [].
Proof.
  destruct path as [|c0 rest]; [discriminate|].
  unfold Clean.
  destruct (if IsPathSeparator c0 then _ else _) as [buf d].
  destruct buf as [|b buf]; [discriminate|].
  simpl. destruct (rev buf); discriminate.
Qed.

Lemma rooted_app (x y : gostring) : x <> [] -> rooted (x ++ y) = rooted x.
Proof. destruct x; [congruence|reflexivity]. Qed.

Lemma cstate_app_sep (x y : gostring) :
  x <> [] ->
  cstate (x ++ Separator :: y) = norm (rooted x) (elems y) (cstate x).
Proof.
  intros Hx. unfold cstate. rewrite rooted_app by assumption.
  rewrite elems_app_sep. unfold norm. apply fold_left_app.
Qed.

Lemma norm_reals (r : bool) (l : list gostring) (k : nat) (st : list gostring) :
  Forall (fun e => is_real e = true) l ->
  norm r l (k, st) = (k, rev l ++ st).
Proof.
  revert st. induction l as [|e l IH]; intros st Hl; [reflexivity|].
  inversion Hl as [|? ? He Hl']; subst.
  unfold norm. cbn [fold_left]. fold (norm r l (astep r (k, st) e)).
  unfold is_real in He. fold dotdot_s in He.
  apply andb_true_iff in He as [He H3]. apply andb_true_iff in He as [He H2].
  apply andb_true_iff in He as [_ H1].
  apply negb_true_iff in H1, H2, H3.
  unfold astep. rewrite H1, H2, H3. cbn [orb].
  rewrite IH by assumption. simpl. now rewrite <- app_assoc.
Qed.

Lemma norm_dotdots (k j : nat) :
  norm false (repeat dotdot_s k) (j, []) = (j + k, []).
Proof.
  revert j. induction k as [|k IH]; intros j.
  - simpl. f_equal. lia.
  - unfold norm. cbn [repeat fold_left].
    fold (norm false (repeat dotdot_s k) (astep false (j, []) dotdot_s)).
    replace (astep false (j, []) dotdot_s) with (S j, @nil gostring)
      by reflexivity.
    rewrite IH. f_equal. lia.
Qed.

Lemma rooted_unsplit_real (e : gostring) (es : list gostring) :
  no_sep e = true -> e <> [] -> rooted (unsplit (e :: es)) = false.
Proof.
  intros He Hne. destruct e as [|c e]; [congruence|].
  simpl in He. apply andb_true_iff in He as [Hc _].
  apply negb_true_iff in Hc.
  destruct es; simpl; assumption.
Qed.

(** The string [Clean] returns is read back, by [Clean], into the state in
    which it was produced. *)
Lemma finish_fix (r : bool) (s : astate) :
  wf r s ->
  finish r s <> [] /\ rooted (finish r s) = r /\ cstate (finish r s) = s.
Proof.
  destruct s as [k st]. intros [Hst Hk]. simpl in Hst, Hk.
  assert (Forall (fun e => is_real e = true) (rev st)) as Hrev
      by (apply Forall_rev; assumption).
  assert (Forall (fun e => no_sep e = true) (rev st)) as Hns.
  { eapply Forall_impl; [|exact Hrev]. intros e. apply is_real_no_sep. }
  destruct r.
  - rewrite (Hk eq_refl). clear Hk. cbn [finish].
    split; [discriminate|]. split; [reflexivity|].
    unfold cstate. cbn [rooted].
    replace (IsPathSeparator Separator) with true by reflexivity.
    assert (elems (Separator :: unsplit (rev st))
            = [] :: elems (unsplit (rev st))) as -> by reflexivity.
    change (norm true ([] :: elems (unsplit (rev st))) (0, []))
      with (norm true (elems (unsplit (rev st))) (0, [])).
    destruct (rev st) as [|x xs] eqn:E.
    + assert (st = []) as -> by (now rewrite <- (rev_involutive st), E).
      reflexivity.
    + rewrite elems_unsplit by (assumption || discriminate).
      rewrite norm_reals by assumption.
      rewrite <- E, rev_involutive. now rewrite app_nil_r.
  - clear Hk. cbn [finish].
    destruct (repeat dotdot_s k ++ rev st) as [|x xs] eqn:E.
    + apply app_eq_nil in E as [E1 E2].
      assert (st = []) as -> by (now rewrite <- (rev_involutive st), E2).
      destruct k; [|discriminate]. repeat split. discriminate.
    + assert (Forall (fun e => no_sep e = true) (x :: xs)) as Hall.
      { rewrite <- E. apply Forall_app. split; [|assumption].
        apply Forall_forall. intros y Hy. apply repeat_spec in Hy. now subst. }
      assert (x <> []) as Hx.
      { destruct k.
        - simpl in E. rewrite E in Hrev. inversion Hrev; subst.
          now apply is_real_not_nil.
        - simpl in E. injection E as <- _. discriminate. }
      split.
      { intros H. destruct x; [congruence|]. destruct xs; discriminate. }
      split.
      { apply rooted_unsplit_real; [now inversion Hall|assumption]. }
      unfold cstate.
      rewrite rooted_unsplit_real by (now inversion Hall || assumption).
      rewrite elems_unsplit by (assumption || discriminate).
      rewrite <- E. unfold norm. rewrite fold_left_app.
      fold (norm false (repeat dotdot_s k) (0, [])). rewrite norm_dotdots.
      fold (norm false (rev st) (0 + k, [])).
      rewrite norm_reals by assumption.
      now rewrite rev_involutive, app_nil_r.
Qed.

Lemma rooted_Clean (x : gostring) : rooted (Clean x) = rooted x.
Proof.
  destruct x as [|c x]; [reflexivity|].
  rewrite Clean_elems by discriminate.
  apply finish_fix, cstate_wf.
Qed.

Lemma cstate_Clean (x : gostring) : x <> [] -> cstate (Clean x) = cstate x.
Proof.
  intros Hx. rewrite Clean_elems by assumption.
  apply finish_fix, cstate_wf.
Qed.

(** [Clean] is idempotent. *)
Lemma Clean_idempotent (x : gostring) : Clean (Clean x) = Clean x.
Proof.
  destruct x as [|c x]; [reflexivity|].
  rewrite (@Clean_elems (Clean (c :: x))) by apply Clean_not_nil.
  rewrite rooted_Clean, cstate_Clean by discriminate.
  symmetry. apply Clean_elems. discriminate.
Qed.

(** Cleaning a prefix first does not change the result. *)
Lemma Clean_prefix (x y : gostring) :
  x <> [] ->
  Clean (Clean x ++ Separator :: y) = Clean (x ++ Separator :: y).
Proof.
  intros Hx.
  assert (forall a b : gostring, a ++ Separator :: b <> []) as Hne
      by (intros a b H; symmetry in H; revert H; apply app_cons_not_nil).
  rewrite (@Clean_elems (Clean x ++ Separator :: y)) by apply Hne.
  rewrite (@Clean_elems (x ++ Separator :: y)) by apply Hne.
  rewrite (@cstate_app_sep (Clean x) y) by apply Clean_not_nil.
  rewrite (@cstate_app_sep x y) by assumption.
  rewrite (@rooted_app (Clean x)) by apply Clean_not_nil.
  rewrite (@rooted_app x) by assumption.
  now rewrite rooted_Clean, cstate_Clean.
Qed.

End CleanFacts.
Import CleanFacts.

(** ** [Join] *)

Module JoinFacts.

Lemma Join_cons (e : gostring) (rest : list gostring) :
  e <> [] -> Join (e :: rest) = Clean (unsplit (e :: rest)).
Proof. destruct e; [congruence|reflexivity]. Qed.

Lemma Join_nil_cons (rest : list gostring) : Join ([] :: rest) = Join rest.
Proof. reflexivity. Qed.

Lemma Join_not_nil (l : list gostring) :
  existsb (fun e => negb (is_empty e)) l = true -> Join l <> [].
Proof.
  induction l as [|e l IH]; [discriminate|].
  destruct e as [|c e].
  - simpl. exact IH.
  - intros _. rewrite Join_cons by discriminate. apply Clean_not_nil.
Qed.

Lemma Join_second (a b : gostring) (rest : list gostring) :
  b <> [] -> Join (a :: b :: rest) <> [].
Proof.
  intros Hb. apply Join_not_nil. simpl.
  destruct b; [congruence|]. simpl. apply orb_true_r.
Qed.

Lemma Join_first (a : gostring) (rest : list gostring) :
  a <> [] -> Join (a :: rest) <> [].
Proof.
  intros Ha. apply Join_not_nil. simpl. destruct a; [congruence|reflexivity].
Qed.

(** Joining in two steps. *)
Lemma Join_Join (x y : gostring) (rest : list gostring) :
  y <> [] -> rest <> [] ->
  Join (Join [x; y] :: rest) = Join (x :: y :: rest).
Proof.
  intros Hy Hrest.
  assert (forall z, z <> [] ->
            Join (Clean z :: rest) = Clean (z ++ Separator :: unsplit rest)) as H.
  { intros z Hz. rewrite Join_cons by apply Clean_not_nil.
    rewrite unsplit_cons by assumption. now apply Clean_prefix. }
  destruct x as [|c x].
  - rewrite !Join_nil_cons. rewrite (@Join_cons y []) by assumption.
    change (unsplit [y]) with y. rewrite H by assumption.
    rewrite Join_cons by assumption. now rewrite unsplit_cons.
  - rewrite (@Join_cons (c :: x) [y]) by discriminate.
    rewrite (@Join_cons (c :: x) (y :: rest)) by discriminate.
    rewrite H by (rewrite unsplit_cons; discriminate).
    change (unsplit [c :: x; y]) with ((c :: x) ++ Separator :: y).
    rewrite (@unsplit_cons (c :: x) (y :: rest)) by discriminate.
    rewrite (@unsplit_cons y rest) by assumption.
    now rewrite <- app_assoc.
Qed.

End JoinFacts.
Import JoinFacts.

(** ** Assignments to the package variables *)

Module VarFacts.

Lemma SetSnapHomeDirs_vars (homedirs : gostring) (d : Dirs) :
  exists homes globs hglobs,
    SetSnapHomeDirs homedirs d = (homes, set_home homes globs hglobs d).
Proof.
  unfold SetSnapHomeDirs.
  destruct (if negb (streq homedirs []) then _ else _) as [[h g] hg].
  destruct (negb (ListContains h _)); eauto.
Qed.

Lemma root_of_not_nil (rootdir : gostring) : root_of rootdir <> [].
Proof. unfold root_of. destruct rootdir; simpl; discriminate. Qed.

Lemma SetRootDir_paths_root (env : Env) (rootdir : gostring) (old : Dirs) :
  GlobalRootDir (SetRootDir_paths env rootdir old) = root_of rootdir.
Proof.
  unfold SetRootDir_paths.
  destruct (isInsideBaseSnap env) as [b e].
  destruct (if b then _ else _) as [m err].
  cbv zeta.
  match goal with |- GlobalRootDir (snd (SetSnapHomeDirs ?h ?d)) = _ =>
    destruct (SetSnapHomeDirs_vars h d) as (hs & gs & hgs & ->) end.
  reflexivity.
Qed.

(** After the two destructs the let-bound values of [SetRootDir_paths] are
    exposed and the projection of any field computes. *)
Ltac open_paths :=
  unfold SetRootDir_paths, root_of in *;
  destruct (isInsideBaseSnap _) as [?b ?e];
  match goal with
  | |- context [if ?b then (?x, ?y) else ?z] =>
      let m := fresh "m" in
      let err := fresh "err" in
      let E := fresh "Emount" in
      destruct (if b then (x, y) else z) as [m err] eqn:E
  end;
  cbv zeta;
  match goal with
  | |- context [SetSnapHomeDirs ?h ?d] =>
      let hs := fresh "hs" in
      let gs := fresh "gs" in
      let hgs := fresh "hgs" in
      let E := fresh "E" in
      destruct (SetSnapHomeDirs_vars h d) as (hs & gs & hgs & E);
      rewrite E; clear E
  end.

Lemma SetRootDir_root (World : Type) (env : Env) (rootdir : gostring)
      (p : Pkg World) :
  GlobalRootDir (vars (SetRootDir env rootdir p)) = root_of rootdir.
Proof.
  unfold SetRootDir, SetRootDir_writable. cbn [vars].
  rewrite <- (SetRootDir_paths_root env rootdir (vars p)).
  reflexivity.
Qed.

(** The mount directory and the detection outcome after [SetRootDir]. *)
Lemma SetRootDir_mount (World : Type) (env : Env) (rootdir : gostring)
      (p : Pkg World) :
  let d' := vars (SetRootDir env rootdir p) in
  (SnapMountDir d', snapMountDirDetectionError d')
  = (if fst (isInsideBaseSnap env)
     then (Join [root_of rootdir; DefaultSnapMountDir],
           snapMountDirDetectionError (vars p))
     else match snapMountDirProbe env (root_of rootdir) with
          | Ok dir => (dir, None)
          | Err err =>
              (snapMountDirUnresolvedPlaceholder,
               Some (Errorf_w (str "cannot resolve snap mount directory") err))
          end)
  /\ SnapBinariesDir d' = Join [SnapMountDir d'; str "bin"].
Proof.
  unfold SetRootDir, SetRootDir_writable. cbn [vars].
  open_paths. cbn [fst]. rewrite Emount.
  split; reflexivity.
Qed.

End VarFacts.
Import VarFacts.

(** ** Home directories and root changes *)

Module RootChangeFacts.

Lemma home_loop_spec (root : gostring) (es g h : list gostring) :
  home_loop root es g h
  = (map (home_entry root) es,
     g ++ map std_glob (map (home_entry root) es),
     h ++ map hidden_glob (map (home_entry root) es)).
Proof.
  revert g h. induction es as [|e es IH]; intros g h.
  - simpl. now rewrite !app_nil_r.
  - cbn [home_loop map]. rewrite IH. now rewrite <- !app_assoc.
Qed.

Lemma ListContains_In (l : list gostring) (s : gostring) :
  ListContains l s = true -> In s l.
Proof.
  unfold ListContains. intros H. apply existsb_exists in H as (x & Hx & E).
  apply streq_eq in E. now subst.
Qed.

Lemma homes_not_nil (user : list gostring) (home : gostring) :
  (if ListContains user home then user else user ++ [home]) <> [].
Proof.
  destruct (ListContains user home) eqn:Hc.
  - apply ListContains_In in Hc. destruct user; [contradiction|discriminate].
  - destruct user; discriminate.
Qed.

(** What [SetSnapHomeDirs] returns and assigns. *)
Lemma SetSnapHomeDirs_shape (csv : gostring) (d : Dirs) :
  let home := Join [GlobalRootDir d; str "/home"] in
  let user := user_homes (GlobalRootDir d) csv in
  let homes := if ListContains user home then user else user ++ [home] in
  SetSnapHomeDirs csv d
  = (homes, set_home homes (map std_glob homes) (map hidden_glob homes) d).
Proof.
  intros home user homes. subst homes.
  unfold SetSnapHomeDirs. fold home.
  assert ((if negb (streq csv [])
           then home_loop (GlobalRootDir d) (Split csv ","%char) [] []
           else ([], [], []))
          = (user, map std_glob user, map hidden_glob user)) as ->.
  { unfold user, user_homes. destruct (streq csv []); cbn [negb].
    - reflexivity.
    - now rewrite home_loop_spec. }
  destruct (ListContains user home); cbn [negb].
  - reflexivity.
  - rewrite !map_app. cbn [map]. unfold home.
    unfold std_glob, hidden_glob.
    rewrite (@Join_Join (GlobalRootDir d) (str "/home")
               [str "*"; UserHomeSnapDir]) by discriminate.
    rewrite (@Join_Join (GlobalRootDir d) (str "/home")
               [str "*"; HiddenSnapDataHomeDir]) by discriminate.
    reflexivity.
Qed.

Lemma probe_ok_not_nil (env : Env) (rootdir dir : gostring) :
  snapMountDirProbe env rootdir = Ok dir -> dir <> [].
Proof.
  unfold snapMountDirProbe.
  assert (forall a b : gostring, b <> [] -> forall x, Ok (Join [a; b]) = Ok x -> x <> [])
    as H.
  { intros a b Hb x E. assert (x = Join [a; b]) as -> by congruence.
    now apply Join_second. }
  destruct (DistroLike env specialDefaultDirDistros).
  { apply H. discriminate. }
  destruct (Lstat env _) as [fi|err].
  - destruct (negb (Z.land (FileMode_Type (Mode fi)) ModeSymlink =? 0)%Z).
    + destruct (Readlink env _) as [p|err]; [|discriminate].
      destruct (negb (streq p AltSnapMountDir) && _ && _); [discriminate|].
      apply H. discriminate.
    + destruct (FileMode_IsDir _); [|discriminate]. apply H. discriminate.
  - destruct (errors_Is_ErrNotExist err); [|discriminate]. apply H. discriminate.
Qed.

Lemma forallb_not_nil (l : list gostring) :
  Forall (fun s => s <> []) l -> forallb (fun s => negb (is_empty s)) l = true.
Proof.
  induction 1 as [|s l Hs _ IH]; [reflexivity|].
  simpl. rewrite IH. destruct s; [congruence|reflexivity].
Qed.

(** Projections of the package variables out of an explicit record. *)
Ltac cbn_vars :=
  cbn [GlobalRootDir RunDir SnapMountDir DistroLibExecDir
       hiddenSnapDataHomeGlob SnapBlobDir SnapDataDir snapDataHomeGlob
       SnapDownloadCacheDir SnapAppArmorDir SnapLdconfigDir
       SnapSeccompBase SnapSeccompDir SnapMountPolicyDir
       SnapCgroupPolicyDir SnapUdevRulesDir SnapKModModulesDir
       SnapKModModprobeDir LocaleDir SnapdSocket SnapSocket SnapRunDir
       SnapRunNsDir SnapRunLockDir SnapBootstrapRunDir SnapVoidDir
       SnapInterfacesRequestsRunDir SnapInterfacesRequestsStateDir
       SnapdMaintenanceFile SnapdStoreSSLCertsDir SnapSeedDir
       SnapDeviceDir SnapAssertsDBDir SnapCookieDir
       SnapTrustedAccountKey SnapAssertsSpoolDir SnapSeqDir
       SnapStateFile SnapStateLockFile SnapSystemKeyFile
       SnapRepairConfigFile SnapRepairDir SnapRepairStateFile
       SnapRepairRunDir SnapRepairAssertsDir SnapRunRepairDir
       SnapRollbackDir SnapCacheDir SnapNamesFile SnapSectionsFile
       SnapCommandsDB SnapAuxStoreInfoDir SnapIconsPoolDir SnapIconsDir
       SnapBinariesDir SnapServicesDir SnapRuntimeServicesDir
       SnapUserServicesDir SnapSystemdConfDir SnapDesktopFilesDir
       SnapDesktopIconsDir SnapPolkitPolicyDir SnapPolkitRuleDir
       SnapSystemdDir SnapSystemdRunDir SnapDBusSessionPolicyDir
       SnapDBusSystemPolicyDir SnapDBusSessionServicesDir
       SnapDBusSystemServicesDir SnapModeenvFile SnapBootAssetsDir
       SnapFDEDir SnapSaveDir SnapDeviceSaveDir SnapDataSaveDir
       SnapGpioChardevDir CloudMetaDataFile CloudInstanceDataFile
       ClassicDir XdgRuntimeDirBase XdgRuntimeDirGlob
       CompletionHelperInCore BashCompletionScript LegacyCompletersDir
       CompletersDir SystemFontsDir SystemLocalFontsDir
       SystemFontconfigCacheDirs SnapshotsDir SysfsDir DevDir
       FeaturesDir WritableMountPath WritableUbuntuCoreSystemDataDir
       snapHomeDirs snapMountDirDetectionError set_home set_writable
       set_mount].

Ltac cbn_vars_in H :=
  cbn [GlobalRootDir RunDir SnapMountDir DistroLibExecDir
       hiddenSnapDataHomeGlob SnapBlobDir SnapDataDir snapDataHomeGlob
       SnapDownloadCacheDir SnapAppArmorDir SnapLdconfigDir
       SnapSeccompBase SnapSeccompDir SnapMountPolicyDir
       SnapCgroupPolicyDir SnapUdevRulesDir SnapKModModulesDir
       SnapKModModprobeDir LocaleDir SnapdSocket SnapSocket SnapRunDir
       SnapRunNsDir SnapRunLockDir SnapBootstrapRunDir SnapVoidDir
       SnapInterfacesRequestsRunDir SnapInterfacesRequestsStateDir
       SnapdMaintenanceFile SnapdStoreSSLCertsDir SnapSeedDir
       SnapDeviceDir SnapAssertsDBDir SnapCookieDir
       SnapTrustedAccountKey SnapAssertsSpoolDir SnapSeqDir
       SnapStateFile SnapStateLockFile SnapSystemKeyFile
       SnapRepairConfigFile SnapRepairDir SnapRepairStateFile
       SnapRepairRunDir SnapRepairAssertsDir SnapRunRepairDir
       SnapRollbackDir SnapCacheDir SnapNamesFile SnapSectionsFile
       SnapCommandsDB SnapAuxStoreInfoDir SnapIconsPoolDir SnapIconsDir
       SnapBinariesDir SnapServicesDir SnapRuntimeServicesDir
       SnapUserServicesDir SnapSystemdConfDir SnapDesktopFilesDir
       SnapDesktopIconsDir SnapPolkitPolicyDir SnapPolkitRuleDir
       SnapSystemdDir SnapSystemdRunDir SnapDBusSessionPolicyDir
       SnapDBusSystemPolicyDir SnapDBusSessionServicesDir
       SnapDBusSystemServicesDir SnapModeenvFile SnapBootAssetsDir
       SnapFDEDir SnapSaveDir SnapDeviceSaveDir SnapDataSaveDir
       SnapGpioChardevDir CloudMetaDataFile CloudInstanceDataFile
       ClassicDir XdgRuntimeDirBase XdgRuntimeDirGlob
       CompletionHelperInCore BashCompletionScript LegacyCompletersDir
       CompletersDir SystemFontsDir SystemLocalFontsDir
       SystemFontconfigCacheDirs SnapshotsDir SysfsDir DevDir
       FeaturesDir WritableMountPath WritableUbuntuCoreSystemDataDir
       snapHomeDirs snapMountDirDetectionError set_home set_writable
       set_mount] in H.

Ltac literal_not_nil :=
  let H := fresh in intro H; vm_compute in H; discriminate H.

Ltac entry_not_nil :=
  first [ assumption
        | apply Join_second; literal_not_nil
        | literal_not_nil ].

(** [SetRootDir] leaves none of the variables it assigns empty. *)
Lemma SetRootDir_all_set (World : Type) (env : Env) (rootdir : gostring)
      (p : Pkg World) :
  all_set (vars (SetRootDir env rootdir p)) = true.
Proof.
  unfold SetRootDir, SetRootDir_writable. cbn [vars].
  unfold SetRootDir_paths. cbv zeta. fold (root_of rootdir).
  pose proof (root_of_not_nil rootdir) as Hroot.
  set (root := root_of rootdir) in *. clearbody root.
  destruct (isInsideBaseSnap env) as [b e].
  assert (exists m err, (if b
            then (Join [root; DefaultSnapMountDir],
                  snapMountDirDetectionError (vars p))
            else match snapMountDirProbe env root with
                 | Ok dir => (dir, None)
                 | Err err =>
                     (snapMountDirUnresolvedPlaceholder,
                      Some (Errorf_w (str "cannot resolve snap mount directory")
                              err))
                 end) = (m, err) /\ m <> []) as (m & err & -> & Hm).
  { destruct b.
    - eexists _, _. split; [reflexivity|]. apply Join_second. discriminate.
    - destruct (snapMountDirProbe env root) as [dir|err] eqn:E.
      + eexists _, _. split; [reflexivity|]. eapply probe_ok_not_nil; eauto.
      + eexists _, _. split; [reflexivity|]. discriminate. }
  rewrite SetSnapHomeDirs_shape. cbn [snd GlobalRootDir].
  pose proof (@homes_not_nil (user_homes root (str "/home"))
                (Join [root; str "/home"])) as Hh.
  set (hs := if ListContains _ _ then _ else _) in *. clearbody hs.
  unfold all_set, path_entries. cbn_vars.
  unfold SnapBlobDirUnder, SnapSeedDirUnder, SnapDeviceDirUnder,
    SnapStateFileUnder, SnapStateLockFileUnder, SnapRepairConfigFileUnder,
    SnapServicesDirUnder, SnapRuntimeServicesDirUnder, SnapSystemdConfDirUnder,
    SnapModeenvFileUnder, SnapBootAssetsDirUnder, SnapFDEDirUnder,
    SnapSaveDirUnder, FeaturesDirUnder.
  assert (forall x y : gostring, x <> [] -> y <> [] ->
            (if OnClassic env then x else y) <> []) as Hif
      by (intros; destruct (OnClassic env); assumption).
  apply andb_true_intro; split;
    [apply andb_true_intro; split;
     [apply andb_true_intro; split; [apply andb_true_intro; split|]|]|].
  - apply forallb_not_nil.
    repeat (apply Forall_cons; [try entry_not_nil|]); try apply Forall_nil.
    + destruct (Stat env (Join [root; DefaultDistroLibexecDir])) as [fi|serr].
      * entry_not_nil.
      * destruct (errors_Is_ErrNotExist serr); [|entry_not_nil].
        destruct (Stat env (Join [root; AltDistroLibexecDir])); entry_not_nil.
    + apply Hif; entry_not_nil.
  - destruct (DistroLike env [str "fedora"] && negb (DistroLike env [str "amzn"]));
      reflexivity.
  - destruct hs; [congruence|reflexivity].
  - destruct hs; [congruence|reflexivity].
  - destruct hs; [congruence|reflexivity].
Qed.

(** The detection outcome after one call. *)
Lemma SetRootDir_outcome (World : Type) (env : Env) (rootdir : gostring)
      (p : Pkg World) :
  is_set (SnapMountDirDetectionOutcome (vars (SetRootDir env rootdir p)))
  = if fst (isInsideBaseSnap env)
    then is_set (SnapMountDirDetectionOutcome (vars p))
    else probe_failed env rootdir.
Proof.
  pose proof (SetRootDir_mount env rootdir p) as H. cbv zeta in H.
  destruct H as [H _]. apply (f_equal snd) in H. cbn [snd] in H.
  unfold SnapMountDirDetectionOutcome, probe_failed. rewrite H.
  destruct (fst (isInsideBaseSnap env)); [reflexivity|].
  destruct (snapMountDirProbe env (root_of rootdir)); reflexivity.
Qed.

(** Over any sequence of calls the detection outcome is an error exactly
    when the last probe run failed. *)
Lemma outcome_tracks_last_probe (World : Type) (calls : list (Env * gostring))
      (p : Pkg World) :
  is_set (SnapMountDirDetectionOutcome (vars (SetRootDirs calls p)))
  = last_probe_failed calls
      (is_set (SnapMountDirDetectionOutcome (vars p))).
Proof.
  revert p. induction calls as [|[env rootdir] calls IH]; intros p.
  - reflexivity.
  - cbn [SetRootDirs last_probe_failed]. rewrite IH.
    now rewrite SetRootDir_outcome.
Qed.

(** What the probe finds changes the mount directory, the entry derived from
    it and the detection outcome, and nothing else. *)
Lemma SetRootDir_outside_mount (World : Type) (env1 env2 : Env)
      (rootdir : gostring) (p : Pkg World) :
  same_but_probe env1 env2 ->
  forget_mount (vars (SetRootDir env1 rootdir p))
  = forget_mount (vars (SetRootDir env2 rootdir p)).
Proof.
  intros (Hclassic & Hdistro & Hstat).
  unfold SetRootDir, SetRootDir_writable. cbn [vars].
  unfold SetRootDir_paths. cbv zeta. fold (root_of rootdir).
  assert (isInsideBaseSnap env1 = isInsideBaseSnap env2) as ->
      by (unfold isInsideBaseSnap; now rewrite Hstat).
  destruct (isInsideBaseSnap env2) as [b e].
  destruct (if b then _ else _) as [m1 err1].
  destruct (if b then _ else _) as [m2 err2].
  rewrite !SetSnapHomeDirs_shape. cbn [snd GlobalRootDir].
  unfold forget_mount. cbn_vars.
  rewrite Hclassic, !Hdistro, !Hstat. reflexivity.
Qed.

End RootChangeFacts.
Import RootChangeFacts.

(** ** [Rel] on a path under its base *)

Module RelFacts.

Lemma span_elem_app (a tail : gostring) :
  no_sep a = true -> at_end_or_sep tail = true ->
  span_elem (a ++ tail) = (a, tail).
Proof.
  intros Ha Ht. induction a as [|c a IH].
  - simpl. destruct tail as [|t tail]; [reflexivity|].
    simpl in Ht. simpl. now rewrite Ht.
  - simpl in Ha. apply andb_true_iff in Ha as [Hc Ha].
    apply negb_true_iff in Hc. simpl. rewrite Hc, (IH Ha). reflexivity.
Qed.

Lemma unsplit_app (A P : list gostring) :
  A <> [] -> P <> [] -> unsplit (A ++ P) = unsplit A ++ Separator :: unsplit P.
Proof.
  intros HA HP. induction A as [|a A IH]; [congruence|].
  destruct A as [|a2 A].
  - simpl app. now rewrite unsplit_cons.
  - change ((a :: a2 :: A) ++ P) with (a :: ((a2 :: A) ++ P)).
    rewrite unsplit_cons by (simpl; discriminate).
    rewrite IH by discriminate.
    rewrite (@unsplit_cons a (a2 :: A)) by discriminate.
    now rewrite <- app_assoc.
Qed.

Lemma unsplit_length (A : list gostring) :
  Forall (fun e => e <> []) A -> length A <= length (unsplit A).
Proof.
  induction A as [|a A IH]; intros H; [simpl; lia|].
  inversion H as [|? ? Ha HA]; subst.
  destruct A as [|a2 A].
  - simpl. destruct a; [congruence|simpl; lia].
  - rewrite unsplit_cons by discriminate. rewrite length_app.
    cbn [length] in *. specialize (IH HA). lia.
Qed.

Lemma unsplit_not_nil (a : gostring) (A : list gostring) :
  a <> [] -> unsplit (a :: A) <> [].
Proof.
  intros Ha. destruct A.
  - exact Ha.
  - rewrite unsplit_cons by discriminate. destruct a; [congruence|discriminate].
Qed.

(** The loop of [Rel] walks through the elements of the base when the target
    starts with them, and stops with the rest of the target. *)
Lemma rel_loop_common (A P : list gostring) (fuel : nat) :
  Forall (fun e => is_real e = true) A -> P <> [] ->
  length A <= fuel ->
  rel_loop fuel (unsplit A) (unsplit (A ++ P)) = ([], [], unsplit P).
Proof.
  intros HA HP. revert fuel. induction A as [|a A IH]; intros fuel Hf.
  - simpl. destruct fuel; reflexivity.
  - inversion HA as [|? ? Ha HA']; subst.
    pose proof (@is_real_no_sep a Ha) as Hns.
    pose proof (@is_real_not_nil a Ha) as Hne.
    destruct fuel as [|fuel]; [simpl in Hf; lia|].
    change ((a :: A) ++ P) with (a :: (A ++ P)).
    assert (A ++ P <> []) as HAP
        by (intros E; apply app_eq_nil in E as [_ E]; congruence).
    rewrite (@unsplit_cons a (A ++ P)) by assumption.
    cbn [rel_loop].
    replace (is_empty (unsplit (a :: A))) with false.
    2:{ symmetry. pose proof (@unsplit_not_nil a A Hne).
        destruct (unsplit (a :: A)); [congruence|reflexivity]. }
    replace (is_empty (a ++ Separator :: unsplit (A ++ P))) with false
      by (destruct a; [congruence|reflexivity]).
    cbn [orb].
    rewrite (@span_elem_app a (Separator :: unsplit (A ++ P)))
      by (assumption || reflexivity).
    assert (exists tail, unsplit (a :: A) = a ++ tail
                         /\ at_end_or_sep tail = true
                         /\ skip_one tail = unsplit A) as (tail & -> & Ht & Hs).
    { destruct A as [|a2 A].
      - exists []. simpl. now rewrite app_nil_r.
      - exists (Separator :: unsplit (a2 :: A)).
        rewrite unsplit_cons by discriminate. auto. }
    rewrite (@span_elem_app a tail) by assumption.
    rewrite streq_refl. cbn [negb skip_one]. rewrite Hs.
    apply IH; [assumption|]. simpl in Hf. lia.
Qed.

Lemma span_elem_length (s : gostring) :
  length (fst (span_elem s)) + length (snd (span_elem s)) = length s.
Proof.
  induction s as [|c s IH]; [reflexivity|].
  simpl. destruct (IsPathSeparator c); [reflexivity|].
  destruct (span_elem s) as [e r]. simpl in *. lia.
Qed.

Lemma skip_span_shorter (s : gostring) :
  s <> [] -> length (skip_one (snd (span_elem s))) < length s.
Proof.
  destruct s as [|c s]; [congruence|]. intros _.
  simpl. destruct (IsPathSeparator c).
  - simpl. lia.
  - pose proof (span_elem_length s) as H.
    destruct (span_elem s) as [e r]. simpl in *.
    destruct r; simpl in *; lia.
Qed.

(** The loop of [Rel] is over before its fuel, the length of the base plus
    one, is used up: more fuel gives the same result. *)
Lemma rel_loop_fuel (n : nat) (base targ : gostring) :
  length base < n -> rel_loop (S n) base targ = rel_loop n base targ.
Proof.
  revert base targ. induction n as [|n IH]; intros base targ Hn; [lia|].
  cbn [rel_loop].
  destruct base as [|c base]; [reflexivity|].
  destruct (is_empty (c :: base) || is_empty targ); [reflexivity|].
  pose proof (@skip_span_shorter (c :: base) ltac:(discriminate)) as Hs.
  destruct (span_elem (c :: base)) as [be br].
  destruct (span_elem targ) as [te tr].
  destruct (negb (streq te be)); [reflexivity|].
  apply IH. simpl in Hs, Hn. simpl. lia.
Qed.

Lemma rel_loop_enough (k : nat) (base targ : gostring) :
  rel_loop (S (length base) + k) base targ
  = rel_loop (S (length base)) base targ.
Proof.
  induction k as [|k IH].
  - now rewrite Nat.add_0_r.
  - rewrite Nat.add_succ_r, rel_loop_fuel by lia. exact IH.
Qed.

Lemma rel_loop_sep (fuel : nat) (b t : gostring) :
  rel_loop (S fuel) (Separator :: b) (Separator :: t) = rel_loop fuel b t.
Proof. reflexivity. Qed.

(** [Rel] of a rooted base and a target that continues it. *)
Lemma Rel_under (base targ : gostring) (A P : list gostring) :
  Clean base = Separator :: unsplit A ->
  Clean targ = Separator :: unsplit (A ++ P) ->
  Forall (fun e => is_real e = true) A ->
  P <> [] -> Forall (fun e => is_real e = true) P ->
  Rel base targ = Some (unsplit P).
Proof.
  intros Hb Ht HA HP Hreal. unfold Rel. rewrite Hb, Ht.
  assert (unsplit P <> []) as HuP.
  { destruct P as [|x P]; [congruence|]. apply unsplit_not_nil.
    inversion Hreal; subst. now apply is_real_not_nil. }
  replace (streq (Separator :: unsplit (A ++ P)) (Separator :: unsplit A))
    with false.
  2:{ symmetry. apply streq_neq. intros E. injection E as E.
      destruct A as [|a A].
      - change (unsplit P = []) in E. congruence.
      - rewrite unsplit_app in E by (assumption || discriminate).
        apply (f_equal (@length ascii)) in E. rewrite length_app in E.
        simpl in E. lia. }
  replace (streq (Separator :: unsplit A) (str ".")) with false by reflexivity.
  cbv beta iota zeta.
  replace (Ascii.eqb Separator Separator) with true by reflexivity.
  cbn [Bool.eqb negb].
  change (length (Separator :: unsplit A)) with (S (length (unsplit A))).
  rewrite rel_loop_sep, rel_loop_common; [reflexivity|assumption|assumption|].
  pose proof (@unsplit_length A (real_not_nil_all HA)). lia.
Qed.

End RelFacts.
Import RelFacts.

(** ** Joining under the root *)

Module StripFacts.

Lemma IsAbs_rooted (p : gostring) : IsAbs p = rooted p.
Proof.
  unfold IsAbs, HasPrefix, rooted, IsPathSeparator.
  destruct p as [|c p]; [reflexivity|].
  simpl. now rewrite andb_true_r.
Qed.

(** A cleaned relative path that does not start with [..] is [.] or a
    sequence of real elements. *)
Lemma clean_relative_shape (p : gostring) :
  p <> [] -> IsAbs p = false -> Clean p = p -> escapes p = false ->
  p = str "."
  \/ exists P, P <> [] /\ Forall (fun e => is_real e = true) P /\ p = unsplit P.
Proof.
  intros Hne Habs Hclean Hesc.
  rewrite IsAbs_rooted in Habs.
  rewrite Clean_elems in Hclean by assumption. rewrite Habs in Hclean.
  pose proof (cstate_wf p) as [Hst _].
  destruct (cstate p) as [k st]. simpl in Hst. cbn [finish] in Hclean.
  destruct k as [|k].
  - cbn [repeat app] in Hclean.
    destruct (rev st) as [|x xs] eqn:E.
    + left. now symmetry.
    + right. exists (x :: xs). split; [discriminate|]. split.
      * rewrite <- E. now apply Forall_rev.
      * now symmetry.
  - exfalso. cbn [repeat app] in Hclean.
    unfold escapes in Hesc. apply orb_false_iff in Hesc as [H1 H2].
    rewrite <- Hclean in H1, H2.
    destruct (repeat dotdot_s k ++ rev st) as [|y ys].
    + discriminate.
    + rewrite unsplit_cons in H2 by discriminate. discriminate.
Qed.

Lemma Join_root_dot (r : gostring) :
  r <> [] -> Join [r; str "."] = Clean r.
Proof.
  intros Hr. rewrite Join_cons by assumption.
  rewrite unsplit_cons by discriminate. change (unsplit [str "."]) with (str ".").
  assert (forall a b : gostring, a ++ Separator :: b <> []) as Hne
      by (intros a b H; symmetry in H; revert H; apply app_cons_not_nil).
  rewrite Clean_elems by apply Hne. rewrite Clean_elems by assumption.
  rewrite cstate_app_sep, rooted_app by assumption.
  destruct (cstate r) as [k st]. reflexivity.
Qed.

Lemma Join_root_reals (r : gostring) (P : list gostring) :
  r <> [] -> rooted r = true -> P <> [] ->
  Forall (fun e => is_real e = true) P ->
  Clean r = Separator :: unsplit (path_elems r)
  /\ Join [r; unsplit P] = Separator :: unsplit (path_elems r ++ P).
Proof.
  intros Hr Hroot HP Hreal.
  assert (forall a b : gostring, a ++ Separator :: b <> []) as Hne
      by (intros a b H; symmetry in H; revert H; apply app_cons_not_nil).
  assert (Forall (fun e => no_sep e = true) P) as Hns.
  { eapply Forall_impl; [|exact Hreal]. intros e. apply is_real_no_sep. }
  unfold path_elems. split.
  - rewrite Clean_elems by assumption. rewrite Hroot.
    destruct (cstate r) as [k st]. reflexivity.
  - assert (unsplit P <> []) as HuP.
    { destruct P as [|x P]; [congruence|]. apply unsplit_not_nil.
      inversion Hreal; subst. now apply is_real_not_nil. }
    rewrite Join_cons by assumption.
    rewrite unsplit_cons by discriminate.
    change (unsplit [unsplit P]) with (unsplit P).
    rewrite Clean_elems by apply Hne.
    rewrite cstate_app_sep, rooted_app by assumption. rewrite Hroot.
    rewrite elems_unsplit by assumption.
    destruct (cstate r) as [k st]. rewrite norm_reals by assumption.
    cbn [finish snd]. now rewrite rev_app_distr, rev_involutive.
Qed.

(** Under a root that is itself cleaned the join is absolute and starts with
    the root. *)
Lemma Join_under_clean_root (r p' : gostring) :
  Clean r = r -> IsAbs r = true ->
  p' <> [] -> IsAbs p' = false -> Clean p' = p' -> escapes p' = false ->
  IsAbs (Join [r; p']) = true /\ HasPrefix (Join [r; p']) r = true.
Proof.
  intros Hcr Har Hne Hrel Hclean Hesc.
  assert (r <> []) as Hr by (destruct r; [discriminate|discriminate]).
  pose proof Har as Hroot. rewrite IsAbs_rooted in Hroot.
  destruct (clean_relative_shape Hne Hrel Hclean Hesc)
    as [-> | (P & HP & Hreal & ->)].
  - rewrite Join_root_dot, Hcr by assumption. split; [assumption|].
    rewrite <- (app_nil_r r) at 1. apply HasPrefix_app.
  - destruct (Join_root_reals Hr Hroot HP Hreal) as [Hb ->].
    rewrite Hcr in Hb. split; [reflexivity|].
    destruct (path_elems r) as [|a A].
    + rewrite Hb. apply (HasPrefix_app [Separator]).
    + rewrite unsplit_app by (assumption || discriminate).
      rewrite Hb.
      apply (HasPrefix_app (Separator :: unsplit (a :: A))).
Qed.

(** What does hold: [StripRootDir] panics on a path that is not absolute and
    on a path of which the root is not a prefix, as strings. *)
Lemma StripRootDir_returns (d : Dirs) (dir res : gostring) :
  StripRootDir d dir = Returns res ->
  IsAbs dir = true /\ HasPrefix dir (GlobalRootDir d) = true.
Proof.
  unfold StripRootDir.
  destruct (IsAbs dir); [|discriminate].
  destruct (HasPrefix dir (GlobalRootDir d)); [|discriminate].
  auto.
Qed.

End StripFacts.
Import StripFacts.

(** ** File modes and callbacks *)

Module ProbeFacts.

Lemma Type_symlink (m : FileMode) :
  Z.land (FileMode_Type m) ModeSymlink = Z.land m ModeSymlink.
Proof.
  unfold FileMode_Type. rewrite <- Z.land_assoc. reflexivity.
Qed.

Lemma Type_IsDir (m : FileMode) :
  FileMode_IsDir (FileMode_Type m) = FileMode_IsDir m.
Proof.
  unfold FileMode_IsDir, FileMode_Type. rewrite <- Z.land_assoc. reflexivity.
Qed.

Lemma run_callbacks_app (World : Type) (cs1 cs2 : list (Callback World))
      (r : gostring) (d : Dirs) (w : World) :
  run_callbacks (cs1 ++ cs2) r d w
  = run_callbacks cs2 r d (run_callbacks cs1 r d w).
Proof.
  revert w. induction cs1 as [|c cs1 IH]; intros w; [reflexivity|].
  simpl. apply IH.
Qed.

(** The callbacks run in registration order, each with the new root and
    with the variables as [SetRootDir_paths] leaves them. *)
Lemma SetRootDir_callbacks (World : Type) (env : Env) (r : gostring)
      (p : Pkg World) (c1 c2 : Callback World) :
  let d := SetRootDir_paths env r (vars p) in
  world (SetRootDir env r (AddRootDirCallback c2 (AddRootDirCallback c1 p)))
  = c2 (root_of r) d
       (c1 (root_of r) d (run_callbacks (callbacks p) (root_of r) d (world p))).
Proof.
  unfold SetRootDir, AddRootDirCallback. cbn [vars world callbacks].
  fold (root_of r). now rewrite !run_callbacks_app.
Qed.

(** [SetRootDir_paths] assigns neither of the two writable-mount variables:
    whatever the state and the new root, the callbacks read the values the
    previous root change left. *)
Lemma callbacks_read_old_writable (env : Env) (rootdir : gostring) (old : Dirs) :
  WritableMountPath (SetRootDir_paths env rootdir old) = WritableMountPath old
  /\ WritableUbuntuCoreSystemDataDir (SetRootDir_paths env rootdir old)
     = WritableUbuntuCoreSystemDataDir old.
Proof. open_paths. split; reflexivity. Qed.

End ProbeFacts.
Import ProbeFacts.

(** * The specification, claim by claim *)

(** C1, on the code: a callback registered before [SetRootDir("/x")] is given
    the new root ["/x"], but reads the previous [WritableMountPath] and
    [WritableUbuntuCoreSystemDataDir] (those of the root ["/"] set by
    [init]); both are assigned only after the callbacks have run. *)
Theorem callback_sees_stale_writable :
  let p0 := AddRootDirCallback observe_writable (init env_bare [] []) in
  let p1 := SetRootDir env_bare (str "/x") p0 in
  world p1 = [(str "/x", str "/", str "/system-data")]
  /\ WritableMountPath (vars p1) = str "/x"
  /\ WritableUbuntuCoreSystemDataDir (vars p1) = str "/x/system-data".
Proof. vm_compute. repeat split. Qed.

(** C2, on the code: with the root ["/x"], the absolute path ["/xy"] does not
    lie under the root, yet [StripRootDir] returns for it. *)
Theorem StripRootDir_sibling_returns :
  let d := vars (SetRootDir env_bare (str "/x") (zero_pkg tt)) in
  GlobalRootDir d = str "/x"
  /\ IsAbs (str "/xy") = true
  /\ under_root (str "/x") (str "/xy") = false
  /\ StripRootDir d (str "/xy") = Returns (str "/../xy").
Proof. vm_compute. repeat split. Qed.

(** C3: without a special distribution, the probe of [join(r, "/snap")]
    gives the default for a plain directory, the alternate when the default
    does not exist, the alternate for a symbolic link whose target is one of
    the three accepted spellings of the alternate, and an error for a link
    to anything else and for any other failure of [lstat]. *)
Theorem snapMountDirProbe_cases (env : Env) (r : gostring) :
  DistroLike env specialDefaultDirDistros = false ->
  let defaultDir := Join [r; str "/snap"] in
  let altDir := Join [r; str "/var/lib/snapd/snap"] in
  (forall fi, Lstat env defaultDir = Ok fi ->
              is_symlink fi = false -> is_dir fi = true ->
              snapMountDirProbe env r = Ok defaultDir)
  /\ (forall err, Lstat env defaultDir = Err err ->
                  errors_Is_ErrNotExist err = true ->
                  snapMountDirProbe env r = Ok altDir)
  /\ (forall fi p, Lstat env defaultDir = Ok fi -> is_symlink fi = true ->
                   Readlink env defaultDir = Ok p ->
                   p = str "/var/lib/snapd/snap"
                   \/ p = str "var/lib/snapd/snap" \/ p = altDir ->
                   snapMountDirProbe env r = Ok altDir)
  /\ (forall fi p, Lstat env defaultDir = Ok fi -> is_symlink fi = true ->
                   Readlink env defaultDir = Ok p ->
                   p <> str "/var/lib/snapd/snap" ->
                   p <> str "var/lib/snapd/snap" -> p <> altDir ->
                   exists err, snapMountDirProbe env r = Err err)
  /\ (forall err, Lstat env defaultDir = Err err ->
                  errors_Is_ErrNotExist err = false ->
                  exists err', snapMountDirProbe env r = Err err').
Proof.
  intros Hspecial defaultDir altDir.
  unfold snapMountDirProbe. rewrite Hspecial.
  change (Join [r; DefaultSnapMountDir]) with defaultDir.
  change (Join [r; AltSnapMountDir]) with altDir.
  repeat split.
  - intros fi Hl Hs Hd. rewrite Hl, Type_symlink, Type_IsDir.
    unfold is_symlink in Hs. unfold is_dir in Hd. now rewrite Hs, Hd.
  - intros err Hl He. now rewrite Hl, He.
  - intros fi p Hl Hs Hr Hp. rewrite Hl, Type_symlink, Hr.
    unfold is_symlink in Hs. rewrite Hs.
    destruct Hp as [-> | [-> | ->]].
    + reflexivity.
    + reflexivity.
    + rewrite streq_refl. cbn [negb]. now rewrite !andb_false_r.
  - intros fi p Hl Hs Hr H1 H2 H3. rewrite Hl, Type_symlink, Hr.
    unfold is_symlink in Hs. rewrite Hs.
    apply streq_neq in H1, H2, H3.
    change AltSnapMountDir with (str "/var/lib/snapd/snap").
    change (skipn 1 (str "/var/lib/snapd/snap")) with (str "var/lib/snapd/snap").
    rewrite H1, H2, H3. eexists. reflexivity.
  - intros err Hl He. rewrite Hl, He. eexists. reflexivity.
Qed.

(** The five cases on the root ["/"]: a directory, nothing, a link to the
    relative spelling of the alternate, a link elsewhere, [lstat] denied. *)
Lemma snapMountDirProbe_cases_witness :
  snapMountDirProbe (env_with (str "/snap") ModeDir []) (str "/")
  = Ok (str "/snap")
  /\ snapMountDirProbe env_bare (str "/") = Ok (str "/var/lib/snapd/snap")
  /\ snapMountDirProbe
       (env_with (str "/snap") ModeSymlink (str "var/lib/snapd/snap")) (str "/")
     = Ok (str "/var/lib/snapd/snap")
  /\ (exists err,
        snapMountDirProbe
          (env_with (str "/snap") ModeSymlink (str "/opt/snap")) (str "/")
        = Err err)
  /\ (exists err, snapMountDirProbe env_denied (str "/") = Err err).
Proof.
  split; [|split; [|split; [|split]]].
  - eapply (proj1 (snapMountDirProbe_cases
                     (env_with (str "/snap") ModeDir []) (str "/") eq_refl));
      reflexivity.
  - eapply (proj1 (proj2 (snapMountDirProbe_cases env_bare (str "/") eq_refl)));
      reflexivity.
  - eapply (proj1 (proj2 (proj2 (snapMountDirProbe_cases
       (env_with (str "/snap") ModeSymlink (str "var/lib/snapd/snap"))
       (str "/") eq_refl)))); try reflexivity. right; left; reflexivity.
  - eapply (proj1 (proj2 (proj2 (proj2 (snapMountDirProbe_cases
       (env_with (str "/snap") ModeSymlink (str "/opt/snap"))
       (str "/") eq_refl))))); try reflexivity; discriminate.
  - eapply (proj2 (proj2 (proj2 (proj2 (snapMountDirProbe_cases
       env_denied (str "/") eq_refl))))); reflexivity.
Defined.

(** C4: when the probe fails in [SetRootDir(r)], the mount directory is the
    placeholder and the error is kept, to be read with
    [SnapMountDirDetectionOutcome]; over the calls that follow, the outcome is
    an error exactly when the last probe failed; the root is changed all the
    same, no variable that [SetRootDir] assigns is left empty, and every
    variable but the mount directory, the entry derived from it and the
    outcome has the value it has when the probe finds something else. *)
Theorem probe_failure_is_recorded (World : Type) (env : Env) (r : gostring)
        (p : Pkg World) (err : error) :
  fst (isInsideBaseSnap env) = false ->
  snapMountDirProbe env (root_of r) = Err err ->
  let p' := SetRootDir env r p in
  let d := vars p' in
  SnapMountDir d = snapMountDirUnresolvedPlaceholder
  /\ SnapMountDirDetectionOutcome d
     = Some (Errorf_w (str "cannot resolve snap mount directory") err)
  /\ (forall calls,
        is_set (SnapMountDirDetectionOutcome (vars (SetRootDirs calls p')))
        = last_probe_failed calls true)
  /\ GlobalRootDir d = root_of r
  /\ all_set d = true
  /\ (forall env2, same_but_probe env env2 ->
                   forget_mount (vars (SetRootDir env2 r p)) = forget_mount d).
Proof.
  intros Hbase Hprobe p' d. subst d p'.
  pose proof (SetRootDir_mount env r p) as H. cbv zeta in H.
  destruct H as [Hm _]. rewrite Hbase, Hprobe in Hm.
  pose proof (f_equal fst Hm) as Hm1. pose proof (f_equal snd Hm) as Hm2.
  cbn [fst snd] in Hm1, Hm2.
  repeat apply conj.
  - exact Hm1.
  - exact Hm2.
  - intros calls. rewrite outcome_tracks_last_probe.
    unfold SnapMountDirDetectionOutcome. now rewrite Hm2.
  - apply SetRootDir_root.
  - apply SetRootDir_all_set.
  - intros env2 H2. symmetry. now apply SetRootDir_outside_mount.
Qed.

(** A failing probe: [lstat] is denied under the root ["/x"]. *)
Lemma probe_failure_is_recorded_witness :
  let d := vars (SetRootDir env_denied (str "/x") (zero_pkg tt)) in
  SnapMountDir d = str "mount-dir-is-unset"
  /\ SnapMountDirDetectionOutcome d
     = Some (Errorf_w (str "cannot resolve snap mount directory")
               (Errorf_w (str "cannot stat /x/snap")
                  (PathError "lstat" (str "/x/snap") EACCES)))
  /\ GlobalRootDir d = str "/x"
  /\ all_set d = true.
Proof.
  pose proof (@probe_failure_is_recorded unit env_denied (str "/x")
                (zero_pkg tt)
                (Errorf_w (str "cannot stat /x/snap")
                   (PathError "lstat" (str "/x/snap") EACCES))
                eq_refl eq_refl) as H.
  cbv zeta in H. destruct H as (H1 & H2 & _ & H4 & H5 & _).
  cbv zeta. repeat apply conj; assumption.
Defined.

(** C5: with the root ["/x"], [SetSnapHomeDirs("/a,/b")] returns
    ["/x/a"], ["/x/b"], ["/x/home"] in this order and the standard globs are
    ["/x/a/*/snap"], ["/x/b/*/snap"], ["/x/home/*/snap"]. *)
Theorem SetSnapHomeDirs_two_entries (d : Dirs) :
  GlobalRootDir d = str "/x" ->
  let '(homes, d') := SetSnapHomeDirs (str "/a,/b") d in
  homes = [str "/x/a"; str "/x/b"; str "/x/home"]
  /\ SnapHomeDirs d' = [str "/x/a"; str "/x/b"; str "/x/home"]
  /\ DataHomeGlobs None d'
     = [str "/x/a/*/snap"; str "/x/b/*/snap"; str "/x/home/*/snap"]
  /\ DataHomeGlobs (Some {| HiddenSnapDataDir := false;
                            MigratedToExposedHome := false |}) d'
     = [str "/x/a/*/snap"; str "/x/b/*/snap"; str "/x/home/*/snap"].
Proof.
  intros Hroot. unfold SetSnapHomeDirs. rewrite Hroot.
  vm_compute. repeat split.
Qed.

(** The state left by [SetRootDir("/x")] has the root ["/x"]. *)
Lemma SetSnapHomeDirs_two_entries_witness :
  let '(homes, d') :=
    SetSnapHomeDirs (str "/a,/b")
      (vars (SetRootDir env_bare (str "/x") (zero_pkg tt))) in
  homes = [str "/x/a"; str "/x/b"; str "/x/home"]
  /\ SnapHomeDirs d' = [str "/x/a"; str "/x/b"; str "/x/home"]
  /\ DataHomeGlobs None d'
     = [str "/x/a/*/snap"; str "/x/b/*/snap"; str "/x/home/*/snap"]
  /\ DataHomeGlobs (Some {| HiddenSnapDataDir := false;
                            MigratedToExposedHome := false |}) d'
     = [str "/x/a/*/snap"; str "/x/b/*/snap"; str "/x/home/*/snap"].
Proof.
  apply (@SetSnapHomeDirs_two_entries
           (vars (SetRootDir env_bare (str "/x") (zero_pkg tt)))).
  reflexivity.
Defined.

(** C6, as the code has it: for the root [r] and a non-empty relative path
    [p'] that is itself cleaned and does not start with a [..] element, if
    [join(r, p')] is absolute and has [r] as a prefix, [StripRootDir] of it
    returns ["/"] followed by [p']. *)
Theorem StripRootDir_Join (d : Dirs) (p' : gostring) :
  let r := GlobalRootDir d in
  p' <> [] -> IsAbs p' = false -> Clean p' = p' -> escapes p' = false ->
  IsAbs (Join [r; p']) = true -> HasPrefix (Join [r; p']) r = true ->
  StripRootDir d (Join [r; p']) = Returns (str "/" ++ p').
Proof.
  intros r Hne Hrel Hclean Hesc Habs Hpre.
  assert (r <> [] /\ rooted r = true) as [Hr Hroot].
  { destruct r as [|c r'] eqn:Er.
    - exfalso. rewrite Join_nil_cons in Habs.
      rewrite Join_cons in Habs by assumption.
      change (unsplit [p']) with p' in Habs. congruence.
    - split; [discriminate|]. rewrite Join_cons in Habs by discriminate.
      rewrite IsAbs_rooted, rooted_Clean in Habs.
      rewrite unsplit_cons in Habs by discriminate. exact Habs. }
  unfold StripRootDir. fold r. rewrite Habs, Hpre. cbn [negb].
  destruct (clean_relative_shape Hne Hrel Hclean Hesc)
    as [-> | (P & HP & Hreal & ->)].
  - rewrite Join_root_dot by assumption. unfold Rel.
    now rewrite Clean_idempotent, streq_refl.
  - destruct (Join_root_reals Hr Hroot HP Hreal) as [Hb Ht].
    assert (Forall (fun e => is_real e = true) (path_elems r)) as HA.
    { unfold path_elems. apply Forall_rev. apply (cstate_wf r). }
    rewrite (@Rel_under r (Join [r; unsplit P]) (path_elems r) P);
      try assumption; [reflexivity|].
    rewrite <- Ht. rewrite Join_cons by assumption. apply Clean_idempotent.
Qed.

(** The root ["/x"] and the path ["a/b"]. *)
Lemma StripRootDir_Join_witness :
  let d := vars (SetRootDir env_bare (str "/x") (zero_pkg tt)) in
  StripRootDir d (Join [GlobalRootDir d; str "a/b"]) = Returns (str "/a/b").
Proof.
  apply (@StripRootDir_Join
           (vars (SetRootDir env_bare (str "/x") (zero_pkg tt))) (str "a/b"));
    try reflexivity. discriminate.
Defined.

(** C6 as stated fails: ["a/../b"] is a non-empty relative path, its join
    with the root ["/x"] is the cleaned absolute path ["/x/b"] under the
    root, and [StripRootDir] returns ["/b"], not ["/a/../b"]. *)
Lemma StripRootDir_Join_unclean :
  let d := vars (SetRootDir env_bare (str "/x") (zero_pkg tt)) in
  let r := GlobalRootDir d in
  let p' := str "a/../b" in
  r = str "/x"
  /\ p' <> [] /\ IsAbs p' = false
  /\ Join [r; p'] = str "/x/b"
  /\ Clean (Join [r; p']) = Join [r; p']
  /\ IsAbs (Join [r; p']) = true
  /\ under_root r (Join [r; p']) = true
  /\ HasPrefix (Join [r; p']) r = true
  /\ StripRootDir d (Join [r; p']) = Returns (str "/b")
  /\ StripRootDir d (Join [r; p']) <> Returns (str "/" ++ p').
Proof.
  vm_compute. repeat apply conj; try reflexivity; discriminate.
Qed.

(** C7: after [SetSnapHomeDirs], whatever the input, the home directories
    are the user's entries in input order, followed by [root/home] unless
    the entries hold it already; so the set is not empty and holds
    [root/home]; each of the two glob slices has one glob per home directory,
    made from that directory, in the same order; and [SnapHomeDirs] reports
    [root/home] alone rather than nothing. *)
Theorem home_dirs_invariant (csv : gostring) (d : Dirs) :
  let home := Join [GlobalRootDir d; str "/home"] in
  let user := user_homes (GlobalRootDir d) csv in
  let homes := fst (SetSnapHomeDirs csv d) in
  let d' := snd (SetSnapHomeDirs csv d) in
  snapHomeDirs d' = homes
  /\ homes = (if ListContains user home then user else user ++ [home])
  /\ homes <> []
  /\ In home homes
  /\ DataHomeGlobs None d' = map std_glob homes
  /\ DataHomeGlobs hidden_opts d' = map hidden_glob homes
  /\ length (DataHomeGlobs None d') = length homes
  /\ length (DataHomeGlobs hidden_opts d') = length homes
  /\ SnapHomeDirs d' = homes
  /\ (forall d0, snapHomeDirs d0 = [] ->
                 SnapHomeDirs d0 = [Join [GlobalRootDir d0; str "/home"]]).
Proof.
  intros home user homes d'. subst homes d'.
  pose proof (SetSnapHomeDirs_shape csv d) as E. cbv zeta in E.
  fold home user in E. rewrite E. cbn [fst snd].
  pose proof (homes_not_nil user home) as Hne.
  repeat apply conj.
  - reflexivity.
  - reflexivity.
  - assumption.
  - destruct (ListContains user home) eqn:Hc.
    + now apply ListContains_In.
    + apply in_or_app. right. now left.
  - reflexivity.
  - reflexivity.
  - cbn [DataHomeGlobs snapDataHomeGlob set_home]. now rewrite length_map.
  - cbn [DataHomeGlobs hidden_opts HiddenSnapDataDir hiddenSnapDataHomeGlob
         set_home].
    now rewrite length_map.
  - unfold SnapHomeDirs. cbn [snapHomeDirs set_home].
    destruct (if ListContains user home then user else user ++ [home]);
      [congruence|reflexivity].
  - intros d0 H0. unfold SnapHomeDirs. now rewrite H0.
Qed.

(** C8, as the code has it: [DistroLibExecDir] is the alternate
    [join(root, "/usr/libexec/snapd")] when the default
    [join(root, "/usr/lib/snapd")] does not exist and the alternate does;
    in every other case it is the default.  The value is stored by
    [SetRootDir] and read back without looking at the disk again. *)
Theorem DistroLibExecDir_fallback (World : Type) (env : Env) (r : gostring)
        (p : Pkg World) :
  let dflt := Join [root_of r; str "/usr/lib/snapd"] in
  let alt := Join [root_of r; str "/usr/libexec/snapd"] in
  DistroLibExecDir (vars (SetRootDir env r p))
  = if absent env dflt && present env alt then alt else dflt.
Proof.
  unfold SetRootDir, SetRootDir_writable, absent, present. cbn [vars].
  open_paths. cbn [DistroLibExecDir set_writable set_home].
  change DefaultDistroLibexecDir with (str "/usr/lib/snapd").
  change AltDistroLibexecDir with (str "/usr/libexec/snapd").
  destruct (Stat env (Join [_; str "/usr/lib/snapd"])) as [fi|serr].
  - reflexivity.
  - destruct (errors_Is_ErrNotExist serr); [|reflexivity].
    destruct (Stat env (Join [_; str "/usr/libexec/snapd"])); reflexivity.
Qed.

(** C8 as stated fails: with neither directory on disk the default is
    absent, yet [DistroLibExecDir] stays the default. *)
Lemma DistroLibExecDir_no_fallback :
  absent env_bare (Join [str "/"; str "/usr/lib/snapd"]) = true
  /\ DistroLibExecDir (vars (SetRootDir env_bare (str "/") (zero_pkg tt)))
     = str "/usr/lib/snapd"
  /\ DistroLibExecDir (vars (SetRootDir env_bare (str "/") (zero_pkg tt)))
     <> Join [str "/"; str "/usr/libexec/snapd"].
Proof.
  repeat split; try reflexivity. vm_compute. discriminate.
Qed.

(** C9: after [SetRootDir(r)] with [r] non-empty the root is [r]; after
    [SetRootDir("")] it is ["/"]; the root is never empty after a call. *)
Theorem root_after_SetRootDir (World : Type) (env : Env) (r : gostring)
        (p : Pkg World) :
  (r <> [] -> GlobalRootDir (vars (SetRootDir env r p)) = r)
  /\ GlobalRootDir (vars (SetRootDir env [] p)) = str "/"
  /\ GlobalRootDir (vars (SetRootDir env r p)) <> [].
Proof.
  rewrite !SetRootDir_root. repeat split.
  - intros Hr. unfold root_of. destruct r; [congruence|reflexivity].
  - apply root_of_not_nil.
Qed.

(** The non-empty root ["/x"]. *)
Lemma root_after_SetRootDir_witness :
  str "/x" <> []
  /\ GlobalRootDir (vars (SetRootDir env_bare (str "/x") (zero_pkg tt)))
     = str "/x".
Proof.
  split; [discriminate|].
  apply (proj1 (root_after_SetRootDir env_bare (str "/x") (zero_pkg tt))).
  discriminate.
Defined.

(** C10: when the probe fails (outside a base snap) the mount directory is
    the literal [mount-dir-is-unset], which is not absolute, and so is
    [SnapBinariesDir], the entry derived from it:
    [mount-dir-is-unset/bin]. *)
Theorem placeholder_is_relative (World : Type) (env : Env) (r : gostring)
        (p : Pkg World) (err : error) :
  fst (isInsideBaseSnap env) = false ->
  snapMountDirProbe env (root_of r) = Err err ->
  let d := vars (SetRootDir env r p) in
  SnapMountDir d = str "mount-dir-is-unset"
  /\ IsAbs (SnapMountDir d) = false
  /\ SnapBinariesDir d = str "mount-dir-is-unset/bin"
  /\ IsAbs (SnapBinariesDir d) = false.
Proof.
  intros Hbase Hprobe d. subst d.
  pose proof (SetRootDir_mount env r p) as H. cbv zeta in H.
  destruct H as [Hm Hb]. rewrite Hbase, Hprobe in Hm.
  apply (f_equal fst) in Hm. cbn [fst] in Hm.
  rewrite Hb, Hm. repeat split; reflexivity.
Qed.

(** A failing probe: [lstat] is denied under the root ["/"]. *)
Lemma placeholder_is_relative_witness :
  let d := vars (SetRootDir env_denied (str "/") (zero_pkg tt)) in
  SnapMountDir d = str "mount-dir-is-unset"
  /\ IsAbs (SnapMountDir d) = false
  /\ SnapBinariesDir d = str "mount-dir-is-unset/bin"
  /\ IsAbs (SnapBinariesDir d) = false.
Proof.
  apply (@placeholder_is_relative unit env_denied (str "/") (zero_pkg tt)
           (Errorf_w (str "cannot stat /snap")
              (PathError "lstat" (str "/snap") EACCES)));
    reflexivity.
Defined.

(** * Further properties of the package *)

(** * Further properties *)

(** ** More on [Join] *)

Module JoinMore.

Lemma IsAbs_Join (r : gostring) (rest : list gostring) :
  r <> [] -> IsAbs (Join (r :: rest)) = IsAbs r.
Proof.
  intros Hr. rewrite Join_cons by assumption.
  rewrite !IsAbs_rooted, rooted_Clean.
  destruct rest as [|b rest]; [reflexivity|].
  rewrite unsplit_cons by discriminate. now apply rooted_app.
Qed.

Lemma Clean_Join (r : gostring) (rest : list gostring) :
  r <> [] -> Clean (Join (r :: rest)) = Join (r :: rest).
Proof.
  intros Hr. rewrite Join_cons by assumption. apply Clean_idempotent.
Qed.

Lemma Join_Clean_head (r : gostring) (rest : list gostring) :
  r <> [] -> Join (Clean r :: rest) = Join (r :: rest).
Proof.
  intros Hr. rewrite Join_cons by apply Clean_not_nil.
  rewrite (@Join_cons r rest) by assumption.
  destruct rest as [|b rest].
  - apply Clean_idempotent.
  - rewrite !unsplit_cons by discriminate. now apply Clean_prefix.
Qed.

(** Two elements behind the first are as good as their join. *)
Lemma Join_merge (r a b : gostring) (rest : list gostring) :
  a <> [] ->
  Join (r :: a :: b :: rest) = Join (r :: (a ++ Separator :: b) :: rest).
Proof.
  intros Ha.
  assert (unsplit (a :: b :: rest) = unsplit ((a ++ Separator :: b) :: rest))
    as Hu.
  { rewrite (@unsplit_cons a (b :: rest)) by discriminate.
    destruct rest as [|c rest].
    - reflexivity.
    - rewrite (@unsplit_cons b (c :: rest)) by discriminate.
      change (unsplit ((a ++ Separator :: b) :: c :: rest))
        with ((a ++ Separator :: b) ++ Separator :: unsplit (c :: rest)).
      now rewrite <- app_assoc. }
  destruct r as [|c r].
  - rewrite !Join_nil_cons. rewrite Join_cons by assumption.
    rewrite Join_cons by (destruct a; [congruence|discriminate]).
    now rewrite Hu.
  - rewrite !Join_cons by discriminate.
    rewrite (@unsplit_cons (c :: r) (a :: b :: rest)) by discriminate.
    rewrite (@unsplit_cons (c :: r) ((a ++ Separator :: b) :: rest))
      by discriminate.
    now rewrite Hu.
Qed.

End JoinMore.
Import JoinMore.

(** ** The helpers that take a root directory *)

Ltac lit_not_nil :=
  let H := fresh in intro H; vm_compute in H; discriminate H.

(** Nested and long joins with fixed parts, brought to the form
    [Join [r; fixed]]. *)
Ltac join_flat :=
  repeat first [ rewrite Join_merge by lit_not_nil
               | rewrite Join_Join by lit_not_nil ].

Ltac unfold_helpers :=
  unfold SnapdStateDir, SnapBlobDirUnder, SnapSeedDirUnder, SnapStateFileUnder,
    SnapStateLockFileUnder, SnapModeenvFileUnder, FeaturesDirUnder,
    SnapSystemParamsUnder, SnapSystemdConfDirUnder, SnapServicesDirUnder,
    SnapRuntimeServicesDirUnder, SnapSystemdDirUnder, SnapBootAssetsDirUnder,
    SnapFDEDirUnder, SnapDeviceDirUnder, SnapSaveDirUnder, SnapFDEDirUnderSave,
    SnapRepairConfigFileUnder, SnapKernelDriversTreesDirUnder.

(** X1: each helper for a file or directory of snapd's state names a child
    of [SnapdStateDir(rootdir)], whatever the root directory. *)
Theorem state_helpers_under_state_dir (rootdir : gostring) :
  Forall (fun fn => fst fn rootdir = Join [SnapdStateDir rootdir; snd fn])
         state_helpers.
Proof.
  unfold state_helpers.
  repeat (apply Forall_cons; [|]); try apply Forall_nil;
    cbn [fst snd]; unfold_helpers; join_flat;
    apply (f_equal (fun x => Join [rootdir; x])); reflexivity.
Qed.

(** X2: for a non-empty root directory the helpers do not depend on how the
    root is spelled: the cleaned root gives the same paths. *)
Theorem helpers_clean_root (rootdir : gostring) :
  rootdir <> [] ->
  Forall (fun f => f (Clean rootdir) = f rootdir) under_helpers
  /\ SnapFDEDirUnderSave (Clean rootdir) = SnapFDEDirUnderSave rootdir.
Proof.
  intros Hr. split.
  - unfold under_helpers, state_helpers, systemd_helpers. cbn [map fst app].
    repeat (apply Forall_cons; [|]); try apply Forall_nil;
      unfold_helpers; now rewrite Join_Clean_head.
  - unfold_helpers. now rewrite Join_Clean_head.
Qed.

Lemma helpers_clean_root_witness :
  Forall (fun f => f (Clean (str "/x/")) = f (str "/x/")) under_helpers
  /\ SnapFDEDirUnderSave (Clean (str "/x/")) = SnapFDEDirUnderSave (str "/x/").
Proof.
  apply (@helpers_clean_root (str "/x/")). discriminate.
Defined.

(** X3: a state helper returns an absolute path exactly when it is given one;
    for the empty root directory it returns a relative path.  The systemd
    helpers, whose fixed part starts with a separator, return an absolute
    path for the empty root directory too. *)
Theorem helpers_absolute (rootdir : gostring) :
  Forall (fun f => IsAbs (f rootdir) = IsAbs rootdir)
         (SnapdStateDir :: map fst state_helpers)
  /\ Forall (fun f => IsAbs (f rootdir) = is_empty rootdir || IsAbs rootdir)
            systemd_helpers.
Proof.
  destruct rootdir as [|c r].
  - split; unfold state_helpers, systemd_helpers; cbn [map fst];
      repeat (apply Forall_cons; [reflexivity|]); apply Forall_nil.
  - split; unfold state_helpers, systemd_helpers; cbn [map fst is_empty orb];
      repeat (apply Forall_cons; [|]); try apply Forall_nil;
      unfold_helpers; join_flat; now apply IsAbs_Join.
Qed.

(** ** More on [StripRootDir] *)

Module StripMore.

Lemma Clean_rooted_elems (dir : gostring) :
  IsAbs dir = true -> Clean dir = Separator :: unsplit (path_elems dir).
Proof.
  intros Habs. rewrite IsAbs_rooted in Habs.
  assert (dir <> []) as Hne by (destruct dir; [discriminate|discriminate]).
  rewrite Clean_elems by assumption. rewrite Habs. unfold path_elems.
  destruct (cstate dir) as [k st]. reflexivity.
Qed.

Lemma path_elems_real (dir : gostring) :
  Forall (fun e => is_real e = true) (path_elems dir).
Proof. unfold path_elems. apply Forall_rev. apply (cstate_wf dir). Qed.

(** Elements other than [..] only push: the real ones are kept, in order. *)
Lemma norm_filter (r : bool) (es : list gostring) (k : nat)
      (st : list gostring) :
  Forall (fun e => no_sep e = true) es ->
  forallb (fun e => negb (streq e dotdot_s)) es = true ->
  norm r es (k, st) = (k, rev (filter is_real es) ++ st).
Proof.
  revert st. induction es as [|e es IH]; intros st Hns Hdd; [reflexivity|].
  inversion Hns as [|? ? He Hes]; subst.
  cbn [forallb] in Hdd. apply andb_true_iff in Hdd as [Hd Hdd].
  apply negb_true_iff in Hd.
  unfold norm. cbn [fold_left]. fold (norm r es (astep r (k, st) e)).
  unfold astep. rewrite Hd. cbn [filter].
  destruct (is_empty e || streq e (str ".")) eqn:E.
  - assert (is_real e = false) as ->.
    { unfold is_real. apply orb_true_iff in E as [E|E]; rewrite E;
        cbn [negb]; now rewrite ?andb_false_r. }
    now apply IH.
  - apply orb_false_iff in E as [E1 E2].
    rewrite (@is_real_intro e He E1 E2 Hd).
    rewrite IH by assumption. cbn [rev]. now rewrite <- app_assoc.
Qed.

Lemma filter_real_not_nil (es : list gostring) :
  existsb is_real es = true -> filter is_real es <> [].
Proof.
  induction es as [|e es IH]; [discriminate|].
  cbn [existsb filter]. destruct (is_real e); [discriminate|exact IH].
Qed.

Lemma filter_real_all (es : list gostring) :
  Forall (fun e => is_real e = true) (filter is_real es).
Proof.
  apply Forall_forall. intros x Hx. now apply filter_In in Hx.
Qed.

(** The join of a rooted path with a path that has no [..] element. *)
Lemma Join_rooted_no_dotdot (r p : gostring) :
  r <> [] -> rooted r = true -> no_dotdot p = true ->
  Join [r; p] = Separator :: unsplit (path_elems r ++ filter is_real (elems p)).
Proof.
  intros Hr Hroot Hdd.
  assert (forall a b : gostring, a ++ Separator :: b <> []) as Hne
      by (intros a b H; symmetry in H; revert H; apply app_cons_not_nil).
  rewrite Join_cons by assumption. rewrite unsplit_cons by discriminate.
  change (unsplit [p]) with p.
  rewrite Clean_elems by apply Hne.
  rewrite cstate_app_sep, rooted_app by assumption. rewrite Hroot.
  unfold path_elems. destruct (cstate r) as [k st].
  rewrite norm_filter by (apply elems_no_sep || exact Hdd).
  cbn [finish snd]. now rewrite rev_app_distr, rev_involutive.
Qed.

(** Stripping the root from a join with a path free of [..]. *)
Lemma strip_join (d : Dirs) (r p : gostring) :
  GlobalRootDir d = r ->
  IsAbs r = true -> Clean r = r -> no_dotdot p = true -> has_real p = true ->
  StripRootDir d (Join [r; p]) = Returns (Join [str "/"; p]).
Proof.
  intros Hd Habs Hclean Hdd Hreal.
  assert (r <> []) as Hr by (destruct r; [discriminate|discriminate]).
  pose proof Habs as Hroot. rewrite IsAbs_rooted in Hroot.
  pose proof (@Join_rooted_no_dotdot r p Hr Hroot Hdd) as HJ.
  pose proof (@Join_rooted_no_dotdot (str "/") p ltac:(discriminate)
                eq_refl Hdd) as HS.
  change (path_elems (str "/")) with (@nil gostring) in HS. cbn [app] in HS.
  pose proof (Clean_rooted_elems r Habs) as Hcr. rewrite Hclean in Hcr.
  set (P := filter is_real (elems p)) in *.
  assert (P <> []) as HP by (apply filter_real_not_nil; exact Hreal).
  assert (Forall (fun e => is_real e = true) P) as HPr
      by apply filter_real_all.
  unfold StripRootDir. rewrite Hd.
  assert (IsAbs (Join [r; p]) = true) as -> by (rewrite HJ; reflexivity).
  assert (HasPrefix (Join [r; p]) r = true) as ->.
  { rewrite HJ. destruct (path_elems r) as [|a A] eqn:EA.
    - rewrite Hcr. apply (HasPrefix_app [Separator]).
    - rewrite unsplit_app by (assumption || discriminate).
      rewrite Hcr. apply (HasPrefix_app (Separator :: unsplit (a :: A))). }
  cbn [negb].
  rewrite (@Rel_under r (Join [r; p]) (path_elems r) P).
  - now rewrite HS.
  - now rewrite Hclean.
  - rewrite Clean_Join by assumption. exact HJ.
  - apply path_elems_real.
  - exact HP.
  - exact HPr.
Qed.

End StripMore.
Import StripMore.

(** X4: stripping the root from the root itself, or from any absolute path
    that starts with the root and cleans to the same path, returns ["/."],
    not ["/"]. *)
Theorem StripRootDir_of_root (d : Dirs) (dir : gostring) :
  IsAbs dir = true -> HasPrefix dir (GlobalRootDir d) = true ->
  Clean dir = Clean (GlobalRootDir d) ->
  StripRootDir d dir = Returns (str "/.").
Proof.
  intros Habs Hpre Hc. unfold StripRootDir, Rel.
  now rewrite Habs, Hpre, Hc, streq_refl.
Qed.

Lemma StripRootDir_of_root_witness :
  let d := vars (SetRootDir env_bare (str "/x") (zero_pkg tt)) in
  StripRootDir d (GlobalRootDir d) = Returns (str "/.")
  /\ StripRootDir d (str "/x/") = Returns (str "/.").
Proof.
  split.
  - apply (@StripRootDir_of_root
             (vars (SetRootDir env_bare (str "/x") (zero_pkg tt))) (str "/x"));
      reflexivity.
  - apply (@StripRootDir_of_root
             (vars (SetRootDir env_bare (str "/x") (zero_pkg tt))) (str "/x/"));
      reflexivity.
Defined.

(** X5: under the root ["/"], [StripRootDir] returns every absolute path in
    its cleaned form, the root itself apart. *)
Theorem StripRootDir_slash_root (d : Dirs) (dir : gostring) :
  GlobalRootDir d = str "/" -> IsAbs dir = true -> Clean dir <> str "/" ->
  StripRootDir d dir = Returns (Clean dir).
Proof.
  intros Hroot Habs Hne. unfold StripRootDir. rewrite Hroot.
  change (HasPrefix dir (str "/")) with (IsAbs dir). rewrite Habs. cbn [negb].
  pose proof (Clean_rooted_elems dir Habs) as Hc.
  rewrite (@Rel_under (str "/") dir [] (path_elems dir)).
  - now rewrite Hc.
  - reflexivity.
  - exact Hc.
  - constructor.
  - intros E. rewrite E in Hc. apply Hne. exact Hc.
  - apply path_elems_real.
Qed.

Lemma StripRootDir_slash_root_witness :
  StripRootDir (vars (SetRootDir env_bare (str "/") (zero_pkg tt)))
    (str "/var//lib/../snap/")
  = Returns (str "/var/snap").
Proof.
  apply (@StripRootDir_slash_root
           (vars (SetRootDir env_bare (str "/") (zero_pkg tt)))
           (str "/var//lib/../snap/")); try reflexivity.
  vm_compute. discriminate.
Defined.

(** X6: for a root that is a cleaned absolute path and a path [p] with a
    real element and no [..] element, cleaned or not, [StripRootDir] of
    [join(root, p)] is [join("/", p)]: the place of [p] under the root
    ["/"]. *)
Theorem StripRootDir_Join_relocates (d : Dirs) (p : gostring) :
  let r := GlobalRootDir d in
  IsAbs r = true -> Clean r = r -> no_dotdot p = true -> has_real p = true ->
  StripRootDir d (Join [r; p]) = Returns (Join [str "/"; p]).
Proof.
  intros r Habs Hclean Hdd Hreal. now apply strip_join.
Qed.

Lemma StripRootDir_Join_relocates_witness :
  let d := vars (SetRootDir env_bare (str "/x") (zero_pkg tt)) in
  StripRootDir d (Join [GlobalRootDir d; str "/var//lib/./snapd/"])
  = Returns (Join [str "/"; str "/var//lib/./snapd/"]).
Proof.
  apply (@StripRootDir_Join_relocates
           (vars (SetRootDir env_bare (str "/x") (zero_pkg tt)))
           (str "/var//lib/./snapd/")); reflexivity.
Defined.

(** ** More on the home directories *)

Module HomeMore.

Lemma Split_length (s : gostring) (sep : ascii) :
  length (Split s sep) = S (Count s sep).
Proof.
  induction s as [|c s IH]; [reflexivity|].
  cbn [Split Count]. destruct (Ascii.eqb c sep).
  - cbn [length]. rewrite IH. reflexivity.
  - destruct (Split s sep) as [|e es]; simpl in *; lia.
Qed.

(** The entry ["/home"] is stored as [root/home], whatever the root. *)
Lemma home_entry_home (root : gostring) :
  home_entry root (str "/home") = Join [root; str "/home"].
Proof.
  unfold home_entry.
  replace (Clean (str "/home")) with (str "/home") by reflexivity.
  destruct (HasPrefix (str "/home") _) eqn:Hp; [|reflexivity].
  cbn [negb]. apply HasPrefix_inv in Hp as [t Ht].
  destruct (streq root (str "/")) eqn:E1.
  { apply streq_eq in E1. subst root. reflexivity. }
  cbn [negb andb] in Ht.
  destruct (HasSuffix root (str "/")) eqn:E2; cbn [negb] in Ht.
  - exfalso.
    destruct root as [|c1 [|c2 [|c3 [|c4 [|c5 [|c6 root]]]]]];
      simpl in Ht; inversion Ht; subst; try discriminate.
  - destruct root as [|c1 [|c2 [|c3 [|c4 [|c5 [|c6 root]]]]]];
      simpl in Ht; inversion Ht; subst; try discriminate; try reflexivity.
    all: match goal with H : [] = _ ++ _ |- _ =>
           symmetry in H; apply app_eq_nil in H as [_ H]; discriminate H end.
Qed.

Lemma ListContains_self (s : gostring) : ListContains [s] s = true.
Proof. unfold ListContains. simpl. now rewrite streq_refl. Qed.

(** [SetSnapHomeDirs("/home")], the call [SetRootDir] makes. *)
Lemma SetSnapHomeDirs_default (d : Dirs) :
  let home := Join [GlobalRootDir d; str "/home"] in
  SetSnapHomeDirs (str "/home") d
  = ([home], set_home [home] [std_glob home] [hidden_glob home] d).
Proof.
  intros home. rewrite SetSnapHomeDirs_shape. fold home.
  assert (user_homes (GlobalRootDir d) (str "/home") = [home]) as ->.
  { unfold user_homes. cbn [streq str list_ascii_of_string].
    change (Split _ ","%char) with [str "/home"]. cbn [map].
    now rewrite home_entry_home. }
  now rewrite ListContains_self.
Qed.

Lemma home_entry_abs_clean (root e : gostring) :
  IsAbs root = true ->
  IsAbs (home_entry root e) = true
  /\ Clean (home_entry root e) = home_entry root e.
Proof.
  intros Habs.
  assert (root <> []) as Hr by (destruct root; [discriminate|discriminate]).
  unfold home_entry.
  destruct (HasPrefix (Clean e) _) eqn:Hp; cbn [negb].
  - split; [|apply Clean_idempotent].
    apply HasPrefix_inv in Hp as [t Ht]. rewrite Ht.
    destruct root as [|c root]; [congruence|].
    unfold IsAbs, HasPrefix in Habs. simpl in Habs.
    rewrite andb_true_r in Habs. apply Ascii.eqb_eq in Habs. subst c.
    destruct (negb (streq _ _) && negb (HasSuffix _ _)); reflexivity.
  - split; [now rewrite IsAbs_Join|now apply Clean_Join].
Qed.

End HomeMore.
Import HomeMore.

(** X7: a root change resets the home directories to [root/home] alone, with
    one glob of each kind, whatever they were before. *)
Theorem SetRootDir_resets_homes (World : Type) (env : Env) (r : gostring)
        (p : Pkg World) :
  let d := vars (SetRootDir env r p) in
  let home := Join [root_of r; str "/home"] in
  SnapHomeDirs d = [home]
  /\ DataHomeGlobs None d = [Join [home; str "*"; str "snap"]]
  /\ DataHomeGlobs hidden_opts d = [Join [home; str "*"; str ".snap/data"]].
Proof.
  intros d home. subst d.
  unfold SetRootDir, SetRootDir_writable. cbn [vars].
  unfold SetRootDir_paths. cbv zeta. fold (root_of r).
  destruct (isInsideBaseSnap env) as [b e].
  destruct (if b then _ else _) as [m err].
  rewrite SetSnapHomeDirs_default. cbn [snd GlobalRootDir]. fold home.
  repeat apply conj; reflexivity.
Qed.

(** X8: [SetSnapHomeDirs] replaces the home directories wholesale: what it
    returns and stores depends on the root and on its argument, not on the
    home directories set before. *)
Theorem SetSnapHomeDirs_discards (csv1 csv2 : gostring) (d : Dirs) :
  SetSnapHomeDirs csv2 (snd (SetSnapHomeDirs csv1 d)) = SetSnapHomeDirs csv2 d.
Proof.
  rewrite (SetSnapHomeDirs_shape csv1 d). cbn [snd].
  rewrite !SetSnapHomeDirs_shape. reflexivity.
Qed.

(** X9: a non-empty input gives one home directory per comma-separated
    field, empty and repeated fields included, and at most one more for
    [root/home]: nothing is dropped or merged. *)
Theorem SetSnapHomeDirs_count (csv : gostring) (d : Dirs) :
  csv <> [] ->
  let n := S (Count csv ","%char) in
  let homes := fst (SetSnapHomeDirs csv d) in
  firstn n homes = user_homes (GlobalRootDir d) csv
  /\ length (user_homes (GlobalRootDir d) csv) = n
  /\ n <= length homes <= S n.
Proof.
  intros Hne n homes. subst homes.
  rewrite SetSnapHomeDirs_shape. cbn [fst].
  assert (length (user_homes (GlobalRootDir d) csv) = n) as Hlen.
  { unfold user_homes. apply streq_neq in Hne. rewrite Hne.
    rewrite length_map. apply Split_length. }
  destruct (ListContains _ _).
  - rewrite <- Hlen. rewrite firstn_all. repeat split; lia.
  - rewrite <- Hlen. rewrite firstn_app, Nat.sub_diag, firstn_all.
    cbn [firstn]. rewrite app_nil_r, length_app. cbn [length].
    repeat split; lia.
Qed.

Lemma SetSnapHomeDirs_count_witness :
  let d := vars (SetRootDir env_bare (str "/x") (zero_pkg tt)) in
  let homes := fst (SetSnapHomeDirs (str "/a,,/a") d) in
  firstn 3 homes = user_homes (GlobalRootDir d) (str "/a,,/a")
  /\ length (user_homes (GlobalRootDir d) (str "/a,,/a")) = 3
  /\ 3 <= length homes <= 4.
Proof.
  apply (@SetSnapHomeDirs_count (str "/a,,/a")
           (vars (SetRootDir env_bare (str "/x") (zero_pkg tt)))).
  discriminate.
Defined.

(** X10: under an absolute root every home directory that [SetSnapHomeDirs]
    returns is an absolute path in cleaned form. *)
Theorem SetSnapHomeDirs_absolute (csv : gostring) (d : Dirs) :
  IsAbs (GlobalRootDir d) = true ->
  Forall (fun h => IsAbs h = true /\ Clean h = h)
         (fst (SetSnapHomeDirs csv d)).
Proof.
  intros Habs.
  assert (GlobalRootDir d <> []) as Hr
      by (destruct (GlobalRootDir d); [discriminate|discriminate]).
  rewrite SetSnapHomeDirs_shape. cbn [fst].
  assert (Forall (fun h => IsAbs h = true /\ Clean h = h)
                 (user_homes (GlobalRootDir d) csv)) as Hu.
  { unfold user_homes. apply Forall_forall. intros h Hh.
    apply in_map_iff in Hh as (e & <- & _).
    now apply home_entry_abs_clean. }
  destruct (ListContains _ _); [exact Hu|].
  apply Forall_app. split; [exact Hu|].
  constructor; [|constructor].
  split; [now rewrite IsAbs_Join|now apply Clean_Join].
Qed.

Lemma SetSnapHomeDirs_absolute_witness :
  Forall (fun h => IsAbs h = true /\ Clean h = h)
         (fst (SetSnapHomeDirs (str "a/../b,//c/")
                 (vars (SetRootDir env_bare (str "/x") (zero_pkg tt))))).
Proof.
  apply (@SetSnapHomeDirs_absolute (str "a/../b,//c/")
           (vars (SetRootDir env_bare (str "/x") (zero_pkg tt)))).
  reflexivity.
Defined.

(** ** More on [SetRootDir] *)

Module RootMore.

(** [SetRootDir] reads the previous variables in three places only. *)
Lemma SetRootDir_reads (World : Type) (env : Env) (r : gostring)
      (p q : Pkg World) :
  CloudMetaDataFile (vars p) = CloudMetaDataFile (vars q) ->
  SnapTrustedAccountKey (vars p) = SnapTrustedAccountKey (vars q) ->
  (fst (isInsideBaseSnap env) = true ->
   snapMountDirDetectionError (vars p) = snapMountDirDetectionError (vars q)) ->
  vars (SetRootDir env r p) = vars (SetRootDir env r q).
Proof.
  intros Hc Ht He.
  unfold SetRootDir, SetRootDir_writable. cbn [vars].
  unfold SetRootDir_paths. cbv zeta. fold (root_of r).
  destruct (isInsideBaseSnap env) as [b e]. cbn [fst] in He.
  destruct b.
  - rewrite (He eq_refl). rewrite !SetSnapHomeDirs_default.
    cbn [snd GlobalRootDir]. cbn_vars. now rewrite Hc, Ht.
  - destruct (snapMountDirProbe env (root_of r));
      rewrite !SetSnapHomeDirs_default; cbn [snd GlobalRootDir]; cbn_vars;
      now rewrite Hc, Ht.
Qed.

Lemma SetRootDir_unassigned (World : Type) (env : Env) (r : gostring)
      (p : Pkg World) :
  CloudMetaDataFile (vars (SetRootDir env r p)) = CloudMetaDataFile (vars p)
  /\ SnapTrustedAccountKey (vars (SetRootDir env r p))
     = SnapTrustedAccountKey (vars p).
Proof.
  unfold SetRootDir, SetRootDir_writable. cbn [vars].
  open_paths. split; reflexivity.
Qed.

Lemma SetRootDirs_unassigned (World : Type) (calls : list (Env * gostring))
      (p : Pkg World) :
  CloudMetaDataFile (vars (SetRootDirs calls p)) = CloudMetaDataFile (vars p)
  /\ SnapTrustedAccountKey (vars (SetRootDirs calls p))
     = SnapTrustedAccountKey (vars p).
Proof.
  revert p. induction calls as [|[env r] calls IH]; intros p.
  - split; reflexivity.
  - cbn [SetRootDirs]. destruct (IH (SetRootDir env r p)) as [-> ->].
    apply SetRootDir_unassigned.
Qed.

Lemma unassigned_after_init (World : Type) (calls : list (Env * gostring))
      (env : Env) (root : gostring) (w : World) :
  CloudMetaDataFile (vars (SetRootDirs calls (init env root w))) = []
  /\ SnapTrustedAccountKey (vars (SetRootDirs calls (init env root w))) = [].
Proof.
  destruct (SetRootDirs_unassigned calls (init env root w)) as [-> ->].
  unfold init. destruct (SetRootDir_unassigned env root (zero_pkg w)) as [-> ->].
  split; reflexivity.
Qed.

End RootMore.
Import RootMore.

(** X11: [SetRootDir] assigns neither [CloudMetaDataFile] nor
    [SnapTrustedAccountKey]: over any sequence of root changes, each in its
    own environment, the two variables keep the value they had; after
    [init], whose root change is the first, they are empty for good. *)
Theorem SetRootDir_never_assigns (World : Type) (calls : list (Env * gostring)) :
  (forall p : Pkg World,
      CloudMetaDataFile (vars (SetRootDirs calls p)) = CloudMetaDataFile (vars p)
      /\ SnapTrustedAccountKey (vars (SetRootDirs calls p))
         = SnapTrustedAccountKey (vars p))
  /\ (forall env root (w : World),
         CloudMetaDataFile (vars (SetRootDirs calls (init env root w))) = []
         /\ SnapTrustedAccountKey (vars (SetRootDirs calls (init env root w)))
            = []).
Proof.
  split.
  - intros p. apply SetRootDirs_unassigned.
  - intros env root w. apply unassigned_after_init.
Qed.

(** X12: a root change made twice in the same environment leaves the
    variables as the first one left them. *)
Theorem SetRootDir_idempotent (World : Type) (env : Env) (r : gostring)
        (p : Pkg World) :
  vars (SetRootDir env r (SetRootDir env r p)) = vars (SetRootDir env r p).
Proof.
  destruct (SetRootDir_unassigned env r p) as [Hc Ht].
  apply SetRootDir_reads; try assumption.
  intros Hb. pose proof (SetRootDir_mount env r p) as H. cbv zeta in H.
  destruct H as [H _]. rewrite Hb in H. apply (f_equal snd) in H. exact H.
Qed.

Module RootMore2.

Lemma probe_clean_root (env : Env) (r : gostring) :
  r <> [] -> snapMountDirProbe env (Clean r) = snapMountDirProbe env r.
Proof.
  intros Hr. unfold snapMountDirProbe. now rewrite !Join_Clean_head.
Qed.

Lemma root_of_id (r : gostring) : r <> [] -> root_of r = r.
Proof. unfold root_of. destruct r; [congruence|reflexivity]. Qed.

(** The probe never names a directory other than its two candidates. *)
Lemma probe_candidates (env : Env) (r dir : gostring) :
  snapMountDirProbe env r = Ok dir ->
  dir = Join [r; DefaultSnapMountDir] \/ dir = Join [r; AltSnapMountDir].
Proof.
  unfold snapMountDirProbe.
  destruct (DistroLike env specialDefaultDirDistros).
  { intros H. left. congruence. }
  destruct (Lstat env _) as [fi|err].
  - destruct (negb (Z.land (FileMode_Type (Mode fi)) ModeSymlink =? 0)%Z).
    + destruct (Readlink env _) as [p|err]; [|discriminate].
      destruct (negb (streq p AltSnapMountDir) && _ && _); [discriminate|].
      intros H. right. congruence.
    + destruct (FileMode_IsDir _); [|discriminate].
      intros H. left. congruence.
  - destruct (errors_Is_ErrNotExist err); [|discriminate].
    intros H. right. congruence.
Qed.

Lemma forallb_IsAbs (l : list gostring) :
  Forall (fun s => IsAbs s = true) l -> forallb IsAbs l = true.
Proof. intros H. apply forallb_forall. now apply Forall_forall. Qed.

Ltac join_not_nil :=
  first [ assumption
        | apply Join_second; lit_not_nil
        | lit_not_nil ].

Ltac entry_abs :=
  first [ assumption
        | rewrite IsAbs_Join by join_not_nil; entry_abs
        | reflexivity ].

End RootMore2.
Import RootMore2.

(** X13: under an absolute root and with the mount directory found, a root
    change leaves absolute paths only: in the string variables it assigns,
    the font cache directories, the home directories and the globs. *)
Theorem SetRootDir_all_abs (World : Type) (env : Env) (r : gostring)
      (p : Pkg World) :
  IsAbs (root_of r) = true -> mount_resolved env r = true ->
  all_abs (vars (SetRootDir env r p)) = true.
Proof.
  intros Habs Hres.
  unfold mount_resolved, probe_failed in Hres.
  unfold SetRootDir, SetRootDir_writable. cbn [vars].
  unfold SetRootDir_paths. cbv zeta. fold (root_of r).
  pose proof (root_of_not_nil r) as Hroot.
  set (root := root_of r) in *. clearbody root.
  destruct (isInsideBaseSnap env) as [b e]. cbn [fst] in Hres.
  assert (exists m err, (if b
            then (Join [root; DefaultSnapMountDir],
                  snapMountDirDetectionError (vars p))
            else match snapMountDirProbe env root with
                 | Ok dir => (dir, None)
                 | Err err =>
                     (snapMountDirUnresolvedPlaceholder,
                      Some (Errorf_w (str "cannot resolve snap mount directory")
                              err))
                 end) = (m, err) /\ m <> [] /\ IsAbs m = true)
    as (m & err & -> & Hm & Hma).
  { destruct b.
    - eexists _, _. split; [reflexivity|]. split.
      + apply Join_second. discriminate.
      + now rewrite IsAbs_Join.
    - cbn [orb] in Hres.
      destruct (snapMountDirProbe env root) as [dir|err] eqn:E;
        [|discriminate].
      eexists _, _. split; [reflexivity|]. split.
      + eapply probe_ok_not_nil; eauto.
      + apply probe_candidates in E as [-> | ->]; now rewrite IsAbs_Join. }
  rewrite SetSnapHomeDirs_default. cbn [snd GlobalRootDir].
  unfold all_abs, path_entries. cbn_vars.
  unfold SnapFDEDirUnder.
  unfold SnapBlobDirUnder, SnapSeedDirUnder, SnapDeviceDirUnder,
    SnapStateFileUnder, SnapStateLockFileUnder, SnapRepairConfigFileUnder,
    SnapServicesDirUnder, SnapRuntimeServicesDirUnder, SnapSystemdConfDirUnder,
    SnapModeenvFileUnder, SnapBootAssetsDirUnder,
    SnapSaveDirUnder, FeaturesDirUnder, std_glob, hidden_glob.
  apply andb_true_intro; split;
    [apply andb_true_intro; split;
     [apply andb_true_intro; split; [apply andb_true_intro; split|]|]|].
  - apply forallb_IsAbs.
    repeat (apply Forall_cons; [try entry_abs|]); try apply Forall_nil.
    + destruct (Stat env (Join [root; DefaultDistroLibexecDir])) as [fi|serr].
      * entry_abs.
      * destruct (errors_Is_ErrNotExist serr); [|entry_abs].
        destruct (Stat env (Join [root; AltDistroLibexecDir])); entry_abs.
    + destruct (OnClassic env); entry_abs.
    + destruct (OnClassic env); entry_abs.
  - destruct (DistroLike env [str "fedora"] && negb (DistroLike env [str "amzn"]));
      cbn [app forallb]; rewrite ?IsAbs_Join by join_not_nil;
      now rewrite Habs.
  - cbn [forallb]. rewrite IsAbs_Join by join_not_nil. now rewrite Habs.
  - cbn [forallb]. rewrite !IsAbs_Join by join_not_nil. now rewrite Habs.
  - cbn [forallb]. rewrite !IsAbs_Join by join_not_nil. now rewrite Habs.
Qed.

Lemma SetRootDir_all_abs_witness :
  all_abs (vars (SetRootDir env_bare (str "/x") (zero_pkg tt))) = true.
Proof.
  apply (@SetRootDir_all_abs unit env_bare (str "/x") (zero_pkg tt));
    reflexivity.
Defined.

(** X14: the way the root is spelt matters to the two variables that hold
    it as given and to nothing else: a root and its cleaned form give the
    same paths, mount directory, home directories and recorded error. *)
Theorem SetRootDir_root_spelling (World : Type) (env : Env) (r : gostring)
        (p : Pkg World) :
  r <> [] ->
  forget_roots (vars (SetRootDir env (Clean r) p))
  = forget_roots (vars (SetRootDir env r p)).
Proof.
  intros Hr.
  unfold SetRootDir, SetRootDir_writable. cbn [vars].
  unfold SetRootDir_paths. cbv zeta. fold (root_of r). fold (root_of (Clean r)).
  rewrite (root_of_id Hr), (root_of_id (@Clean_not_nil r)).
  rewrite (probe_clean_root env Hr).
  destruct (isInsideBaseSnap env) as [b e].
  assert (exists m err, (if b
            then (Join [r; DefaultSnapMountDir],
                  snapMountDirDetectionError (vars p))
            else match snapMountDirProbe env r with
                 | Ok dir => (dir, None)
                 | Err err =>
                     (snapMountDirUnresolvedPlaceholder,
                      Some (Errorf_w (str "cannot resolve snap mount directory")
                              err))
                 end) = (m, err)) as (m & err & E).
  { destruct b; [|destruct (snapMountDirProbe env r)]; eexists _, _;
      reflexivity. }
  rewrite !(@Join_Clean_head r) by assumption. rewrite E.
  rewrite !SetSnapHomeDirs_default. cbn [snd GlobalRootDir].
  unfold forget_roots, set_roots. cbn_vars.
  unfold_helpers. unfold std_glob, hidden_glob.
  rewrite ?(@Join_Clean_head r) by assumption.
  destruct (OnClassic env); rewrite ?(@Join_Clean_head r) by assumption;
    reflexivity.
Qed.

Lemma SetRootDir_root_spelling_witness :
  forget_roots (vars (SetRootDir env_bare (Clean (str "/a/../srv/"))
                        (zero_pkg tt)))
  = forget_roots (vars (SetRootDir env_bare (str "/a/../srv/") (zero_pkg tt))).
Proof.
  apply (@SetRootDir_root_spelling unit env_bare (str "/a/../srv/")
           (zero_pkg tt)).
  discriminate.
Defined.

(** ** The mount directory and classic confinement *)

Module MountMore.

(** The state in which [Clean] ends on a join with a path free of [..]. *)
Lemma Join_cstate (r p : gostring) :
  r <> [] -> no_dotdot p = true ->
  cstate (Join [r; p])
  = (fst (cstate r), rev (filter is_real (elems p)) ++ snd (cstate r)).
Proof.
  intros Hr Hdd.
  assert (r ++ Separator :: p <> []) as Hne
      by (intros H; symmetry in H; revert H; apply app_cons_not_nil).
  rewrite Join_cons by assumption. rewrite unsplit_cons by discriminate.
  change (unsplit [p]) with p.
  rewrite cstate_Clean by exact Hne.
  rewrite cstate_app_sep by assumption.
  destruct (cstate r) as [k st].
  rewrite norm_filter by (apply elems_no_sep || exact Hdd).
  reflexivity.
Qed.

Lemma default_elems :
  filter is_real (elems DefaultSnapMountDir) = [str "snap"].
Proof. reflexivity. Qed.

Lemma alt_elems :
  filter is_real (elems AltSnapMountDir)
  = [str "var"; str "lib"; str "snapd"; str "snap"].
Proof. reflexivity. Qed.

Lemma default_not_alt (r : gostring) :
  r <> [] -> Join [r; AltSnapMountDir] <> Join [r; DefaultSnapMountDir].
Proof.
  intros Hr H. apply (f_equal cstate) in H.
  rewrite !Join_cstate in H by (assumption || reflexivity).
  rewrite default_elems, alt_elems in H.
  apply (f_equal snd) in H. cbn [snd] in H.
  apply (f_equal (@length gostring)) in H.
  rewrite !length_app in H. cbn [rev app length] in H. lia.
Qed.

Lemma candidate_not_placeholder (r p : gostring) :
  r <> [] -> p = DefaultSnapMountDir \/ p = AltSnapMountDir ->
  Join [r; p] <> snapMountDirUnresolvedPlaceholder.
Proof.
  intros Hr Hp H. apply (f_equal cstate) in H.
  rewrite Join_cstate in H by (assumption || (destruct Hp; subst; reflexivity)).
  apply (f_equal snd) in H. cbn [snd] in H.
  change (snd (cstate snapMountDirUnresolvedPlaceholder))
    with [snapMountDirUnresolvedPlaceholder] in H.
  destruct Hp; subst p.
  - rewrite default_elems in H. cbn [rev app] in H.
    apply (f_equal (@hd gostring [])) in H. cbn [hd] in H.
    vm_compute in H. discriminate H.
  - rewrite alt_elems in H. cbn [rev app] in H.
    apply (f_equal (@hd gostring [])) in H. cbn [hd] in H.
    vm_compute in H. discriminate H.
Qed.

Lemma probe_not_placeholder (env : Env) (r dir : gostring) :
  r <> [] -> snapMountDirProbe env r = Ok dir ->
  dir <> snapMountDirUnresolvedPlaceholder.
Proof.
  intros Hr E. apply probe_candidates in E as [-> | ->];
    apply candidate_not_placeholder; auto.
Qed.

Lemma streq_false (a b : gostring) : a <> b -> streq a b = false.
Proof.
  intros H. destruct (streq a b) eqn:E; [|reflexivity].
  apply streq_eq in E. contradiction.
Qed.

End MountMore.
Import MountMore.

(** X15: after any root change the placeholder stands in [SnapMountDir]
    only with a detection error on record. *)
Theorem placeholder_only_with_error (World : Type) (env : Env) (r : gostring)
        (p : Pkg World) :
  let d := vars (SetRootDir env r p) in
  SnapMountDir d = snapMountDirUnresolvedPlaceholder ->
  is_set (SnapMountDirDetectionOutcome d) = true.
Proof.
  intros d Hm. subst d.
  destruct (SetRootDir_mount env r p) as [H _]. cbv zeta in H.
  pose proof (root_of_not_nil r) as Hroot.
  unfold SnapMountDirDetectionOutcome.
  destruct (fst (isInsideBaseSnap env)).
  - apply (f_equal fst) in H. cbn [fst] in H. rewrite Hm in H.
    symmetry in H. apply candidate_not_placeholder in H; [easy|assumption|].
    now left.
  - destruct (snapMountDirProbe env (root_of r)) as [dir|err] eqn:E.
    + apply (f_equal fst) in H. cbn [fst] in H. rewrite Hm in H. subst dir.
      now apply probe_not_placeholder in E.
    + apply (f_equal snd) in H. cbn [snd] in H. now rewrite H.
Qed.

Lemma placeholder_only_with_error_witness :
  is_set (SnapMountDirDetectionOutcome
            (vars (SetRootDir env_denied (str "/x") (zero_pkg tt)))) = true.
Proof.
  apply (@placeholder_only_with_error unit env_denied (str "/x") (zero_pkg tt)).
  reflexivity.
Defined.

(** X16: [SupportsClassicConfinement] right after a root change, the file
    system being the same for both: on a classic system and nowhere else,
    and there inside a base snap, on a distribution with the special
    default, when [/snap] under the root is a directory, or when it is a
    symbolic link that [EvalSymlinks] resolves to the mount directory. *)
Theorem SupportsClassicConfinement_after_SetRootDir
        (World : Type) (env : Env)
        (EvalSymlinks : gostring -> result gostring) (r : gostring)
        (p : Pkg World) :
  let d := vars (SetRootDir env r p) in
  let smd := Join [root_of r; str "/snap"] in
  SupportsClassicConfinement env EvalSymlinks d
  = OnClassic env
    && (fst (isInsideBaseSnap env)
        || DistroLike env specialDefaultDirDistros
        || match Lstat env smd with
           | Ok fi =>
               if is_symlink fi then
                 match EvalSymlinks smd with
                 | Ok target => streq target (SnapMountDir d)
                 | Err _ => false
                 end
               else is_dir fi
           | Err _ => false
           end).
Proof.
  intros d smd.
  pose proof (root_of_not_nil r) as Hroot.
  unfold SupportsClassicConfinement.
  destruct (OnClassic env); [|reflexivity]. cbn [negb andb].
  subst d. rewrite SetRootDir_root.
  change (Join [root_of r; DefaultSnapMountDir]) with smd.
  destruct (SetRootDir_mount env r p) as [H _]. cbv zeta in H.
  apply (f_equal fst) in H. cbn [fst] in H.
  set (d := vars (SetRootDir env r p)) in *.
  destruct (fst (isInsideBaseSnap env)).
  { cbn [fst] in H. rewrite H. fold smd. now rewrite streq_refl. }
  cbn [orb].
  unfold snapMountDirProbe in H. cbv zeta in H.
  change (Join [root_of r; DefaultSnapMountDir]) with smd in H.
  destruct (DistroLike env specialDefaultDirDistros).
  { cbn [fst] in H. rewrite H. now rewrite streq_refl. }
  cbn [orb].
  assert (Join [root_of r; AltSnapMountDir] <> smd) as Halt
      by (apply default_not_alt; assumption).
  assert (snapMountDirUnresolvedPlaceholder <> smd) as Hph.
  { intros E. symmetry in E. revert E. apply candidate_not_placeholder; auto. }
  unfold is_symlink, is_dir. clearbody smd.
  destruct (Lstat env smd) as [fi|err].
  - rewrite Type_symlink, Type_IsDir in H.
    destruct (negb (Z.land (Mode fi) ModeSymlink =? 0)%Z).
    + assert (SnapMountDir d <> smd) as Hne.
      { destruct (Readlink env smd) as [t|e]; [|now rewrite H].
        destruct (negb (streq t AltSnapMountDir) && _ && _); now rewrite H. }
      now rewrite (streq_false Hne).
    + destruct (FileMode_IsDir (Mode fi)); cbn [fst] in H; rewrite H.
      * now rewrite streq_refl.
      * now rewrite (streq_false Hph).
  - assert (SnapMountDir d <> smd) as Hne
        by (destruct (errors_Is_ErrNotExist err); now rewrite H).
    now rewrite (streq_false Hne).
Qed.

(** ** Subscribers *)

Module CallbackMore.

Lemma register_all_callbacks (World : Type) (cs : list (Callback World))
      (p : Pkg World) :
  callbacks (register_all cs p) = callbacks p ++ cs
  /\ vars (register_all cs p) = vars p
  /\ world (register_all cs p) = world p.
Proof.
  unfold register_all. revert p.
  induction cs as [|c cs IH]; intros p; cbn [fold_left].
  - now rewrite app_nil_r.
  - destruct (IH (AddRootDirCallback c p)) as (-> & -> & ->).
    unfold AddRootDirCallback. cbn [callbacks vars world].
    now rewrite <- app_assoc.
Qed.

Lemma run_tags (l : list nat) (r : gostring) (d : Dirs)
      (log : list (nat * gostring)) :
  run_callbacks (map tag l) r d log = log ++ map (fun i => (i, r)) l.
Proof.
  revert log. induction l as [|i l IH]; intros log; cbn [map run_callbacks].
  - now rewrite app_nil_r.
  - rewrite IH. unfold tag. now rewrite <- app_assoc.
Qed.

Lemma tags_log (n : nat) (calls : list (Env * gostring))
      (q : Pkg (list (nat * gostring))) :
  callbacks q = map tag (seq 0 n) ->
  world (SetRootDirs calls q)
  = world q
      ++ flat_map (fun call => map (fun i => (i, root_of (snd call))) (seq 0 n))
                  calls.
Proof.
  revert q. induction calls as [|[env r] calls IH]; intros q Hc.
  - cbn [SetRootDirs flat_map]. now rewrite app_nil_r.
  - cbn [SetRootDirs flat_map snd]. rewrite IH.
    + unfold SetRootDir. cbn [world]. fold (root_of r).
      rewrite Hc, run_tags. now rewrite <- app_assoc.
    + unfold SetRootDir. cbn [callbacks]. exact Hc.
Qed.

End CallbackMore.
Import CallbackMore.

(** X17: every root change calls every registered callback once, in the
    order of registration, with the new root (["/"] for the empty one);
    callbacks registered once are called at every later root change. *)
Theorem callbacks_called_in_order (n : nat) (calls : list (Env * gostring))
        (p : Pkg (list (nat * gostring))) :
  callbacks p = [] ->
  world (SetRootDirs calls (register_all (map tag (seq 0 n)) p))
  = world p
      ++ flat_map (fun call => map (fun i => (i, root_of (snd call))) (seq 0 n))
                  calls.
Proof.
  intros Hp.
  destruct (register_all_callbacks (map tag (seq 0 n)) p) as (Hc & _ & Hw).
  rewrite Hp in Hc. cbn [app] in Hc. rewrite <- Hw.
  now apply tags_log.
Qed.

Lemma callbacks_called_in_order_witness :
  world (SetRootDirs [(env_bare, str "/x"); (env_denied, [])]
           (register_all (map tag (seq 0 2)) (zero_pkg [])))
  = [(0, str "/x"); (1, str "/x"); (0, str "/"); (1, str "/")].
Proof.
  apply (@callbacks_called_in_order 2 [(env_bare, str "/x"); (env_denied, [])]
           (zero_pkg [])).
  reflexivity.
Defined.

(** ** The paths under the root and under ["/"] *)

Module RelocateMore.

Lemma relocate_all (d : Dirs) (r : gostring) (l l0 : list gostring) :
  GlobalRootDir d = r -> IsAbs r = true -> Clean r = r ->
  Forall2 (fun x y => exists p, x = Join [r; p] /\ y = Join [str "/"; p]
                                /\ no_dotdot p = true /\ has_real p = true)
          l l0 ->
  map (StripRootDir d) l = map Returns l0.
Proof.
  intros Hd Habs Hclean H. induction H as [|x y l l0 (p & -> & -> & Hdd & Hre) _ IH].
  - reflexivity.
  - cbn [map]. rewrite IH. now rewrite (@strip_join d r p).
Qed.

Lemma abs_not_nil (r : gostring) : IsAbs r = true -> r <> [].
Proof. destruct r; [discriminate|discriminate]. Qed.

End RelocateMore.
Import RelocateMore.

(** X18: for a root that is a cleaned absolute path, stripping the root
    from the paths that [SetRootDir] computes from the root alone gives the
    paths it computes for the root ["/"]. *)
Theorem root_entries_relocate (World : Type) (env : Env) (r : gostring)
        (p q : Pkg World) :
  IsAbs r = true -> Clean r = r ->
  let d := vars (SetRootDir env r p) in
  let d0 := vars (SetRootDir env (str "/") q) in
  map (StripRootDir d) (root_entries d) = map Returns (root_entries d0).
Proof.
  intros Habs Hclean d d0.
  pose proof (abs_not_nil Habs) as Hr.
  apply (@relocate_all d r); try assumption.
  { subst d. rewrite SetRootDir_root. now apply root_of_id. }
  subst d d0.
  unfold SetRootDir, SetRootDir_writable. cbn [vars].
  unfold SetRootDir_paths. cbv zeta. fold (root_of r). fold (root_of (str "/")).
  rewrite (root_of_id Hr). change (root_of (str "/")) with (str "/").
  destruct (isInsideBaseSnap env) as [b e].
  destruct (if b then _ else _) as [m1 err1].
  destruct (if b then _ else _) as [m2 err2].
  rewrite !SetSnapHomeDirs_default. cbn [snd GlobalRootDir].
  unfold root_entries. cbn_vars.
  unfold_helpers.
  destruct (OnClassic env); join_flat;
    repeat (apply Forall2_cons;
            [eexists; split; [reflexivity|split; [reflexivity|split; reflexivity]]|]);
    apply Forall2_nil.
Qed.

Lemma root_entries_relocate_witness :
  let d := vars (SetRootDir env_bare (str "/x") (zero_pkg tt)) in
  let d0 := vars (SetRootDir env_bare (str "/") (zero_pkg tt)) in
  map (StripRootDir d) (root_entries d) = map Returns (root_entries d0).
Proof.
  apply (@root_entries_relocate unit env_bare (str "/x") (zero_pkg tt)
           (zero_pkg tt)); reflexivity.
Defined.

(** ** [Base], [Dir] and the completion script *)

Module BaseMore.

Lemma no_sep_app (a b : gostring) :
  no_sep (a ++ b) = no_sep a && no_sep b.
Proof. unfold no_sep. apply forallb_app. Qed.

Lemma last_element_elem (e X : list ascii) :
  no_sep e = true -> last_element (e ++ Separator :: X) = e.
Proof.
  induction e as [|c e IH]; intros H; [reflexivity|].
  cbn [no_sep forallb] in H. apply andb_true_iff in H as [Hc He].
  apply negb_true_iff in Hc. cbn [app last_element]. rewrite Hc.
  f_equal. now apply IH.
Qed.

Lemma last_element_all (e : list ascii) :
  no_sep e = true -> last_element e = e.
Proof.
  induction e as [|c e IH]; intros H; [reflexivity|].
  cbn [no_sep forallb] in H. apply andb_true_iff in H as [Hc He].
  apply negb_true_iff in Hc. cbn [last_element]. rewrite Hc.
  f_equal. now apply IH.
Qed.

Lemma before_last_element_elem (e X : list ascii) :
  no_sep e = true ->
  before_last_element (e ++ Separator :: X) = Separator :: X.
Proof.
  induction e as [|c e IH]; intros H; [reflexivity|].
  cbn [no_sep forallb] in H. apply andb_true_iff in H as [Hc He].
  apply negb_true_iff in Hc. cbn [app before_last_element]. rewrite Hc.
  now apply IH.
Qed.

Lemma strip_trailing_elem (e Y : list ascii) :
  no_sep e = true -> e <> [] -> strip_trailing (e ++ Y) = e ++ Y.
Proof.
  destruct e as [|c e]; intros H Hne; [congruence|].
  cbn [no_sep forallb] in H. apply andb_true_iff in H as [Hc He].
  apply negb_true_iff in Hc. cbn [app strip_trailing]. now rewrite Hc.
Qed.

(** [Base] of a path that ends in an element. *)
Lemma Base_last (X e : gostring) :
  no_sep e = true -> e <> [] -> Base (X ++ Separator :: e) = e.
Proof.
  intros Hns Hne. unfold Base.
  assert (X ++ Separator :: e <> []) as Hx
      by (intros H; symmetry in H; revert H; apply app_cons_not_nil).
  rewrite (streq_false Hx). cbv zeta.
  rewrite rev_app_distr. cbn [rev]. rewrite <- app_assoc. cbn [app].
  assert (no_sep (rev e) = true) as Hr by now rewrite no_sep_rev.
  assert (rev e <> []) as Hre.
  { intros H. apply (f_equal (@rev ascii)) in H.
    rewrite rev_involutive in H. now apply Hne. }
  rewrite strip_trailing_elem by assumption.
  rewrite last_element_elem by assumption.
  rewrite rev_involutive. now rewrite (streq_false Hne).
Qed.

Lemma Base_elem (e : gostring) :
  no_sep e = true -> e <> [] -> Base e = e.
Proof.
  intros Hns Hne. unfold Base. rewrite (streq_false Hne). cbv zeta.
  assert (no_sep (rev e) = true) as Hr by now rewrite no_sep_rev.
  assert (rev e <> []) as Hre.
  { intros H. apply (f_equal (@rev ascii)) in H.
    rewrite rev_involutive in H. now apply Hne. }
  assert (strip_trailing (rev e) = rev e) as ->.
  { rewrite <- (app_nil_r (rev e)).
    now rewrite strip_trailing_elem by assumption. }
  rewrite last_element_all by assumption.
  rewrite rev_involutive. now rewrite (streq_false Hne).
Qed.

(** [Dir] of a path that ends in an element. *)
Lemma Dir_last (X e : gostring) :
  no_sep e = true -> Dir (X ++ Separator :: e) = Clean (X ++ [Separator]).
Proof.
  intros Hns. unfold Dir.
  rewrite rev_app_distr. cbn [rev]. rewrite <- app_assoc. cbn [app].
  rewrite before_last_element_elem by now rewrite no_sep_rev.
  cbn [rev]. now rewrite rev_involutive.
Qed.

Lemma Clean_trailing_sep (X : gostring) :
  X <> [] -> Clean (X ++ [Separator]) = Clean X.
Proof.
  intros Hx.
  assert (X ++ [Separator] <> []) as Hne
      by (intros H; symmetry in H; revert H; apply app_cons_not_nil).
  rewrite !Clean_elems by assumption.
  rewrite cstate_app_sep, rooted_app by assumption.
  change (elems []) with [@nil ascii].
  unfold norm. cbn [fold_left]. unfold astep.
  destruct (cstate X) as [k st]. reflexivity.
Qed.

Lemma Clean_finish (r : bool) (s : astate) :
  wf r s -> Clean (finish r s) = finish r s.
Proof.
  intros Hwf. destruct (@finish_fix r s Hwf) as (Hne & Hr & Hc).
  rewrite Clean_elems by assumption. now rewrite Hr, Hc.
Qed.

(** The cleaned path of a state whose stack holds an element: what comes
    before the element is empty or ends with a separator. *)
Lemma finish_top (r : bool) (k : nat) (e : gostring) (st : list gostring) :
  finish r (k, e :: st) = e
  \/ exists X, finish r (k, e :: st) = X ++ Separator :: e.
Proof.
  cbn [finish rev]. destruct r.
  - right. destruct (rev st) as [|a l] eqn:E.
    + exists []. reflexivity.
    + exists (Separator :: unsplit (a :: l)).
      rewrite unsplit_snoc by discriminate. reflexivity.
  - rewrite app_assoc.
    destruct (repeat dotdot_s k ++ rev st) as [|a l] eqn:E.
    + left. reflexivity.
    + right. exists (unsplit (a :: l)).
      change (unsplit ((a :: l) ++ [e]) = unsplit (a :: l) ++ Separator :: e).
      now rewrite unsplit_snoc by discriminate.
Qed.

Lemma Base_finish (r : bool) (k : nat) (e : gostring) (st : list gostring) :
  is_real e = true -> Base (finish r (k, e :: st)) = e.
Proof.
  intros He. pose proof (@is_real_no_sep e He) as Hns.
  pose proof (@is_real_not_nil e He) as Hne.
  destruct (finish_top r k e st) as [-> | [X ->]].
  - now apply Base_elem.
  - now apply Base_last.
Qed.

Lemma finish_push (r : bool) (k : nat) (e2 e1 : gostring)
      (st : list gostring) :
  finish r (k, e2 :: e1 :: st) = finish r (k, e1 :: st) ++ Separator :: e2.
Proof.
  cbn [finish rev]. destruct r.
  - rewrite unsplit_snoc; [reflexivity|].
    intros H. symmetry in H. revert H. apply app_cons_not_nil.
  - rewrite !app_assoc.
    destruct ((repeat dotdot_s k ++ rev st) ++ [e1]) as [|a l] eqn:E.
    + symmetry in E. now apply app_cons_not_nil in E.
    + change (unsplit ((a :: l) ++ [e2]) = unsplit (a :: l) ++ Separator :: e2).
      now rewrite unsplit_snoc by discriminate.
Qed.

Lemma Dir_finish (r : bool) (k : nat) (e2 e1 : gostring)
      (st : list gostring) :
  wf r (k, e1 :: st) -> is_real e2 = true ->
  Dir (finish r (k, e2 :: e1 :: st)) = finish r (k, e1 :: st).
Proof.
  intros Hwf He. rewrite finish_push.
  rewrite Dir_last by now apply is_real_no_sep.
  destruct (@finish_fix r (k, e1 :: st) Hwf) as (Hne & _ & _).
  rewrite Clean_trailing_sep by assumption.
  now apply Clean_finish.
Qed.

(** The cleaned form of a join with a path free of [..]. *)
Lemma Join_finish (r p : gostring) :
  r <> [] -> no_dotdot p = true ->
  Join [r; p]
  = finish (rooted r)
      (fst (cstate r), rev (filter is_real (elems p)) ++ snd (cstate r)).
Proof.
  intros Hr Hdd. rewrite <- (@Clean_Join r [p] Hr).
  rewrite Clean_elems by (apply Join_first; assumption).
  rewrite Join_cstate by assumption.
  rewrite Join_cons by assumption. rewrite rooted_Clean.
  rewrite unsplit_cons by discriminate. now rewrite rooted_app.
Qed.

Lemma Join_wf (r p : gostring) :
  r <> [] -> no_dotdot p = true ->
  wf (rooted r)
     (fst (cstate r), rev (filter is_real (elems p)) ++ snd (cstate r)).
Proof.
  intros Hr Hdd. rewrite <- Join_cstate by assumption.
  pose proof (cstate_wf (Join [r; p])) as H.
  rewrite Join_cons in H by assumption. rewrite rooted_Clean in H.
  rewrite unsplit_cons in H by discriminate. rewrite rooted_app in H
    by assumption.
  rewrite Join_cons by assumption. rewrite unsplit_cons by discriminate.
  exact H.
Qed.

(** A file in a directory whose path is a join ending in the element
    [name]. *)
Lemma Base_Dir_Join (r p name file : gostring) (P : list gostring) :
  r <> [] -> no_dotdot p = true -> is_real name = true ->
  is_real file = true ->
  filter is_real (elems p) = P ++ [name] ->
  Base (Dir (Join [Join [r; p]; file])) = name
  /\ Base (Join [Join [r; p]; file]) = file.
Proof.
  intros Hr Hdd Hname Hfile HP.
  pose proof (@Join_wf r p Hr Hdd) as Hwf.
  assert (Join [r; p] <> []) as Hj by now apply Join_first.
  pose proof (@is_real_no_sep file Hfile) as Hns.
  assert (no_dotdot file = true /\ filter is_real (elems file) = [file])
    as [Hfd Hfe].
  { unfold no_dotdot. rewrite elems_single by assumption.
    cbn [forallb filter]. rewrite Hfile. split; [|reflexivity].
    unfold is_real in Hfile. apply andb_true_iff in Hfile as [_ H].
    unfold dotdot_s. now rewrite H. }
  rewrite (@Join_finish (Join [r; p]) file Hj Hfd). rewrite Hfe.
  rewrite Join_cstate by assumption.
  rewrite Join_cons by assumption. rewrite rooted_Clean.
  rewrite unsplit_cons by discriminate. rewrite rooted_app by assumption.
  cbn [fst snd]. rewrite HP in *. rewrite rev_app_distr in *.
  cbn [rev app] in *. split.
  - rewrite Dir_finish by assumption. now apply Base_finish.
  - now apply Base_finish.
Qed.

Lemma mount_not_nil (World : Type) (env : Env) (r : gostring) (p : Pkg World) :
  SnapMountDir (vars (SetRootDir env r p)) <> [].
Proof.
  destruct (SetRootDir_mount env r p) as [H _]. cbv zeta in H.
  apply (f_equal fst) in H. cbn [fst] in H. rewrite H.
  destruct (fst (isInsideBaseSnap env)).
  - apply Join_second. discriminate.
  - destruct (snapMountDirProbe env (root_of r)) eqn:E.
    + eapply probe_ok_not_nil; eauto.
    + discriminate.
Qed.

Lemma libexec_cases (World : Type) (env : Env) (r : gostring) (p : Pkg World) :
  DistroLibExecDir (vars (SetRootDir env r p))
  = Join [root_of r; DefaultDistroLibexecDir]
  \/ DistroLibExecDir (vars (SetRootDir env r p))
     = Join [root_of r; AltDistroLibexecDir].
Proof.
  unfold SetRootDir, SetRootDir_writable. cbn [vars].
  open_paths. cbn [DistroLibExecDir set_writable set_home].
  destruct (Stat env _); [now left|].
  destruct (errors_Is_ErrNotExist _); [|now left].
  destruct (Stat env _); [now right|now left].
Qed.

End BaseMore.
Import BaseMore.

(** X19: [IsCompleteShSymlink] accepts a symbolic link to any path that
    [CompleteShPath] returns after a root change, whatever the base, the
    root and the state of the file system, the mount directory found or
    not. *)
Theorem CompleteShPath_is_recognised
        (World : Type) (env env1 env2 : Env) (r base compPath : gostring)
        (p : Pkg World) :
  Readlink env2 compPath
  = Ok (CompleteShPath env1 base (vars (SetRootDir env r p))) ->
  IsCompleteShSymlink env2 compPath = true.
Proof.
  intros H. unfold IsCompleteShSymlink. rewrite H. clear H.
  pose proof (mount_not_nil env r p) as Hm.
  pose proof (root_of_not_nil r) as Hroot.
  assert (forall a q P,
             a <> [] -> no_dotdot q = true ->
             filter is_real (elems q) = P ++ [str "snapd"] ->
             streq (Base (Dir (Join [Join [a; q]; str "complete.sh"])))
                   (str "snapd")
             && streq (Base (Join [Join [a; q]; str "complete.sh"]))
                      (str "complete.sh") = true) as Hshape.
  { intros a q P Ha Hq HP.
    destruct (@Base_Dir_Join a q (str "snapd") (str "complete.sh") P
                Ha Hq eq_refl eq_refl HP) as [H1 H2].
    apply andb_true_intro. split.
    - exact (eq_trans (f_equal (fun x => streq x (str "snapd")) H1) eq_refl).
    - exact (eq_trans (f_equal (fun x => streq x (str "complete.sh")) H2)
               eq_refl). }
  unfold CompleteShPath, libExecOutside.
  destruct (streq base []).
  { apply (Hshape _ _ [str "core"; str "current"; str "usr"; str "lib"]);
      auto. }
  cbv zeta.
  assert (streq
            (Base (Dir (Join [DistroLibExecDir (vars (SetRootDir env r p));
                              str "complete.sh"])))
            (str "snapd")
          && streq
               (Base (Join [DistroLibExecDir (vars (SetRootDir env r p));
                            str "complete.sh"]))
               (str "complete.sh") = true) as Hdistro.
  { destruct (libexec_cases env r p) as [-> | ->].
    - apply (Hshape _ _ [str "usr"; str "lib"]); auto.
    - apply (Hshape _ _ [str "usr"; str "libexec"]); auto. }
  destruct (Stat env1 _) as [st|err]; [|exact Hdistro].
  destruct (FileMode_IsDir (Mode st)); [|exact Hdistro].
  apply (Hshape _ _ [str "snapd"; str "current"; str "usr"; str "lib"]); auto.
Qed.

Lemma CompleteShPath_is_recognised_witness :
  IsCompleteShSymlink
    (env_with (str "/x/complete.sh") ModeSymlink
       (CompleteShPath env_bare (str "core22")
          (vars (SetRootDir env_denied (str "/y") (zero_pkg tt)))))
    (str "/x/complete.sh") = true.
Proof.
  apply (@CompleteShPath_is_recognised unit env_denied env_bare
           (env_with (str "/x/complete.sh") ModeSymlink
              (CompleteShPath env_bare (str "core22")
                 (vars (SetRootDir env_denied (str "/y") (zero_pkg tt)))))
           (str "/y") (str "core22") (str "/x/complete.sh") (zero_pkg tt)).
  reflexivity.
Defined.

(** X20: after any root change the mount directory is [/snap] under the
    root, [/var/lib/snapd/snap] under the root, or the placeholder, and these
    are three different paths. *)
Theorem mount_dir_three_values (World : Type) (env : Env) (r : gostring)
        (p : Pkg World) :
  let m := SnapMountDir (vars (SetRootDir env r p)) in
  let defaultDir := Join [root_of r; str "/snap"] in
  let altDir := Join [root_of r; str "/var/lib/snapd/snap"] in
  (m = defaultDir \/ m = altDir \/ m = str "mount-dir-is-unset")
  /\ altDir <> defaultDir
  /\ defaultDir <> str "mount-dir-is-unset"
  /\ altDir <> str "mount-dir-is-unset".
Proof.
  intros m defaultDir altDir.
  pose proof (root_of_not_nil r) as Hroot.
  repeat apply conj.
  - subst m. destruct (SetRootDir_mount env r p) as [H _]. cbv zeta in H.
    apply (f_equal fst) in H. cbn [fst] in H. rewrite H.
    destruct (fst (isInsideBaseSnap env)); [now left|].
    destruct (snapMountDirProbe env (root_of r)) as [dir|err] eqn:E.
    + apply probe_candidates in E as [-> | ->]; [now left|now right; left].
    + now right; right.
  - now apply default_not_alt.
  - apply candidate_not_placeholder; auto.
  - apply candidate_not_placeholder; auto.
Qed.

(** X21: inside a base snap a root change runs no probe and leaves the
    detection outcome alone: after a failed probe, the mount directory is
    [/snap] under the new root while the outcome still reports the earlier
    failure. *)
Theorem stale_detection_error (World : Type) (env1 env2 : Env)
        (r1 r2 : gostring) (p : Pkg World) (err : error) :
  fst (isInsideBaseSnap env1) = false ->
  snapMountDirProbe env1 (root_of r1) = Err err ->
  fst (isInsideBaseSnap env2) = true ->
  let d := vars (SetRootDir env2 r2 (SetRootDir env1 r1 p)) in
  SnapMountDir d = Join [root_of r2; str "/snap"]
  /\ SnapMountDir d <> str "mount-dir-is-unset"
  /\ SnapMountDirDetectionOutcome d
     = Some (Errorf_w (str "cannot resolve snap mount directory") err).
Proof.
  intros Hb1 Hp Hb2 d. subst d.
  pose proof (root_of_not_nil r2) as Hroot.
  destruct (SetRootDir_mount env2 r2 (SetRootDir env1 r1 p)) as [H2 _].
  destruct (SetRootDir_mount env1 r1 p) as [H1 _].
  cbv zeta in H1, H2. rewrite Hb2 in H2. rewrite Hb1, Hp in H1.
  apply (f_equal snd) in H1. cbn [snd] in H1.
  pose proof (f_equal fst H2) as Hm. pose proof (f_equal snd H2) as He.
  cbn [fst snd] in Hm, He.
  unfold SnapMountDirDetectionOutcome.
  rewrite Hm, He, H1. repeat apply conj; try reflexivity.
  apply candidate_not_placeholder; auto.
Qed.

Lemma stale_detection_error_witness :
  let d := vars (SetRootDir env_in_base (str "/y")
                   (SetRootDir env_denied (str "/x") (zero_pkg tt))) in
  SnapMountDir d = Join [root_of (str "/y"); str "/snap"]
  /\ SnapMountDir d <> str "mount-dir-is-unset"
  /\ SnapMountDirDetectionOutcome d
     = Some (Errorf_w (str "cannot resolve snap mount directory")
               (Errorf_w (str "cannot stat /x/snap")
                  (PathError "lstat" (str "/x/snap") EACCES))).
Proof.
  apply (@stale_detection_error unit env_denied env_in_base (str "/x")
           (str "/y") (zero_pkg tt)); reflexivity.
Defined.

(** ** [StripRootDir] undone by [Join] *)

Module RelMore.

Lemma reals_no_sep (l : list gostring) :
  Forall (fun e => is_real e = true) l -> Forall (fun e => no_sep e = true) l.
Proof.
  intros H. eapply Forall_impl; [|exact H]. intros e. apply is_real_no_sep.
Qed.

Lemma unsplit_reals_nil (l : list gostring) :
  Forall (fun e => is_real e = true) l -> unsplit l = [] -> l = [].
Proof.
  intros H E. destruct l as [|a l]; [reflexivity|].
  inversion H as [|? ? Ha Hl]; subst.
  exfalso. revert E. apply unsplit_not_nil. now apply is_real_not_nil.
Qed.

(** The first element of a joined list and what follows it. *)
Lemma span_unsplit (a : gostring) (l : list gostring) :
  no_sep a = true ->
  exists tail, span_elem (unsplit (a :: l)) = (a, tail)
               /\ skip_one tail = unsplit l.
Proof.
  intros Ha. destruct l as [|b l].
  - exists []. split; [|reflexivity].
    change (unsplit [a]) with a. rewrite <- (app_nil_r a) at 1.
    now apply span_elem_app.
  - exists (Separator :: unsplit (b :: l)). split; [|reflexivity].
    rewrite unsplit_cons by discriminate.
    now apply span_elem_app.
Qed.

(** Where the loop of [Rel] stops on two lists of real elements: after a
    common start [C], with the element of the base it stopped at, if any. *)
Lemma rel_loop_split (fuel : nat) (A T : list gostring) :
  Forall (fun e => is_real e = true) A ->
  Forall (fun e => is_real e = true) T ->
  exists C A' T' belem,
    A = C ++ A' /\ T = C ++ T'
    /\ rel_loop fuel (unsplit A) (unsplit T) = (unsplit A', belem, unsplit T')
    /\ (belem = [] \/ is_real belem = true).
Proof.
  revert A T. induction fuel as [|fuel IH]; intros A T HA HT.
  { exists [], A, T, []. repeat split. now left. }
  destruct A as [|a A].
  { exists [], [], T, []. repeat split. now left. }
  destruct T as [|t T].
  { exists [], (a :: A), [], []. repeat split; [|now left].
    cbn [rel_loop]. change (unsplit []) with (@nil ascii).
    cbn [is_empty]. now rewrite orb_true_r. }
  inversion HA as [|? ? Ha HA']; subst. inversion HT as [|? ? Ht HT']; subst.
  cbn [rel_loop].
  assert (is_empty (unsplit (a :: A)) = false) as ->.
  { pose proof (@unsplit_not_nil a A (@is_real_not_nil a Ha)).
    destruct (unsplit (a :: A)); [congruence|reflexivity]. }
  assert (is_empty (unsplit (t :: T)) = false) as ->.
  { pose proof (@unsplit_not_nil t T (@is_real_not_nil t Ht)).
    destruct (unsplit (t :: T)); [congruence|reflexivity]. }
  cbn [orb].
  destruct (@span_unsplit a A (@is_real_no_sep a Ha)) as (ta & -> & Hta).
  destruct (@span_unsplit t T (@is_real_no_sep t Ht)) as (tt & -> & Htt).
  destruct (streq t a) eqn:E; cbn [negb].
  - apply streq_eq in E. subst t. rewrite Hta, Htt.
    destruct (IH A T HA' HT') as (C & A' & T' & belem & -> & -> & Hl & Hb).
    exists (a :: C), A', T', belem. repeat split; assumption.
  - exists [], (a :: A), (t :: T), a. repeat split. now right.
Qed.

Lemma updirs_unsplit (n : nat) :
  str ".." ++ updirs n = unsplit (repeat dotdot_s (S n)).
Proof.
  induction n as [|n IH]; [reflexivity|].
  change (repeat dotdot_s (S (S n))) with (dotdot_s :: repeat dotdot_s (S n)).
  rewrite unsplit_cons by discriminate. rewrite <- IH. reflexivity.
Qed.

Lemma Count_unsplit (l : list gostring) :
  l <> [] -> Forall (fun e => no_sep e = true) l ->
  Count (unsplit l) Separator = pred (length l).
Proof.
  intros Hl Hns. pose proof (Split_length (unsplit l) Separator) as H.
  change (Split (unsplit l) Separator) with (elems (unsplit l)) in H.
  rewrite elems_unsplit in H by assumption. lia.
Qed.

(** What [Rel] answers for two rooted paths, element-wise: as many [..] as
    the base has elements left after a common start, then the rest of the
    target. *)
Lemma Rel_rooted (base targ rel : gostring) (A T : list gostring) :
  Clean base = Separator :: unsplit A ->
  Clean targ = Separator :: unsplit T ->
  Forall (fun e => is_real e = true) A ->
  Forall (fun e => is_real e = true) T ->
  Rel base targ = Some rel ->
  rel = str "." /\ T = A
  \/ exists C A' T', A = C ++ A' /\ T = C ++ T'
                     /\ rel = unsplit (repeat dotdot_s (length A') ++ T').
Proof.
  intros Hb Ht HA HT. unfold Rel. rewrite Hb, Ht.
  destruct (streq (Separator :: unsplit T) (Separator :: unsplit A)) eqn:E.
  { intros H. left. split; [congruence|].
    apply streq_eq in E. injection E as E.
    destruct A as [|a A], T as [|t T]; try reflexivity.
    - exfalso. revert E. apply unsplit_not_nil.
      inversion HT; subst. now apply is_real_not_nil.
    - exfalso. symmetry in E. revert E. apply unsplit_not_nil.
      inversion HA; subst. now apply is_real_not_nil.
    - apply (f_equal elems) in E.
      rewrite !elems_unsplit in E
        by (discriminate || apply reals_no_sep; assumption).
      exact E. }
  replace (streq (Separator :: unsplit A) (str ".")) with false by reflexivity.
  cbv beta iota zeta.
  replace (Ascii.eqb Separator Separator) with true by reflexivity.
  cbn [Bool.eqb negb].
  change (length (Separator :: unsplit A)) with (S (length (unsplit A))).
  rewrite rel_loop_sep.
  destruct (@rel_loop_split (S (length (unsplit A))) A T HA HT)
    as (C & A' & T' & belem & EA & ET & -> & Hbe).
  assert (streq belem (str "..") = false) as ->.
  { destruct Hbe as [-> | Hbe]; [reflexivity|].
    unfold is_real in Hbe. apply andb_true_iff in Hbe as [_ Hbe].
    now apply negb_true_iff in Hbe. }
  assert (Forall (fun e => is_real e = true) A') as HA'
      by (rewrite EA in HA; now apply Forall_app in HA).
  assert (Forall (fun e => is_real e = true) T') as HT'
      by (rewrite ET in HT; now apply Forall_app in HT).
  intros H. right. exists C, A', T'. split; [exact EA|]. split; [exact ET|].
  destruct A' as [|a A'].
  - change (unsplit []) with (@nil ascii) in H. cbn [is_empty negb] in H.
    cbn [length repeat app]. congruence.
  - assert (is_empty (unsplit (a :: A')) = false) as Hne.
    { inversion HA' as [|? ? Ha ?]; subst.
      pose proof (@unsplit_not_nil a A' (@is_real_not_nil a Ha)).
      destruct (unsplit (a :: A')); [congruence|reflexivity]. }
    rewrite Hne in H. cbn [negb] in H.
    rewrite Count_unsplit in H by (discriminate || now apply reals_no_sep).
    cbn [length pred] in H.
    assert (rel = (str ".." ++ updirs (length A'))
                    ++ (if is_empty (unsplit T') then []
                        else Separator :: unsplit T')) as ->
        by (rewrite <- app_assoc; congruence).
    rewrite updirs_unsplit.
    destruct T' as [|t T'].
    + change (unsplit []) with (@nil ascii). cbn [is_empty].
      now rewrite !app_nil_r.
    + assert (is_empty (unsplit (t :: T')) = false) as ->.
      { inversion HT' as [|? ? Ht' ?]; subst.
        pose proof (@unsplit_not_nil t T' (@is_real_not_nil t Ht')).
        destruct (unsplit (t :: T')); [congruence|reflexivity]. }
      rewrite unsplit_app by discriminate. reflexivity.
Qed.

(** [n] elements [..] take [n] elements off the stack. *)
Lemma norm_pops (r : bool) (X st : list gostring) (k : nat) :
  norm r (repeat dotdot_s (length X)) (k, X ++ st) = (k, st).
Proof.
  induction X as [|x X IH]; [reflexivity|].
  cbn [length repeat app]. unfold norm. cbn [fold_left].
  fold (norm r (repeat dotdot_s (length X)) (astep r (k, x :: X ++ st) dotdot_s)).
  exact IH.
Qed.

Lemma norm_app (r : bool) (l1 l2 : list gostring) (s : astate) :
  norm r (l1 ++ l2) s = norm r l2 (norm r l1 s).
Proof. unfold norm. apply fold_left_app. Qed.

Lemma cstate_rooted (p : gostring) :
  IsAbs p = true -> cstate p = (0, rev (path_elems p)).
Proof.
  intros Habs. rewrite IsAbs_rooted in Habs.
  pose proof (cstate_wf p) as [_ Hk]. rewrite Habs in Hk.
  unfold path_elems. rewrite rev_involutive.
  destruct (cstate p) as [k st]. cbn [fst snd] in *. now rewrite Hk.
Qed.

End RelMore.
Import RelMore.

(** X22: whenever [StripRootDir] returns, joining the root and the result
    gives the path back in cleaned form; this holds for a path that only
    shares a string prefix with the root as well. *)
Theorem StripRootDir_inverts_Join (d : Dirs) (dir res : gostring) :
  StripRootDir d dir = Returns res ->
  Join [GlobalRootDir d; res] = Clean dir.
Proof.
  intros H. destruct (StripRootDir_returns d dir H) as [Habs Hpre].
  unfold StripRootDir in H. rewrite Habs, Hpre in H. cbn [negb] in H.
  set (root := GlobalRootDir d) in *. clearbody root.
  destruct (Rel root dir) as [rel|] eqn:ER; [|discriminate].
  assert (res = Separator :: rel) as -> by (injection H as <-; reflexivity).
  clear H.
  assert (IsAbs root = true) as Hrabs.
  { destruct root as [|c root].
    - exfalso. unfold Rel in ER.
      rewrite (Clean_rooted_elems dir Habs) in ER. discriminate ER.
    - apply HasPrefix_inv in Hpre as [t Ht]. subst dir.
      rewrite IsAbs_rooted in *. exact Habs. }
  assert (root <> []) as Hroot by (destruct root; discriminate).
  pose proof (Clean_rooted_elems root Hrabs) as Hcr.
  pose proof (Clean_rooted_elems dir Habs) as Hcd.
  pose proof (path_elems_real root) as HA.
  pose proof (path_elems_real dir) as HT.
  assert (root ++ Separator :: Separator :: rel <> []) as Hne
      by (intros E; symmetry in E; revert E; apply app_cons_not_nil).
  rewrite Join_cons by assumption. rewrite unsplit_cons by discriminate.
  change (unsplit [Separator :: rel]) with (Separator :: rel).
  rewrite Clean_elems by exact Hne.
  rewrite cstate_app_sep, rooted_app by assumption.
  rewrite <- IsAbs_rooted, Hrabs. rewrite (cstate_rooted root Hrabs).
  change (Separator :: rel) with ([] ++ Separator :: rel).
  rewrite elems_app_sep. change (elems []) with [@nil ascii].
  rewrite norm_app. change (norm true [[]] (0, rev (path_elems root)))
    with (0, rev (path_elems root)).
  rewrite Hcd.
  destruct (@Rel_rooted root dir rel _ _ Hcr Hcd HA HT ER)
    as [[-> ET] | (C & A' & T' & EA & ET & ->)].
  - rewrite ET. change (norm true (elems (str ".")) (0, rev (path_elems root)))
      with (0, rev (path_elems root)).
    cbn [finish]. now rewrite rev_involutive.
  - rewrite EA in HA. rewrite ET in HT.
    apply Forall_app in HA as [HC HA']. apply Forall_app in HT as [_ HT'].
    rewrite EA, ET. rewrite rev_app_distr.
    destruct (repeat dotdot_s (length A') ++ T') as [|x l] eqn:EL.
    + apply app_eq_nil in EL as [EA' ->].
      assert (A' = []) as -> by (destruct A'; [reflexivity|discriminate]).
      change (elems (unsplit [])) with [@nil ascii].
      cbn [rev app]. change (norm true [[]] (0, rev C)) with (0, rev C).
      cbn [finish]. now rewrite rev_involutive, app_nil_r.
    + rewrite elems_unsplit.
      * rewrite <- EL. rewrite norm_app.
        rewrite <- (length_rev A') at 1. rewrite norm_pops.
        rewrite norm_reals by assumption.
        cbn [finish]. rewrite rev_app_distr, !rev_involutive. reflexivity.
      * discriminate.
      * rewrite <- EL. apply Forall_app. split.
        -- apply Forall_forall. intros e He. apply repeat_spec in He.
           now subst e.
        -- now apply reals_no_sep.
Qed.

Lemma StripRootDir_inverts_Join_witness :
  let d := vars (SetRootDir env_bare (str "/x/y") (zero_pkg tt)) in
  Join [GlobalRootDir d; str "/../y2/z"] = Clean (str "/x/y2//z/").
Proof.
  apply (@StripRootDir_inverts_Join
           (vars (SetRootDir env_bare (str "/x/y") (zero_pkg tt)))
           (str "/x/y2//z/") (str "/../y2/z")).
  reflexivity.
Defined.

(** ** Home directories and the root *)

Module HomeRootMore.

Lemma list_prefix_app (A P : list gostring) : list_prefix A (A ++ P) = true.
Proof.
  induction A as [|a A IH]; [reflexivity|].
  cbn [app list_prefix]. now rewrite streq_refl.
Qed.

Lemma HasSuffix_inv (s suf : gostring) :
  HasSuffix s suf = true -> exists t, s = t ++ suf.
Proof.
  unfold HasSuffix. intros H. apply andb_true_iff in H as [_ H].
  apply streq_eq in H. set (n := length s - length suf) in *. clearbody n.
  exists (firstn n s). rewrite <- H. symmetry. apply firstn_skipn.
Qed.

(** The elements of a cleaned rooted path: an empty one before the first
    separator, then the real ones. *)
Lemma elems_rooted (p : gostring) (a : gostring) (A : list gostring) :
  IsAbs p = true -> Clean p = p -> path_elems p = a :: A ->
  elems p = [] :: a :: A.
Proof.
  intros Habs Hc HA. pose proof (path_elems_real p) as Hreal.
  rewrite <- Hc at 1. rewrite (Clean_rooted_elems p Habs), HA.
  change (Separator :: unsplit (a :: A)) with ([] ++ Separator :: unsplit (a :: A)).
  rewrite elems_app_sep. rewrite elems_unsplit; [reflexivity|discriminate|].
  rewrite HA in Hreal. now apply reals_no_sep.
Qed.

Lemma clean_root_slash (p : gostring) :
  IsAbs p = true -> Clean p = p -> path_elems p = [] -> p = [Separator].
Proof.
  intros Habs Hc HA. rewrite <- Hc. rewrite (Clean_rooted_elems p Habs), HA.
  reflexivity.
Qed.

(** A cleaned rooted path other than ["/"] does not end with a separator. *)
Lemma clean_no_trailing_sep (p t : gostring) :
  IsAbs p = true -> Clean p = p -> p = t ++ [Separator] -> p = [Separator].
Proof.
  intros Habs Hc Ht. destruct (path_elems p) as [|a A] eqn:HA.
  { now apply clean_root_slash. }
  exfalso. pose proof (elems_rooted Habs Hc HA) as He.
  pose proof (path_elems_real p) as Hreal. rewrite HA in Hreal.
  rewrite Ht in He. rewrite elems_app_sep in He.
  change (elems []) with [@nil ascii] in He.
  assert (In [] (a :: A)) as Hin.
  { pose proof (elems_not_nil t) as Hn.
    destruct (elems t) as [|x l]; [congruence|].
    cbn [app] in He. injection He as _ He. rewrite <- He.
    apply in_or_app. right. now left. }
  rewrite Forall_forall in Hreal. specialize (Hreal [] Hin). discriminate.
Qed.

(** Cleaning an absolute path, or a path free of [..], leaves no [..]. *)
Lemma Clean_no_dotdot (e : gostring) :
  IsAbs e || no_dotdot e = true -> no_dotdot (Clean e) = true.
Proof.
  intros H. destruct e as [|c e]; [reflexivity|].
  set (p := c :: e) in *.
  assert (fst (cstate p) = 0) as Hk.
  { apply orb_true_iff in H as [H|H].
    - now rewrite (cstate_rooted p H).
    - unfold cstate. rewrite norm_filter by (apply elems_no_sep || exact H).
      reflexivity. }
  rewrite Clean_elems by discriminate.
  pose proof (cstate_wf p) as [Hreal _].
  destruct (cstate p) as [k st]. cbn [fst snd] in *. subst k.
  apply Forall_rev in Hreal.
  assert (forall l, Forall (fun e => is_real e = true) l ->
                    forallb (fun e => negb (streq e dotdot_s)) l = true) as Hdd.
  { intros l Hl. apply forallb_forall. intros x Hx.
    rewrite Forall_forall in Hl. specialize (Hl x Hx).
    unfold is_real in Hl. apply andb_true_iff in Hl as [_ Hl]. exact Hl. }
  unfold no_dotdot. cbn [finish repeat app].
  destruct (rooted p).
  - change (Separator :: unsplit (rev st))
      with ([] ++ Separator :: unsplit (rev st)).
    rewrite elems_app_sep. change (elems []) with [@nil ascii].
    cbn [app forallb]. destruct (rev st) as [|x l] eqn:E; [reflexivity|].
    rewrite elems_unsplit by (discriminate || now apply reals_no_sep).
    now apply Hdd.
  - destruct (rev st) as [|x l] eqn:E; [reflexivity|].
    rewrite elems_unsplit by (discriminate || now apply reals_no_sep).
    now apply Hdd.
Qed.

(** The join of a rooted path and a path free of [..] lies under it. *)
Lemma Join_under_root (r p : gostring) :
  IsAbs r = true -> no_dotdot p = true -> under_root r (Join [r; p]) = true.
Proof.
  intros Habs Hdd. pose proof (abs_not_nil Habs) as Hr.
  unfold under_root. rewrite IsAbs_Join by assumption. rewrite Habs.
  cbn [andb]. unfold path_elems at 2. rewrite Join_cstate by assumption.
  cbn [snd]. rewrite rev_app_distr, rev_involutive.
  apply list_prefix_app.
Qed.

(** An entry as [SetSnapHomeDirs] stores it lies under the root, unless it
    is a relative path with a [..] element. *)
Lemma home_entry_under_root (root e : gostring) :
  IsAbs root = true -> Clean root = root ->
  IsAbs e || no_dotdot e = true ->
  under_root root (home_entry root e) = true.
Proof.
  intros Habs Hclean He. unfold home_entry.
  destruct (HasPrefix (Clean e) _) eqn:Hp; cbn [negb].
  2:{ apply Join_under_root; [assumption|]. now apply Clean_no_dotdot. }
  apply HasPrefix_inv in Hp as [t Ht].
  assert (IsAbs (Clean e) = true) as HabsE.
  { rewrite Ht. rewrite IsAbs_rooted in *.
    destruct root as [|c root]; [discriminate|].
    destruct (negb (streq _ _) && negb (HasSuffix _ _)); exact Habs. }
  unfold under_root. rewrite Habs, HabsE. cbn [andb].
  destruct (path_elems root) as [|a A] eqn:HA; [reflexivity|].
  pose proof (elems_rooted Habs Hclean HA) as Her.
  assert (Clean e = root ++ Separator :: t
          \/ exists t', Clean e = root ++ Separator :: t') as Hshape.
  { destruct (negb (streq root (str "/")) && negb (HasSuffix root (str "/")))
      eqn:Hg.
    - left. rewrite Ht. now rewrite <- app_assoc.
    - exfalso. apply andb_false_iff in Hg as [Hg|Hg];
        apply negb_false_iff in Hg.
      + apply streq_eq in Hg. rewrite Hg in HA. discriminate HA.
      + apply HasSuffix_inv in Hg as [s Hs].
        pose proof (@clean_no_trailing_sep root s Habs Hclean Hs) as E.
        rewrite E in HA. discriminate HA. }
  assert (exists t', Clean e = root ++ Separator :: t') as [t' Ht']
      by (destruct Hshape as [H|H]; [eexists; exact H|exact H]).
  clear Hshape Ht t.
  destruct (path_elems (Clean e)) as [|x X] eqn:HX.
  { exfalso. pose proof (clean_root_slash HabsE (Clean_idempotent e) HX) as E.
    rewrite E in Ht'. apply (f_equal (@length ascii)) in Ht'.
    rewrite length_app in Ht'. cbn [length] in Ht'.
    destruct root; [discriminate|cbn [length] in Ht'; lia]. }
  pose proof (elems_rooted HabsE (Clean_idempotent e) HX) as HeE.
  rewrite Ht' in HeE. rewrite elems_app_sep, Her in HeE.
  cbn [app] in HeE. injection HeE as Hx HX'. rewrite <- Hx, <- HX'.
  apply (list_prefix_app (a :: A)).
Qed.

End HomeRootMore.
Import HomeRootMore.

(** X23: with a root that is a cleaned absolute path, every home directory
    that [SetSnapHomeDirs] returns lies under the root, as long as no field
    of the argument is a relative path with a [..] element. *)
Theorem homes_under_root (csv : gostring) (d : Dirs) :
  IsAbs (GlobalRootDir d) = true -> Clean (GlobalRootDir d) = GlobalRootDir d ->
  forallb (fun e => IsAbs e || no_dotdot e) (Split csv ","%char) = true ->
  Forall (fun h => under_root (GlobalRootDir d) h = true)
         (fst (SetSnapHomeDirs csv d)).
Proof.
  intros Habs Hclean Hcsv.
  rewrite SetSnapHomeDirs_shape. cbn [fst].
  assert (Forall (fun h => under_root (GlobalRootDir d) h = true)
                 (user_homes (GlobalRootDir d) csv)) as Hu.
  { unfold user_homes. destruct (streq csv []); [constructor|].
    apply Forall_forall. intros h Hh.
    apply in_map_iff in Hh as (e & <- & He).
    apply home_entry_under_root; try assumption.
    rewrite forallb_forall in Hcsv. now apply Hcsv. }
  destruct (ListContains _ _); [exact Hu|].
  apply Forall_app. split; [exact Hu|].
  constructor; [|constructor].
  now apply Join_under_root.
Qed.

Lemma homes_under_root_witness :
  Forall (fun h => under_root (str "/x") h = true)
         (fst (SetSnapHomeDirs (str "/x/a/,b/./c,/xy,/../z")
                 (vars (SetRootDir env_bare (str "/x") (zero_pkg tt))))).
Proof.
  apply (@homes_under_root (str "/x/a/,b/./c,/xy,/../z")
           (vars (SetRootDir env_bare (str "/x") (zero_pkg tt))));
    reflexivity.
Defined.

Module HomeRootMore2.

Lemma Split_one (s : gostring) (sep : ascii) :
  Count s sep = 0 -> Split s sep = [s].
Proof.
  induction s as [|c s IH]; [reflexivity|].
  cbn [Count Split]. destruct (Ascii.eqb c sep); [discriminate|].
  cbn [Nat.add]. intros H. now rewrite (IH H).
Qed.

Lemma HasPrefix_longer (s t : gostring) :
  t <> [] -> HasPrefix s (s ++ t) = false.
Proof.
  intros Ht. unfold HasPrefix.
  assert ((length (s ++ t) <=? length s) = false) as ->; [|reflexivity].
  apply Nat.leb_gt. rewrite length_app.
  destruct t; [congruence|cbn [length]; lia].
Qed.

(** The root directory as a home directory: its own path is stored as a
    path under it, [.] as the root itself. *)
Lemma home_entry_root (root : gostring) :
  IsAbs root = true -> Clean root = root -> root <> str "/" ->
  home_entry root root = Join [root; root]
  /\ home_entry root (str ".") = root.
Proof.
  intros Habs Hclean Hne. pose proof (abs_not_nil Habs) as Hr.
  assert (negb (streq root (str "/")) && negb (HasSuffix root (str "/"))
          = true) as Hg.
  { apply andb_true_iff. split; apply negb_true_iff.
    - now apply streq_false.
    - destruct (HasSuffix root (str "/")) eqn:E; [|reflexivity].
      apply HasSuffix_inv in E as [s Hs].
      now pose proof (@clean_no_trailing_sep root s Habs Hclean Hs). }
  unfold home_entry. rewrite Hg, Hclean. split.
  - now rewrite HasPrefix_longer by discriminate.
  - change (Clean (str ".")) with (str ".").
    assert (HasPrefix (str ".") (root ++ str "/") = false) as ->.
    { rewrite IsAbs_rooted in Habs. destruct root as [|c root]; [congruence|].
      cbn [rooted] in Habs. unfold IsPathSeparator in Habs.
      apply Ascii.eqb_eq in Habs. subst c.
      unfold HasPrefix. cbn [app length firstn].
      destruct (length (root ++ str "/")); reflexivity. }
    cbn [negb]. rewrite Join_finish by (assumption || reflexivity).
    change (rev (filter is_real (elems (str ".")))) with (@nil gostring).
    cbn [app]. transitivity (Clean root); [|exact Hclean].
    rewrite Clean_elems by assumption. now destruct (cstate root).
Qed.

Lemma Join_self_differs (root : gostring) :
  IsAbs root = true -> Clean root = root -> root <> str "/" ->
  Join [root; root] <> root.
Proof.
  intros Habs Hclean Hne E. pose proof (abs_not_nil Habs) as Hr.
  assert (no_dotdot root = true) as Hdd.
  { rewrite <- Hclean. apply Clean_no_dotdot. now rewrite Habs. }
  apply (f_equal cstate) in E. rewrite Join_cstate in E by assumption.
  apply (f_equal snd) in E. cbn [snd] in E.
  apply (f_equal (@length gostring)) in E.
  rewrite length_app, length_rev in E.
  destruct (path_elems root) as [|a A] eqn:HA.
  { apply Hne. now apply clean_root_slash. }
  pose proof (path_elems_real root) as Hreal. rewrite HA in Hreal.
  inversion Hreal as [|? ? Ha _]; subst.
  rewrite (elems_rooted Habs Hclean HA) in E.
  cbn [filter] in E. change (is_real []) with false in E. rewrite Ha in E.
  cbn [length] in E. lia.
Qed.

End HomeRootMore2.
Import HomeRootMore2.

(** X24: the root directory becomes a home directory when the argument
    names it as [.], as the comment in the code says, and not when the
    argument is the root's own path, which is stored as a directory under
    the root. *)
Theorem root_as_home_directory (d : Dirs) :
  let root := GlobalRootDir d in
  IsAbs root = true -> Clean root = root -> root <> str "/" ->
  Count root ","%char = 0 ->
  hd [] (fst (SetSnapHomeDirs (str ".") d)) = root
  /\ hd [] (fst (SetSnapHomeDirs root d)) = Join [root; root]
  /\ Join [root; root] <> root.
Proof.
  intros root Habs Hclean Hne Hcomma.
  destruct (home_entry_root Habs Hclean Hne) as [Hself Hdot].
  pose proof (abs_not_nil Habs) as Hr.
  rewrite !SetSnapHomeDirs_shape. cbn [fst]. fold root.
  unfold user_homes. rewrite (streq_false Hr).
  rewrite (@Split_one root ","%char Hcomma).
  change (if streq (str ".") [] then [] else Split (str ".") ","%char)
    with [str "."].
  cbn [map]. rewrite Hself, Hdot.
  repeat apply conj.
  - now destruct (ListContains _ _).
  - now destruct (ListContains _ _).
  - now apply Join_self_differs.
Qed.

Lemma root_as_home_directory_witness :
  let d := vars (SetRootDir env_bare (str "/x") (zero_pkg tt)) in
  hd [] (fst (SetSnapHomeDirs (str ".") d)) = GlobalRootDir d
  /\ hd [] (fst (SetSnapHomeDirs (GlobalRootDir d) d))
     = Join [GlobalRootDir d; GlobalRootDir d]
  /\ Join [GlobalRootDir d; GlobalRootDir d] <> GlobalRootDir d.
Proof.
  apply (@root_as_home_directory
           (vars (SetRootDir env_bare (str "/x") (zero_pkg tt))));
    try reflexivity.
  vm_compute. discriminate.
Defined.

(** X25: [StripRootDir] on the mount directory and on [SnapBinariesDir]
    after a root change to a cleaned absolute root: with the mount directory
    found it returns [/snap] or [/var/lib/snapd/snap], and the same followed
    by [/bin]; after a failed probe both calls panic, the placeholder being a
    relative path. *)
Theorem StripRootDir_mount_dir (World : Type) (env : Env) (r : gostring)
        (p : Pkg World) :
  IsAbs r = true -> Clean r = r ->
  let d := vars (SetRootDir env r p) in
  (mount_resolved env r = true ->
   exists m, (m = str "/snap" \/ m = str "/var/lib/snapd/snap")
             /\ StripRootDir d (SnapMountDir d) = Returns m
             /\ StripRootDir d (SnapBinariesDir d) = Returns (m ++ str "/bin"))
  /\ (mount_resolved env r = false ->
      exists msg1 msg2,
        StripRootDir d (SnapMountDir d) = Panics msg1
        /\ StripRootDir d (SnapBinariesDir d) = Panics msg2).
Proof.
  intros Habs Hclean d. pose proof (abs_not_nil Habs) as Hr.
  assert (GlobalRootDir d = r) as Hroot
      by (subst d; rewrite SetRootDir_root; now apply root_of_id).
  destruct (SetRootDir_mount env r p) as [Hm Hb]. cbv zeta in Hm, Hb.
  fold d in Hm, Hb. apply (f_equal fst) in Hm. cbn [fst] in Hm.
  rewrite (root_of_id Hr) in Hm.
  unfold mount_resolved, probe_failed. rewrite (root_of_id Hr).
  assert (forall x, x = DefaultSnapMountDir \/ x = AltSnapMountDir ->
                    SnapMountDir d = Join [r; x] ->
                    exists m, (m = str "/snap" \/ m = str "/var/lib/snapd/snap")
                              /\ StripRootDir d (SnapMountDir d) = Returns m
                              /\ StripRootDir d (SnapBinariesDir d)
                                 = Returns (m ++ str "/bin")) as Hfound.
  { intros x Hx E. rewrite Hb, E.
    assert (x <> []) as Hxn by (destruct Hx; subst x; discriminate).
    rewrite Join_Join by (assumption || discriminate).
    rewrite Join_merge by assumption.
    destruct Hx; subst x.
    - exists (str "/snap"). split; [now left|].
      split; rewrite (@strip_join d r) by (assumption || reflexivity);
        reflexivity.
    - exists (str "/var/lib/snapd/snap"). split; [now right|].
      split; rewrite (@strip_join d r) by (assumption || reflexivity);
        reflexivity. }
  split.
  - intros Hres. destruct (fst (isInsideBaseSnap env)).
    + apply (Hfound DefaultSnapMountDir); [now left|exact Hm].
    + cbn [orb] in Hres.
      destruct (snapMountDirProbe env r) as [dir|err] eqn:E; [|discriminate].
      cbn [fst] in Hm.
      apply probe_candidates in E as [E|E].
      * apply (Hfound DefaultSnapMountDir); [now left|congruence].
      * apply (Hfound AltSnapMountDir); [now right|congruence].
  - intros Hres. destruct (fst (isInsideBaseSnap env)); [discriminate|].
    cbn [orb] in Hres.
    destruct (snapMountDirProbe env r) as [dir|err]; [discriminate|].
    cbn [fst] in Hm. rewrite Hb, Hm. eexists _, _. split; reflexivity.
Qed.

Lemma StripRootDir_mount_dir_witness :
  let d := vars (SetRootDir env_bare (str "/x") (zero_pkg tt)) in
  (mount_resolved env_bare (str "/x") = true ->
   exists m, (m = str "/snap" \/ m = str "/var/lib/snapd/snap")
             /\ StripRootDir d (SnapMountDir d) = Returns m
             /\ StripRootDir d (SnapBinariesDir d) = Returns (m ++ str "/bin"))
  /\ (mount_resolved env_bare (str "/x") = false ->
      exists msg1 msg2,
        StripRootDir d (SnapMountDir d) = Panics msg1
        /\ StripRootDir d (SnapBinariesDir d) = Panics msg2).
Proof.
  apply (@StripRootDir_mount_dir unit env_bare (str "/x") (zero_pkg tt));
    reflexivity.
Defined.

(** X26: outside a base snap a root change forgets the past: the
    variables it leaves are the same after any two histories of root
    changes since [init]. *)
Theorem SetRootDir_forgets_history
        (World : Type) (env env1 env2 : Env) (r r1 r2 : gostring)
        (calls1 calls2 : list (Env * gostring)) (w1 w2 : World) :
  fst (isInsideBaseSnap env) = false ->
  vars (SetRootDir env r (SetRootDirs calls1 (init env1 r1 w1)))
  = vars (SetRootDir env r (SetRootDirs calls2 (init env2 r2 w2))).
Proof.
  intros Hbase.
  destruct (unassigned_after_init calls1 env1 r1 w1) as [Hc1 Ht1].
  destruct (unassigned_after_init calls2 env2 r2 w2) as [Hc2 Ht2].
  apply SetRootDir_reads.
  - now rewrite Hc1, Hc2.
  - now rewrite Ht1, Ht2.
  - intros E. rewrite Hbase in E. discriminate E.
Qed.

Lemma SetRootDir_forgets_history_witness :
  vars (SetRootDir env_bare (str "/x")
          (SetRootDirs [(env_denied, str "/y")] (init env_bare [] tt)))
  = vars (SetRootDir env_bare (str "/x")
            (SetRootDirs [] (init env_in_base (str "/z") tt))).
Proof.
  apply (@SetRootDir_forgets_history unit env_bare env_bare env_in_base
           (str "/x") [] (str "/z") [(env_denied, str "/y")] [] tt tt).
  reflexivity.
Defined.

(** X27: a root change overrides an earlier [SetSnapHomeDirs]: the
    variables it leaves are those it leaves without that call. *)
Theorem SetRootDir_overrides_homes (World : Type) (env : Env)
        (r csv : gostring) (p : Pkg World) :
  vars (SetRootDir env r
          {| vars := snd (SetSnapHomeDirs csv (vars p));
             callbacks := callbacks p;
             world := world p |})
  = vars (SetRootDir env r p).
Proof.
  apply SetRootDir_reads; cbn [vars]; intros;
    rewrite SetSnapHomeDirs_shape; reflexivity.
Qed.

(** X28: [CompleteShPath] after a failed probe: with no base it is a
    relative path under the placeholder; with a base it is under the
    distribution's library directory, unless the relative path
    [mount-dir-is-unset/snapd/current/usr/lib/snapd] is a directory for
    [os.Stat]. *)
Theorem CompleteShPath_unresolved (World : Type) (env env1 : Env)
        (r base : gostring) (p : Pkg World) :
  mount_resolved env r = false ->
  let d := vars (SetRootDir env r p) in
  let inSnapd := str "mount-dir-is-unset/snapd/current/usr/lib/snapd" in
  CompleteShPath env1 [] d
  = str "mount-dir-is-unset/core/current/usr/lib/snapd/complete.sh"
  /\ (base <> [] ->
      CompleteShPath env1 base d
      = match Stat env1 inSnapd with
        | Ok st => if FileMode_IsDir (Mode st)
                   then inSnapd ++ str "/complete.sh"
                   else Join [DistroLibExecDir d; str "complete.sh"]
        | Err _ => Join [DistroLibExecDir d; str "complete.sh"]
        end).
Proof.
  intros Hres d inSnapd.
  assert (SnapMountDir d = snapMountDirUnresolvedPlaceholder) as Hm.
  { subst d. destruct (SetRootDir_mount env r p) as [H _]. cbv zeta in H.
    apply (f_equal fst) in H. cbn [fst] in H. rewrite H.
    unfold mount_resolved, probe_failed in Hres.
    destruct (fst (isInsideBaseSnap env)); [discriminate|].
    cbn [orb] in Hres.
    now destruct (snapMountDirProbe env (root_of r)). }
  unfold CompleteShPath, libExecOutside. rewrite Hm. split; [reflexivity|].
  intros Hb. rewrite (streq_false Hb).
  change (Join [snapMountDirUnresolvedPlaceholder;
                str "snapd/current/usr/lib/snapd"]) with inSnapd.
  destruct (Stat env1 inSnapd) as [st|err]; [|reflexivity].
  destruct (FileMode_IsDir (Mode st)); reflexivity.
Qed.

Lemma CompleteShPath_unresolved_witness :
  let d := vars (SetRootDir env_denied (str "/x") (zero_pkg tt)) in
  let inSnapd := str "mount-dir-is-unset/snapd/current/usr/lib/snapd" in
  CompleteShPath env_denied [] d
  = str "mount-dir-is-unset/core/current/usr/lib/snapd/complete.sh"
  /\ (str "core22" <> [] ->
      CompleteShPath env_denied (str "core22") d
      = match Stat env_denied inSnapd with
        | Ok st => if FileMode_IsDir (Mode st)
                   then inSnapd ++ str "/complete.sh"
                   else Join [DistroLibExecDir d; str "complete.sh"]
        | Err _ => Join [DistroLibExecDir d; str "complete.sh"]
        end).
Proof.
  apply (@CompleteShPath_unresolved unit env_denied env_denied (str "/x")
           (str "core22") (zero_pkg tt)).
  reflexivity.
Defined.

Module RelMore2.

(** [Rel] answers for any two rooted paths. *)
Lemma Rel_rooted_some (base targ : gostring) :
  IsAbs base = true -> IsAbs targ = true ->
  exists rel, Rel base targ = Some rel.
Proof.
  intros Hb Ht.
  pose proof (Clean_rooted_elems base Hb) as Hcb.
  pose proof (Clean_rooted_elems targ Ht) as Hct.
  pose proof (path_elems_real base) as HA.
  pose proof (path_elems_real targ) as HT.
  unfold Rel. rewrite Hcb, Hct.
  destruct (streq _ _); [eexists; reflexivity|].
  replace (streq (Separator :: unsplit (path_elems base)) (str "."))
    with false by reflexivity.
  cbv beta iota zeta.
  replace (Ascii.eqb Separator Separator) with true by reflexivity.
  cbn [Bool.eqb negb].
  change (length (Separator :: unsplit (path_elems base)))
    with (S (length (unsplit (path_elems base)))).
  rewrite rel_loop_sep.
  destruct (@rel_loop_split (S (length (unsplit (path_elems base))))
              (path_elems base) (path_elems targ) HA HT)
    as (C & A' & T' & belem & _ & _ & -> & Hbe).
  assert (streq belem (str "..") = false) as ->.
  { destruct Hbe as [-> | Hbe]; [reflexivity|].
    unfold is_real in Hbe. apply andb_true_iff in Hbe as [_ Hbe].
    now apply negb_true_iff in Hbe. }
  destruct (negb (is_empty (unsplit A'))); eexists; reflexivity.
Qed.

End RelMore2.
Import RelMore2.

(** X29: with a root set, [StripRootDir] returns exactly for the absolute
    paths that start with the root as a string: the error of [filepath.Rel]
    never shows, and a path under the root that is not spelt with the root
    in front makes it panic. *)
Theorem StripRootDir_returns_exactly (d : Dirs) (dir : gostring) :
  GlobalRootDir d <> [] ->
  (exists res, StripRootDir d dir = Returns res)
  <-> IsAbs dir = true /\ HasPrefix dir (GlobalRootDir d) = true.
Proof.
  intros Hroot. split.
  - intros [res H]. now apply StripRootDir_returns in H.
  - intros [Habs Hpre]. unfold StripRootDir. rewrite Habs, Hpre.
    cbn [negb].
    assert (IsAbs (GlobalRootDir d) = true) as Hrabs.
    { destruct (GlobalRootDir d) as [|c root]; [congruence|].
      apply HasPrefix_inv in Hpre as [t Ht]. subst dir.
      rewrite IsAbs_rooted in *. exact Habs. }
    destruct (@Rel_rooted_some (GlobalRootDir d) dir Hrabs Habs) as [rel ->].
    eexists. reflexivity.
Qed.

Lemma StripRootDir_returns_exactly_witness :
  (exists res,
      StripRootDir (vars (SetRootDir env_bare (str "/x") (zero_pkg tt)))
        (str "/./x/y") = Returns res)
  <-> IsAbs (str "/./x/y") = true
      /\ HasPrefix (str "/./x/y")
           (GlobalRootDir (vars (SetRootDir env_bare (str "/x") (zero_pkg tt))))
         = true.
Proof.
  apply (@StripRootDir_returns_exactly
           (vars (SetRootDir env_bare (str "/x") (zero_pkg tt)))
           (str "/./x/y")).
  discriminate.
Defined.

(** X30: the probe fails in these cases and no other, none of them on a
    distribution with the special default: [lstat] of [/snap] under the root
    fails with an error other than "does not exist"; [/snap] is a symbolic
    link that cannot be read or that points to none of the three spellings
    of the alternate directory; [/snap] is neither a symbolic link nor a
    directory. *)
Theorem snapMountDirProbe_fails_exactly (env : Env) (r : gostring) :
  let defaultDir := Join [r; str "/snap"] in
  let altDir := Join [r; str "/var/lib/snapd/snap"] in
  match snapMountDirProbe env r with Ok _ => false | Err _ => true end
  = negb (DistroLike env specialDefaultDirDistros)
    && match Lstat env defaultDir with
       | Err err => negb (errors_Is_ErrNotExist err)
       | Ok fi =>
           if is_symlink fi then
             match Readlink env defaultDir with
             | Err _ => true
             | Ok p => negb (streq p (str "/var/lib/snapd/snap"))
                       && negb (streq p (str "var/lib/snapd/snap"))
                       && negb (streq p altDir)
             end
           else negb (is_dir fi)
       end.
Proof.
  intros defaultDir altDir. unfold snapMountDirProbe.
  change (Join [r; DefaultSnapMountDir]) with defaultDir.
  change (Join [r; AltSnapMountDir]) with altDir.
  destruct (DistroLike env specialDefaultDirDistros); [reflexivity|].
  cbn [negb andb]. unfold is_symlink, is_dir.
  destruct (Lstat env defaultDir) as [fi|err].
  - rewrite Type_symlink, Type_IsDir.
    destruct (negb (Z.land (Mode fi) ModeSymlink =? 0)%Z).
    + destruct (Readlink env defaultDir) as [p|e]; [|reflexivity].
      change AltSnapMountDir with (str "/var/lib/snapd/snap").
      change (skipn 1 (str "/var/lib/snapd/snap"))
        with (str "var/lib/snapd/snap").
      now destruct (negb (streq p (str "/var/lib/snapd/snap"))
                    && negb (streq p (str "var/lib/snapd/snap"))
                    && negb (streq p altDir)).
    + now destruct (FileMode_IsDir (Mode fi)).
  - now destruct (errors_Is_ErrNotExist err).
Qed.
